(** * The Atari keyboard driver (sys/arch/atari/dev/kbd.c)

    A shallow embedding of the keyboard ACIA driver: the ring buffer that
    links the hard interrupt handler [kbdintr] to the soft interrupt handler
    [kbdsoft], the package (packet) assembly, the modifier tracking, the
    dispatch of key strokes, the event queue, the bell parameters, the
    command writer and the control requests.

    C integers are modelled by [Z] with the wrap-around written out
    ([u_int], [int], [uint8_t]); arrays by lists accessed by index. *)

From Stdlib Require Import ZArith Lia List Bool String.
From stdpp Require Import base list numbers.

Open Scope Z_scope.

(** ** Machine integers (m68k: 32 bit [int], 8 bit [uint8_t]) *)

Module Mach.

(** Conversion to [u_int]: reduction modulo 2^32. *)
Definition u_int (z : Z) : Z := z mod 2 ^ 32.

(** Conversion to [int]: two's complement wrap-around. The same is taken
    for the result of an [int] operation that leaves the range. *)
Definition int (z : Z) : Z := (z + 2 ^ 31) mod 2 ^ 32 - 2 ^ 31.

(** Conversion to [uint8_t]. *)
Definition uint8_t (z : Z) : Z := Z.land z 255.

End Mach.

Import Mach.

(** ** The ring buffer between the hard and the soft interrupt handler *)

Definition KBD_RING_SIZE : Z := 256.
Definition KBD_RING_MASK : Z := 255.

(** The file-scope variables [kbd_ring], [kbd_rbput] and [kbd_rbget]. *)
Record ringbuf : Type := Ringbuf {
  kbd_ring : list Z;      (* uint8_t kbd_ring[KBD_RING_SIZE] *)
  kbd_rbput : Z;          (* volatile u_int, 'put' index *)
  kbd_rbget : Z           (* u_int, 'get' index *)
}.

Definition set_kbd_rbget (g : Z) (rb : ringbuf) : ringbuf :=
  {| kbd_ring := kbd_ring rb; kbd_rbput := kbd_rbput rb; kbd_rbget := g |}.

(** Well-formed ring buffers: the array has its declared size and the two
    indices are values of type [u_int]. *)
Record ringbuf_wf (rb : ringbuf) : Prop := {
  wf_ring : length (kbd_ring rb) = Z.to_nat KBD_RING_SIZE;
  wf_put : 0 <= kbd_rbput rb < 2 ^ 32;
  wf_get : 0 <= kbd_rbget rb < 2 ^ 32
}.

(** The slot addressed by an index: [i & KBD_RING_MASK]. *)
Definition ring_slot (i : Z) : nat := Z.to_nat (Z.land i KBD_RING_MASK).

(** [kbd_ring[kbd_rbput++ & KBD_RING_MASK] = code;] in [kbdintr]. *)
Definition kbd_ring_put (rb : ringbuf) (code : Z) : ringbuf :=
  {| kbd_ring := <[ring_slot (kbd_rbput rb) := code]> (kbd_ring rb);
     kbd_rbput := u_int (kbd_rbput rb + 1);
     kbd_rbget := kbd_rbget rb |}.

(** The ring of a driver that has not seen a byte yet. *)
Definition ring_initial : ringbuf :=
  {| kbd_ring := replicate 256 0; kbd_rbput := 0; kbd_rbget := 0 |}.

(** 300 key codes, more than the ring holds. *)
Definition keycodes_300 : list Z :=
  map (fun n => Z.of_nat n mod 128) (seq 0 300).

(** A sequence of pushes, in the order of the list. *)
Definition put_all (l : list Z) (rb : ringbuf) : ringbuf :=
  fold_left kbd_ring_put l rb.

(** [if (n > KBD_RING_SIZE) { get += n - KBD_RING_SIZE; n = KBD_RING_SIZE; }]
    in [kbdsoft]: the values of [get] and [n] afterwards. *)
Definition kbdsoft_overflow (get n : Z) : Z * Z :=
  if KBD_RING_SIZE <? n   (* Ring buffer overflow *)
  then (int (get + (n - KBD_RING_SIZE)), KBD_RING_SIZE)
  else (get, n).

(** The two loops of [kbdsoft], for an arbitrary treatment [body] of each
    byte taken from the ring. [St] is whatever the body works on. *)
Section Kbdsoft_loops.
Context {St : Type} (body : St -> Z -> St).

(** [while (--n >= 0) { code = kbd_ring[get++ & KBD_RING_MASK]; ... }] *)
Fixpoint kbdsoft_while (fuel : nat) (ring : list Z) (n get : Z) (s : St)
  : option (Z * St) :=
  match fuel with
  | O => None
  | S fuel' =>
      let n := int (n - 1) in
      if 0 <=? n then
        let code := ring !!! ring_slot get in
        let get := int (get + 1) in
        kbdsoft_while fuel' ring n get (body s code)
      else Some (get, s)
  end.

(** [for (;;) { n = kbd_rbput; if (get == n) break; n -= get; ... ;
    kbd_rbget = get; }] *)
Fixpoint kbdsoft_for (fuel : nat) (rb : ringbuf) (get : Z) (s : St)
  : option (ringbuf * St) :=
  match fuel with
  | O => None
  | S fuel' =>
      let n := int (kbd_rbput rb) in
      if get =? n then Some (rb, s)
      else
        let n := int (n - get) in
        let '(get, n) := kbdsoft_overflow get n in
        match kbdsoft_while fuel' (kbd_ring rb) n get s with
        | None => None
        | Some (get, s) =>
            kbdsoft_for fuel' (set_kbd_rbget (u_int get) rb) get s
        end
  end.

(** [get = kbd_rbget;] followed by the loops. *)
Definition kbdsoft_loop (fuel : nat) (rb : ringbuf) (s : St)
  : option (ringbuf * St) :=
  kbdsoft_for fuel rb (int (kbd_rbget rb)) s.
End Kbdsoft_loops.

(** The bytes one pass of [kbdsoft] takes from the ring, in the order it
    takes them. *)
Definition kbd_ring_drain (fuel : nat) (rb : ringbuf)
  : option (ringbuf * list Z) :=
  kbdsoft_loop (fun bytes code => bytes ++ [code]) fuel rb [].

(** The number of bytes one pass reads when [d] bytes were pushed since
    the last one. *)
Definition drain_count (d : Z) : Z := Z.min d KBD_RING_SIZE.

(** The contents of [k] consecutive slots from index [get]. *)
Fixpoint ring_slice (ring : list Z) (get : Z) (k : nat) : list Z :=
  match k with
  | O => []
  | S k' => ring !!! ring_slot get :: ring_slice ring (get + 1) k'
  end.

(** ** What the headers outside these sources declare

    [kbd.c] takes its macros and constants from headers that are not among
    the sources at hand (ite.h, wskbd.h, mouse.h, atari/dev/kbdreg.h,
    atari/dev/kbdmap.h, atari/dev/event_var.h, atari/dev/vuid_event.h,
    machine/acia.h). The driver is modelled for any value of them. *)
Class KbdReg : Type := {
  (* kernel configuration *)
  NITE : Z;
  NWSKBD : Z;
  NMOUSE : Z;
  (* classification of a byte sent by the keyboard *)
  KBD_IS_KEY : Z -> bool;
  KBD_RELEASED : Z -> bool;
  KBD_SCANCODE : Z -> Z;
  (* scan codes of the modifier keys *)
  KBD_LEFT_SHIFT : Z;
  KBD_RIGHT_SHIFT : Z;
  KBD_CTRL : Z;
  KBD_ALT : Z;
  KBD_CAPS_LOCK : Z;
  (* bits of kbd_modifier *)
  KBD_MOD_LSHIFT : Z;
  KBD_MOD_RSHIFT : Z;
  KBD_MOD_CTRL : Z;
  KBD_MOD_ALT : Z;
  KBD_MOD_CAPS : Z;
  (* event queue *)
  EV_QSIZE : Z;
  VKEY_UP : Z;
  VKEY_DOWN : Z;
  TR_UNTRANS_EVENT : Z;
  (* transmit interrupt enable bit of the ACIA control register *)
  A_TXINT : Z
}.

(** What the properties below use of these values: the modifier scan
    codes are the labels of one [switch] and so pairwise distinct, the
    modifier bits are non-zero bytes, and the event queue has at least one
    slot. *)
Record KbdRegOk (R : KbdReg) : Prop := {
  ok_scancodes : NoDup [KBD_LEFT_SHIFT; KBD_RIGHT_SHIFT; KBD_CTRL; KBD_ALT;
                        KBD_CAPS_LOCK];
  ok_lshift : 0 < KBD_MOD_LSHIFT < 256;
  ok_rshift : 0 < KBD_MOD_RSHIFT < 256;
  ok_ctrl : 0 < KBD_MOD_CTRL < 256;
  ok_alt : 0 < KBD_MOD_ALT < 256;
  ok_caps : 0 < KBD_MOD_CAPS < 256;
  ok_qsize : 0 < EV_QSIZE
}.

(** An instance for the examples: a kernel with ite, wskbd and mouse. A
    byte below [0xf6] is a key code, its bit 7 tells a release and its low
    7 bits are the scan code; the scan codes of the modifier keys are those
    an Atari keyboard sends. *)
Definition atari_kbdreg : KbdReg := {|
  NITE := 1; NWSKBD := 1; NMOUSE := 1;
  KBD_IS_KEY := fun c => c <? 0xf6;
  KBD_RELEASED := fun c => negb (Z.land c 0x80 =? 0);
  KBD_SCANCODE := fun c => Z.land c 0x7f;
  KBD_LEFT_SHIFT := 0x2a; KBD_RIGHT_SHIFT := 0x36; KBD_CTRL := 0x1d;
  KBD_ALT := 0x38; KBD_CAPS_LOCK := 0x3a;
  KBD_MOD_LSHIFT := 0x01; KBD_MOD_RSHIFT := 0x02; KBD_MOD_CTRL := 0x04;
  KBD_MOD_ALT := 0x08; KBD_MOD_CAPS := 0x10;
  EV_QSIZE := 256; VKEY_UP := 0; VKEY_DOWN := 1; TR_UNTRANS_EVENT := 3;
  A_TXINT := 0x20
|}.

(** The same kernel configured without ite. *)
Definition atari_kbdreg_no_ite : KbdReg := {|
  NITE := 0; NWSKBD := 1; NMOUSE := 1;
  KBD_IS_KEY := fun c => c <? 0xf6;
  KBD_RELEASED := fun c => negb (Z.land c 0x80 =? 0);
  KBD_SCANCODE := fun c => Z.land c 0x7f;
  KBD_LEFT_SHIFT := 0x2a; KBD_RIGHT_SHIFT := 0x36; KBD_CTRL := 0x1d;
  KBD_ALT := 0x38; KBD_CAPS_LOCK := 0x3a;
  KBD_MOD_LSHIFT := 0x01; KBD_MOD_RSHIFT := 0x02; KBD_MOD_CTRL := 0x04;
  KBD_MOD_ALT := 0x08; KBD_MOD_CAPS := 0x10;
  EV_QSIZE := 256; VKEY_UP := 0; VKEY_DOWN := 1; TR_UNTRANS_EVENT := 3;
  A_TXINT := 0x20
|}.

(** ** Data of the driver *)

(** Package types ([KBD_*_PKG]), the labels of the [switch] in [kbdsoft]. *)
Inductive pkg_type : Type :=
  | KBD_MEM_PKG | KBD_AMS_PKG | KBD_RMS_PKG | KBD_CLK_PKG
  | KBD_JOY0_PKG | KBD_JOY1_PKG.

Inductive wscons_event_type : Type :=
  | WSCONS_EVENT_KEY_UP | WSCONS_EVENT_KEY_DOWN.

Inductive ite_filter_caller : Type := ITEFILT_TTY.

(** Wait channels of [tsleep] and [wakeup]. *)
Inductive wchan : Type := chan_sc_sendp | chan_sc_send_cnt.

Inductive errno : Type := EPERM | ENOTTY | EOPNOTSUPP.

(** [struct proc], as far as the driver looks at it. *)
Record proc : Type := Proc { p_pid : Z; p_pgid : Z }.

(** [struct firm_event]. *)
Record firm_event : Type := Firm_event { fe_id : Z; fe_value : Z; fe_time : Z }.

(** [struct evvar], as far as the driver looks at it. *)
Record evvar : Type := Evvar {
  ev_io : option proc;      (* NULL when nobody has opened the device *)
  ev_async : bool;
  ev_q : list firm_event;   (* EV_QSIZE entries *)
  ev_put : Z;
  ev_get : Z
}.

(** [struct kbd_softc]; the softint cookie and the entropy source are
    handles of other subsystems and are left out. *)
Record kbd_softc : Type := Kbd_softc {
  sc_event_mode : Z;
  sc_events : evvar;
  sc_soft_cs : Z;
  sc_package : list Z;      (* uint8_t sc_package[20] *)
  sc_pkg_size : Z;
  sc_pkg_idx : Z;
  sc_pkg_type : pkg_type;
  sc_sendp : option (list Z);   (* NULL, or the bytes still to send *)
  sc_send_cnt : Z;
  sc_wskbddev : option nat;     (* NULL, or the attached wskbd device *)
  sc_pollingmode : Z
}.

(** The receive side of the keyboard ACIA: the bytes waiting in it, each
    with the error condition (overrun or parity) its status shows, and
    whether the transmit register is empty. *)
Record acia : Type := Acia {
  rx_pending : list (bool * Z);
  tx_ready : bool
}.

(** What the driver does to its surroundings, in the order it happens. *)
Inductive effect : Type :=
  | mouse_soft (package : list Z) (size : Z) (type : pkg_type)
  | wskbd_input (dev : nat) (type : wscons_event_type) (scancode : Z)
  | ite_filter (code : Z) (caller : ite_filter_caller)
  | log_warning (msg : string)
  | printf_unknown_packet (msg_start : Z)
  | EV_WAKEUP
  | KBD_ac_cs_write (v : Z)
  | KBD_ac_da_write (v : Z)
  | YM2149_write (selr wdat : Z)
  | wakeup (chan : wchan)
  | softint_schedule
  | rnd_add_uint32.

(** The driver and what it touches: the softc, the global [kbd_modifier],
    the [sound] table, the ACIA, the clock read by [firm_gettime] (the
    [n]th reading gives [clock n]) and the effects so far. *)
Record kbd_state : Type := Kbd_state {
  softc : kbd_softc;
  kbd_modifier : Z;
  sound : list Z;
  KBD : acia;
  clock : nat -> Z;
  clock_reads : nat;
  trace : list effect
}.

(** Assignments to single fields. *)
Definition set_ev_put (v : Z) (ev : evvar) : evvar :=
  {| ev_io := ev_io ev; ev_async := ev_async ev; ev_q := ev_q ev;
     ev_put := v; ev_get := ev_get ev |}.

Definition set_ev_q (q : list firm_event) (ev : evvar) : evvar :=
  {| ev_io := ev_io ev; ev_async := ev_async ev; ev_q := q;
     ev_put := ev_put ev; ev_get := ev_get ev |}.

Definition set_ev_async (b : bool) (ev : evvar) : evvar :=
  {| ev_io := ev_io ev; ev_async := b; ev_q := ev_q ev;
     ev_put := ev_put ev; ev_get := ev_get ev |}.

Definition set_sc_event_mode (v : Z) (sc : kbd_softc) : kbd_softc :=
  {| sc_event_mode := v; sc_events := sc_events sc;
     sc_soft_cs := sc_soft_cs sc; sc_package := sc_package sc;
     sc_pkg_size := sc_pkg_size sc; sc_pkg_idx := sc_pkg_idx sc;
     sc_pkg_type := sc_pkg_type sc; sc_sendp := sc_sendp sc;
     sc_send_cnt := sc_send_cnt sc; sc_wskbddev := sc_wskbddev sc;
     sc_pollingmode := sc_pollingmode sc |}.

Definition set_sc_events (ev : evvar) (sc : kbd_softc) : kbd_softc :=
  {| sc_event_mode := sc_event_mode sc; sc_events := ev;
     sc_soft_cs := sc_soft_cs sc; sc_package := sc_package sc;
     sc_pkg_size := sc_pkg_size sc; sc_pkg_idx := sc_pkg_idx sc;
     sc_pkg_type := sc_pkg_type sc; sc_sendp := sc_sendp sc;
     sc_send_cnt := sc_send_cnt sc; sc_wskbddev := sc_wskbddev sc;
     sc_pollingmode := sc_pollingmode sc |}.

Definition set_sc_soft_cs (v : Z) (sc : kbd_softc) : kbd_softc :=
  {| sc_event_mode := sc_event_mode sc; sc_events := sc_events sc;
     sc_soft_cs := v; sc_package := sc_package sc;
     sc_pkg_size := sc_pkg_size sc; sc_pkg_idx := sc_pkg_idx sc;
     sc_pkg_type := sc_pkg_type sc; sc_sendp := sc_sendp sc;
     sc_send_cnt := sc_send_cnt sc; sc_wskbddev := sc_wskbddev sc;
     sc_pollingmode := sc_pollingmode sc |}.

Definition set_sc_package (p : list Z) (sc : kbd_softc) : kbd_softc :=
  {| sc_event_mode := sc_event_mode sc; sc_events := sc_events sc;
     sc_soft_cs := sc_soft_cs sc; sc_package := p;
     sc_pkg_size := sc_pkg_size sc; sc_pkg_idx := sc_pkg_idx sc;
     sc_pkg_type := sc_pkg_type sc; sc_sendp := sc_sendp sc;
     sc_send_cnt := sc_send_cnt sc; sc_wskbddev := sc_wskbddev sc;
     sc_pollingmode := sc_pollingmode sc |}.

Definition set_sc_pkg_size (v : Z) (sc : kbd_softc) : kbd_softc :=
  {| sc_event_mode := sc_event_mode sc; sc_events := sc_events sc;
     sc_soft_cs := sc_soft_cs sc; sc_package := sc_package sc;
     sc_pkg_size := v; sc_pkg_idx := sc_pkg_idx sc;
     sc_pkg_type := sc_pkg_type sc; sc_sendp := sc_sendp sc;
     sc_send_cnt := sc_send_cnt sc; sc_wskbddev := sc_wskbddev sc;
     sc_pollingmode := sc_pollingmode sc |}.

Definition set_sc_pkg_idx (v : Z) (sc : kbd_softc) : kbd_softc :=
  {| sc_event_mode := sc_event_mode sc; sc_events := sc_events sc;
     sc_soft_cs := sc_soft_cs sc; sc_package := sc_package sc;
     sc_pkg_size := sc_pkg_size sc; sc_pkg_idx := v;
     sc_pkg_type := sc_pkg_type sc; sc_sendp := sc_sendp sc;
     sc_send_cnt := sc_send_cnt sc; sc_wskbddev := sc_wskbddev sc;
     sc_pollingmode := sc_pollingmode sc |}.

Definition set_sc_pkg_type (t : pkg_type) (sc : kbd_softc) : kbd_softc :=
  {| sc_event_mode := sc_event_mode sc; sc_events := sc_events sc;
     sc_soft_cs := sc_soft_cs sc; sc_package := sc_package sc;
     sc_pkg_size := sc_pkg_size sc; sc_pkg_idx := sc_pkg_idx sc;
     sc_pkg_type := t; sc_sendp := sc_sendp sc;
     sc_send_cnt := sc_send_cnt sc; sc_wskbddev := sc_wskbddev sc;
     sc_pollingmode := sc_pollingmode sc |}.

Definition set_sc_send (p : option (list Z)) (cnt : Z) (sc : kbd_softc)
  : kbd_softc :=
  {| sc_event_mode := sc_event_mode sc; sc_events := sc_events sc;
     sc_soft_cs := sc_soft_cs sc; sc_package := sc_package sc;
     sc_pkg_size := sc_pkg_size sc; sc_pkg_idx := sc_pkg_idx sc;
     sc_pkg_type := sc_pkg_type sc; sc_sendp := p;
     sc_send_cnt := cnt; sc_wskbddev := sc_wskbddev sc;
     sc_pollingmode := sc_pollingmode sc |}.

Definition set_sc_pollingmode (v : Z) (sc : kbd_softc) : kbd_softc :=
  {| sc_event_mode := sc_event_mode sc; sc_events := sc_events sc;
     sc_soft_cs := sc_soft_cs sc; sc_package := sc_package sc;
     sc_pkg_size := sc_pkg_size sc; sc_pkg_idx := sc_pkg_idx sc;
     sc_pkg_type := sc_pkg_type sc; sc_sendp := sc_sendp sc;
     sc_send_cnt := sc_send_cnt sc; sc_wskbddev := sc_wskbddev sc;
     sc_pollingmode := v |}.

Definition set_softc (sc : kbd_softc) (st : kbd_state) : kbd_state :=
  {| softc := sc; kbd_modifier := kbd_modifier st; sound := sound st;
     KBD := KBD st; clock := clock st; clock_reads := clock_reads st;
     trace := trace st |}.

Definition set_kbd_modifier (m : Z) (st : kbd_state) : kbd_state :=
  {| softc := softc st; kbd_modifier := m; sound := sound st;
     KBD := KBD st; clock := clock st; clock_reads := clock_reads st;
     trace := trace st |}.

Definition set_sound (s : list Z) (st : kbd_state) : kbd_state :=
  {| softc := softc st; kbd_modifier := kbd_modifier st; sound := s;
     KBD := KBD st; clock := clock st; clock_reads := clock_reads st;
     trace := trace st |}.

Definition set_KBD (a : acia) (st : kbd_state) : kbd_state :=
  {| softc := softc st; kbd_modifier := kbd_modifier st; sound := sound st;
     KBD := a; clock := clock st; clock_reads := clock_reads st;
     trace := trace st |}.

Definition set_clock_reads (n : nat) (st : kbd_state) : kbd_state :=
  {| softc := softc st; kbd_modifier := kbd_modifier st; sound := sound st;
     KBD := KBD st; clock := clock st; clock_reads := n;
     trace := trace st |}.

(** An effect is appended to the trace. *)
Definition emit (e : effect) (st : kbd_state) : kbd_state :=
  {| softc := softc st; kbd_modifier := kbd_modifier st; sound := sound st;
     KBD := KBD st; clock := clock st; clock_reads := clock_reads st;
     trace := trace st ++ [e] |}.

(** [f(&kbd_softc)]: an update of the softc inside the state. *)
Definition on_softc (f : kbd_softc -> kbd_softc) (st : kbd_state) : kbd_state :=
  set_softc (f (softc st)) st.

(** ** The operations of the driver *)

Section Driver.
Context {R : KbdReg}.

(** [kbd_pkg_start]: set up the softc fields to assemble a package. *)
Definition kbd_pkg_start (st : kbd_state) (msg_start : Z) : kbd_state :=
  let st :=
    on_softc (fun sc =>
      set_sc_package (<[0%nat := msg_start]> (sc_package sc))
        (set_sc_pkg_idx 1 sc)) st in
  let pkg (t : pkg_type) (size : Z) :=
    on_softc (fun sc => set_sc_pkg_size size (set_sc_pkg_type t sc)) st in
  if msg_start =? 0xf6 then pkg KBD_MEM_PKG 8
  else if msg_start =? 0xf7 then pkg KBD_AMS_PKG 6
  else if (msg_start =? 0xf8) || (msg_start =? 0xf9)
          || (msg_start =? 0xfa) || (msg_start =? 0xfb)
       then pkg KBD_RMS_PKG 3
  else if msg_start =? 0xfc then pkg KBD_CLK_PKG 7
  else if msg_start =? 0xfe then pkg KBD_JOY0_PKG 2
  else if msg_start =? 0xff then pkg KBD_JOY1_PKG 2
  else emit (printf_unknown_packet msg_start) st.

(** [kbd_do_modifier]: modifier processing; the result is the [int] the
    function returns. *)
Definition kbd_do_modifier (st : kbd_state) (code : Z) : Z * kbd_state :=
  let up := KBD_RELEASED code in
  let with_mask (mask : Z) : Z * kbd_state :=
    let mask := uint8_t mask in
    if negb (mask =? 0) then
      if up
      then (1, set_kbd_modifier
                 (uint8_t (Z.land (kbd_modifier st) (Z.lnot mask))) st)
      else (1, set_kbd_modifier
                 (uint8_t (Z.lor (kbd_modifier st) mask)) st)
    else (0, st) in
  let key := KBD_SCANCODE code in
  if key =? KBD_LEFT_SHIFT then with_mask KBD_MOD_LSHIFT
  else if key =? KBD_RIGHT_SHIFT then with_mask KBD_MOD_RSHIFT
  else if key =? KBD_CTRL then with_mask KBD_MOD_CTRL
  else if key =? KBD_ALT then with_mask KBD_MOD_ALT
  else if key =? KBD_CAPS_LOCK then
    (* CAPSLOCK is a toggle *)
    if up then (1, st)
    else (1, set_kbd_modifier
               (uint8_t (Z.lxor (kbd_modifier st) KBD_MOD_CAPS)) st)
  else with_mask 0.

(** The types of package handed to [mouse_soft]. *)
Definition mouse_package (t : pkg_type) : bool :=
  match t with
  | KBD_AMS_PKG | KBD_RMS_PKG | KBD_JOY1_PKG => true
  | _ => false
  end.

(** [kbdsoft], collecting a package: the byte is stuffed in, and a
    complete package is handed on. *)
Definition kbdsoft_package (st : kbd_state) (code : Z) : kbd_state :=
  let st :=
    on_softc (fun sc =>
      set_sc_pkg_idx (uint8_t (sc_pkg_idx sc + 1))
        (set_sc_package
           (<[Z.to_nat (sc_pkg_idx sc) := code]> (sc_package sc)) sc)) st in
  let sc := softc st in
  if sc_pkg_idx sc =? sc_pkg_size sc then
    (* Package is complete. *)
    let st :=
      if (0 <? NMOUSE) && mouse_package (sc_pkg_type sc)
      then emit (mouse_soft (sc_package sc) (sc_pkg_size sc)
                   (sc_pkg_type sc)) st
      else st in
    on_softc (set_sc_pkg_size 0) st
  else st.

(** [kbdsoft], event mode: the key stroke becomes an event in the queue;
    if the queue is full, the key stroke is lost. ([spltty] and [splx]
    around it only mask interrupts and do not show here.) *)
Definition kbdsoft_event (st : kbd_state) (code : Z) : kbd_state :=
  let ev := sc_events (softc st) in
  let put := ev_put ev in
  let fe := Z.to_nat put in
  let put := Z.rem (put + 1) EV_QSIZE in
  if put =? ev_get ev then
    emit (log_warning "keyboard event queue overflow") st
  else
    let event :=
      {| fe_id := KBD_SCANCODE code;
         fe_value := if KBD_RELEASED code then VKEY_UP else VKEY_DOWN;
         fe_time := clock st (clock_reads st) |} in
    let st := set_clock_reads (S (clock_reads st)) st in
    let st :=
      on_softc (fun sc =>
        set_sc_events
          (set_ev_put put (set_ev_q (<[fe := event]> (ev_q ev)) ev)) sc)
        st in
    emit EV_WAKEUP st.

(** [kbdsoft], a key stroke: to the wskbd, to the ite or to the event
    queue. *)
Definition kbdsoft_key (st : kbd_state) (code : Z) : kbd_state :=
  let sc := softc st in
  match
    (if (0 <? NWSKBD) && (sc_pollingmode sc =? 0)
        && (sc_event_mode sc =? 0)
     then sc_wskbddev sc else None)
  with
  | Some dev =>
      (* send the keystroke to the wskbd *)
      emit (wskbd_input dev
              (if KBD_RELEASED code then WSCONS_EVENT_KEY_UP
               else WSCONS_EVENT_KEY_DOWN)
              (KBD_SCANCODE code)) st
  | None =>
      let '(modifier, st) :=
        if 0 <? NITE then kbd_do_modifier st code else (0, st) in
      if negb (modifier =? 0) && (sc_event_mode sc =? 0) then st
      else if sc_event_mode sc =? 0 then
        (* deliver straight to ite to process key stroke *)
        if 0 <? NITE then emit (ite_filter code ITEFILT_TTY) st else st
      else kbdsoft_event st code
  end.

(** The body of the inner loop of [kbdsoft], for one byte of the ring. *)
Definition kbdsoft_code (st : kbd_state) (code : Z) : kbd_state :=
  let sc := softc st in
  if negb (sc_pkg_size sc =? 0) && (sc_pkg_idx sc <? sc_pkg_size sc)
  then kbdsoft_package st code
  else if negb (KBD_IS_KEY code) then kbd_pkg_start st code
  else kbdsoft_key st code.

(** [kbdsoft]: the keyboard soft interrupt handler. *)
Definition kbdsoft (fuel : nat) (rb : ringbuf) (st : kbd_state)
  : option (ringbuf * kbd_state) :=
  kbdsoft_loop kbdsoft_code fuel rb st.

(** [kbdintr], the receive loop: every byte waiting in the ACIA is read;
    a byte read without error goes into the ring, the others are
    silently ignored. The result tells whether a byte was read. *)
Fixpoint kbdintr_rx (rx : list (bool * Z)) (rb : ringbuf) (got_char : bool)
  : ringbuf * bool :=
  match rx with
  | [] => (rb, got_char)
  | (error, code) :: rx =>
      if error then kbdintr_rx rx rb true
      else kbdintr_rx rx (kbd_ring_put rb code) true
  end.

(** [kbdintr], the transmit part: if characters are waiting for
    transmit, send one. *)
Definition kbdintr_tx (st : kbd_state) : kbd_state :=
  let sc := softc st in
  if negb (Z.land (sc_soft_cs sc) A_TXINT =? 0) && tx_ready (KBD st) then
    let st :=
      match sc_sendp sc with
      | Some p =>
          emit (KBD_ac_da_write (hd 0 p))
            (on_softc (set_sc_send (Some (tl p)) (sc_send_cnt sc)) st)
      | None => st
      end in
    let cnt := int (sc_send_cnt sc - 1) in
    if cnt <=? 0 then
      (* The total package has been transmitted *)
      let cs := uint8_t (Z.land (sc_soft_cs sc) (Z.lnot A_TXINT)) in
      let st := on_softc (set_sc_soft_cs cs) st in
      let st := emit (KBD_ac_cs_write cs) st in
      let st := on_softc (set_sc_send None 0) st in
      emit (wakeup chan_sc_send_cnt) st
    else on_softc (fun sc => set_sc_send (sc_sendp sc) cnt sc) st
  else st.

(** [kbdintr]: the keyboard interrupt handler. *)
Definition kbdintr (rb : ringbuf) (st : kbd_state) : ringbuf * kbd_state :=
  let '(rb, got_char) := kbdintr_rx (rx_pending (KBD st)) rb false in
  let st := set_KBD {| rx_pending := []; tx_ready := tx_ready (KBD st) |} st in
  let st := kbdintr_tx st in
  if got_char then (rb, emit rnd_add_uint32 (emit softint_schedule st))
  else (rb, st).

(** The bell. *)
Definition KBDBELLCLOCK : Z := 125000.
Definition KBDBELLDURATION : Z := 128.

(** The initial contents of the table [sound]. *)
Definition sound_init : list Z :=
  [0xA8; 0x01; 0xA9; 0x01; 0xAA; 0x01; 0x00;
   0xF8; 0x10; 0x10; 0x10; 0x00; 0x20; 0x03].

(** [kbdbell]: the table is written to the sound chip. *)
Definition kbdbell (st : kbd_state) : kbd_state :=
  fold_left (fun st i => emit (YM2149_write (Z.of_nat i) (sound st !!! i)) st)
    (seq 0 (length (sound st))) st.

(** [kbd_bell_gparms]: the parameters of the 'default' beep, as
    [(volume, pitch, duration)]; [None] is the division by zero. *)
Definition kbd_bell_gparms (st : kbd_state) : option (Z * Z * Z) :=
  let sound := sound st in
  let tmp := Z.lor (sound !!! 11%nat) (Z.shiftl (sound !!! 12%nat) 8) in
  let duration := u_int (tmp * KBDBELLDURATION) / 1000 in
  let tmp := Z.lor (sound !!! 0%nat) (Z.shiftl (sound !!! 1%nat) 8) in
  if tmp =? 0 then None
  else
    let pitch := KBDBELLCLOCK / tmp in
    let volume := 0 in
    Some (volume, pitch, duration).

(** [kbd_bell_sparms]: set the parameters of the 'default' beep. *)
Definition kbd_bell_sparms (volume pitch duration : Z) (st : kbd_state)
  : kbd_state :=
  let f := if 10 <? pitch then pitch else 10 in   (* minimum pitch *)
  let f := if 20000 <? f then 20000 else f in     (* maximum pitch *)
  let f := KBDBELLCLOCK / f in
  let t := u_int (duration * 1000) / KBDBELLDURATION in
  let sound := sound st in
  let sound := <[0%nat := uint8_t (Z.land f 0xff)]> sound in
  let sound := <[1%nat := uint8_t (Z.land (Z.shiftr f 8) 0xf)]> sound in
  let f := u_int (f - 1) in
  let sound := <[2%nat := uint8_t (Z.land f 0xff)]> sound in
  let sound := <[3%nat := uint8_t (Z.land (Z.shiftr f 8) 0xf)]> sound in
  let f := u_int (f + 2) in
  let sound := <[4%nat := uint8_t (Z.land f 0xff)]> sound in
  let sound := <[5%nat := uint8_t (Z.land (Z.shiftr f 8) 0xf)]> sound in
  let sound := <[11%nat := uint8_t (Z.land t 0xff)]> sound in
  let sound := <[12%nat := uint8_t (Z.land (Z.shiftr t 8) 0xff)]> sound in
  let sound := <[13%nat := 0x03]> sound in
  set_sound sound st.

(** [kbd_write]: write a command to the keyboard. The function sleeps in
    two places; the model runs it up to the first [tsleep] it reaches,
    and says which one, or to its return. *)
Inductive kbd_write_result : Type :=
  | kbd_write_returns (st : kbd_state)
  | kbd_write_tsleep (chan : wchan) (wmesg : string) (st : kbd_state).

Definition kbd_write (cmd : list Z) (len : Z) (st : kbd_state)
  : kbd_write_result :=
  match sc_sendp (softc st) with
  | Some _ =>
      (* Make sure any previous write has ended... *)
      kbd_write_tsleep chan_sc_sendp "kbd_write1" st
  | None =>
      let cs := uint8_t (Z.lor (sc_soft_cs (softc st)) A_TXINT) in
      let st := emit (KBD_ac_cs_write cs) (on_softc (set_sc_soft_cs cs) st) in
      let '(st, cmd, len) :=
        if tx_ready (KBD st)
        then (emit (KBD_ac_da_write (hd 0 cmd)) st, tl cmd, int (len - 1))
        else (st, cmd, len) in
      if 0 <? len then
        (* If we're not yet done, wait until all characters are send. *)
        kbd_write_tsleep chan_sc_send_cnt "kbd_write2"
          (on_softc (set_sc_send (Some cmd) len) st)
      else
        (* Wakeup all procs waiting for us. *)
        kbd_write_returns (emit (wakeup chan_sc_sendp) st)
  end.

(** The control requests [kbdioctl] knows, each with the [int] or the
    [struct kbdbell] that [data] points to. *)
Inductive ioctl_request : Type :=
  | KIOCTRANS (data : Z)
  | KIOCGTRANS
  | KIOCSDIRECT (data : Z)
  | KIOCRINGBELL (kb : option (Z * Z * Z))   (* volume, pitch, duration *)
  | FIONBIO
  | FIOASYNC (data : Z)
  | FIOSETOWN (data : Z)
  | TIOCSPGRP (data : Z)
  | ioctl_unknown.

(** What [kbdioctl] gives back: the value returned (0 or an error
    number), the state, and the [int] stored through [data], if any. *)
Record ioctl_result : Type := Ioctl_result {
  ioctl_error : option errno;    (* None: return 0 *)
  ioctl_state : kbd_state;
  ioctl_data : option Z
}.

(** [kbdioctl]; [None] is the access through the null pointer [ev_io]. *)
Definition kbdioctl (cmd : ioctl_request) (st : kbd_state)
  : option ioctl_result :=
  let sc := softc st in
  let returns (e : option errno) (st : kbd_state) :=
    Some {| ioctl_error := e; ioctl_state := st; ioctl_data := None |} in
  match cmd with
  | KIOCTRANS data =>
      if data =? TR_UNTRANS_EVENT then returns None st
      else returns (Some EOPNOTSUPP) st
  | KIOCGTRANS =>
      Some {| ioctl_error := None; ioctl_state := st;
              ioctl_data := Some TR_UNTRANS_EVENT |}
  | KIOCSDIRECT data =>
      returns None (on_softc (set_sc_event_mode data) st)
  | KIOCRINGBELL kb =>
      let st :=
        match kb with
        | Some (volume, pitch, duration) =>
            kbd_bell_sparms volume pitch duration st
        | None => st
        end in
      returns None (kbdbell st)
  | FIONBIO => returns None st
  | FIOASYNC data =>
      returns None
        (on_softc (fun sc =>
           set_sc_events (set_ev_async (negb (data =? 0)) (sc_events sc)) sc)
           st)
  | FIOSETOWN data =>
      match ev_io (sc_events sc) with
      | None => None
      | Some p =>
          if negb (int (- data) =? p_pgid p) && negb (data =? p_pid p)
          then returns (Some EPERM) st
          else returns None st
      end
  | TIOCSPGRP data =>
      match ev_io (sc_events sc) with
      | None => None
      | Some p =>
          if negb (data =? p_pgid p) then returns (Some EPERM) st
          else returns None st
      end
  | ioctl_unknown => returns (Some ENOTTY) st
  end.

End Driver.

(** ** Notions the properties are stated with *)

Section Notions.
Context {R : KbdReg}.

(** The bytes [kbd_pkg_start] knows as the start of a package: the
    labels of its [switch]. *)
Definition package_headers : list Z :=
  [0xf6; 0xf7; 0xf8; 0xf9; 0xfa; 0xfb; 0xfc; 0xfe; 0xff].

Definition known_header (c : Z) : bool :=
  existsb (Z.eqb c) package_headers.

(** [kbd_pkg_start], called with [msg_start], starts a package of type
    [t] and of [size] bytes, with the header as its first byte. *)
Definition starts_package (msg_start : Z) (t : pkg_type) (size : Z) : Prop :=
  forall st : kbd_state,
    let sc := softc (kbd_pkg_start st msg_start) in
    sc_pkg_type sc = t /\ sc_pkg_size sc = size /\ sc_pkg_idx sc = 1
    /\ (length (sc_package (softc st)) = 20%nat ->
        sc_package sc !! 0%nat = Some msg_start).

(** No package is being assembled. *)
Definition idle (st : kbd_state) : Prop := sc_pkg_size (softc st) = 0.

(** The scan codes [kbd_do_modifier] takes for itself. *)
Definition modifier_scancodes : list Z :=
  [KBD_LEFT_SHIFT; KBD_RIGHT_SHIFT; KBD_CTRL; KBD_ALT; KBD_CAPS_LOCK].

Definition modifier_key (code : Z) : bool :=
  existsb (Z.eqb (KBD_SCANCODE code)) modifier_scancodes.

(** A byte that reports the key [key] going down, or up. *)
Definition press_of (key code : Z) : Prop :=
  KBD_SCANCODE code = key /\ KBD_RELEASED code = false.

Definition release_of (key code : Z) : Prop :=
  KBD_SCANCODE code = key /\ KBD_RELEASED code = true.

(** No wskbd is there to take a key stroke: none is configured, or none
    is attached. *)
Definition no_wskbd (st : kbd_state) : Prop :=
  NWSKBD <= 0 \/ sc_wskbddev (softc st) = None.

(** The queue of events is full. *)
Definition ev_full (ev : evvar) : Prop :=
  Z.rem (ev_put ev + 1) EV_QSIZE = ev_get ev.

(** The state of the driver before it has seen anything: the softc is
    zeroed, nobody has opened the device, the ACIA is idle. *)
Definition kbd_state_initial : kbd_state :=
  {| softc :=
       {| sc_event_mode := 0;
          sc_events :=
            {| ev_io := None; ev_async := false;
               ev_q := replicate (Z.to_nat EV_QSIZE) (Firm_event 0 0 0);
               ev_put := 0; ev_get := 0 |};
          sc_soft_cs := 0;
          sc_package := replicate 20 0;
          sc_pkg_size := 0; sc_pkg_idx := 0; sc_pkg_type := KBD_MEM_PKG;
          sc_sendp := None; sc_send_cnt := 0;
          sc_wskbddev := None; sc_pollingmode := 0 |};
     kbd_modifier := 0;
     sound := sound_init;
     KBD := {| rx_pending := []; tx_ready := true |};
     clock := fun n => Z.of_nat n;
     clock_reads := 0;
     trace := [] |}.

End Notions.

(** The initial state for the values of the NetBSD/atari headers. *)
Definition atari_initial : kbd_state := kbd_state_initial (R := atari_kbdreg).

(** The device opened by a process and switched to event mode, with the
    given positions in the queue of events. *)
Definition atari_event_mode (put get : Z) : kbd_state :=
  on_softc (fun sc =>
    set_sc_event_mode 1
      (set_sc_events
         {| ev_io := Some {| p_pid := 100; p_pgid := 100 |};
            ev_async := false;
            ev_q := replicate 256 (Firm_event 0 0 0);
            ev_put := put; ev_get := get |} sc)) atari_initial.

(** ** The rest of the driver *)

(** What the rest of [kbd.c] takes from outside: the bit of the keyboard
    ACIA in the registers of the MFP, the set up and the tear down of an
    event queue (atari/dev/event.c) and the keyboard type of wscons. *)
Class KbdExt : Type := {
  IB_AINT : Z;
  ev_init : evvar -> evvar;
  ev_fini : evvar -> evvar;
  WSKBD_TYPE_ATARI : Z
}.

(** The registers of the MFP the driver touches (interrupt enable, pending
    and mask, B side), 8 bits each; the value of [mf_iprb] is the last one
    stored there. *)
Record mfp : Type := Mfp { mf_ierb : Z; mf_iprb : Z; mf_imrb : Z }.

Definition set_ev_io (p : option proc) (ev : evvar) : evvar :=
  {| ev_io := p; ev_async := ev_async ev; ev_q := ev_q ev;
     ev_put := ev_put ev; ev_get := ev_get ev |}.

#[export] Instance firm_event_inhabited : Inhabited firm_event :=
  populate (Firm_event 0 0 0).

Inductive kbdopen_result : Type := kbdopen_0 | kbdopen_EBUSY.

(** The requests of wscons [kbd_ioctl] knows, each with what [data]
    points to. *)
Inductive wskbd_request : Type :=
  | WSKBDIO_COMPLEXBELL (pitch period volume : Z)
  | WSKBDIO_SETLEDS (leds : Z)
  | WSKBDIO_GETLEDS
  | WSKBDIO_GTYPE
  | wskbd_unknown.

Inductive wskbd_result : Type := wskbd_0 | EPASSTHROUGH.

Section Rest.
Context {R : KbdReg} {X : KbdExt}.

(** [kbdenable]: the bytes waiting in the ACIA are read and thrown away,
    the interrupt of the ACIA is enabled in the MFP, and the softc is set
    to no event mode, no opener and no package. *)
Definition kbdenable (m : mfp) (st : kbd_state) : mfp * kbd_state :=
  let st := set_KBD {| rx_pending := []; tx_ready := tx_ready (KBD st) |} st in
  let m :=
    {| mf_iprb := uint8_t (Z.lnot IB_AINT);
       mf_ierb := uint8_t (Z.lor (mf_ierb m) IB_AINT);
       mf_imrb := uint8_t (Z.lor (mf_imrb m) IB_AINT) |} in
  let st :=
    on_softc (fun sc =>
      set_sc_pkg_size 0
        (set_sc_events (set_ev_io None (sc_events sc))
           (set_sc_event_mode 0 sc))) st in
  (m, st).

(** [kbdopen], called by a thread of the process [p]. *)
Definition kbdopen (p : proc) (st : kbd_state) : kbdopen_result * kbd_state :=
  match ev_io (sc_events (softc st)) with
  | Some _ => (kbdopen_EBUSY, st)
  | None =>
      (kbdopen_0,
       on_softc (fun sc =>
         set_sc_events (ev_init (set_ev_io (Some p) (sc_events sc))) sc) st)
  end.

(** [kbdclose]: turn off event mode, dump the queue; the result is 0. *)
Definition kbdclose (st : kbd_state) : kbd_state :=
  on_softc (fun sc =>
    set_sc_events (set_ev_io None (ev_fini (sc_events sc)))
      (set_sc_event_mode 0 sc)) st.

(** [kbd_pollc]. *)
Definition kbd_pollc (on : Z) (st : kbd_state) : kbd_state :=
  on_softc (set_sc_pollingmode on) st.

(** [kbd_bell]. *)
Definition kbd_bell (pitch duration volume : Z) (st : kbd_state) : kbd_state :=
  kbdbell (kbd_bell_sparms volume pitch duration st).

(** [kbd_ioctl]: the value returned, the state and the [int] stored
    through [data], if any. *)
Definition kbd_ioctl (cmd : wskbd_request) (st : kbd_state)
  : wskbd_result * kbd_state * option Z :=
  match cmd with
  | WSKBDIO_COMPLEXBELL pitch period volume =>
      (wskbd_0, kbd_bell pitch period volume st, None)
  | WSKBDIO_SETLEDS _ => (wskbd_0, st, None)
  | WSKBDIO_GETLEDS => (wskbd_0, st, Some 0)
  | WSKBDIO_GTYPE => (wskbd_0, st, Some WSKBD_TYPE_ATARI)
  | wskbd_unknown => (EPASSTHROUGH, st, None)
  end.

(** [kbdgetcn], the loop: wait for a byte, ignore it if it came with an
    error, and leave with the first byte that [kbd_do_modifier] does not
    take ([None]: the wait for a key does not end). The result has the
    bytes still waiting. *)
Fixpoint kbdgetcn_for (rx : list (bool * Z)) (st : kbd_state)
  : option (Z * list (bool * Z) * kbd_state) :=
  match rx with
  | [] => None
  | (error, code) :: rx =>
      if error then kbdgetcn_for rx st   (* Silently ignore errors *)
      else if 0 <? NITE then
        let '(modifier, st) := kbd_do_modifier st code in
        if modifier =? 0 then Some (code, rx, st) else kbdgetcn_for rx st
      else Some (code, rx, st)
  end.

(** [kbdgetcn]: the interrupt of the ACIA is masked in the MFP while the
    loop runs, if it was not masked before. *)
Definition kbdgetcn (m : mfp) (st : kbd_state) : option (Z * mfp * kbd_state) :=
  let ints_active := negb (Z.land (mf_imrb m) IB_AINT =? 0) in
  let m :=
    if ints_active
    then {| mf_ierb := mf_ierb m; mf_iprb := mf_iprb m;
            mf_imrb := uint8_t (Z.land (mf_imrb m) (Z.lnot IB_AINT)) |}
    else m in
  match kbdgetcn_for (rx_pending (KBD st)) st with
  | None => None
  | Some (code, rx, st) =>
      let st := set_KBD {| rx_pending := rx; tx_ready := tx_ready (KBD st) |} st in
      let m :=
        if ints_active
        then {| mf_ierb := mf_ierb m;
                mf_iprb := uint8_t (Z.lnot IB_AINT);
                mf_imrb := uint8_t (Z.lor (mf_imrb m) IB_AINT) |}
        else m in
      Some (code, m, st)
  end.

(** [kbd_getc]: the type and the data of the key [kbdgetcn] returns. *)
Definition kbd_getc (m : mfp) (st : kbd_state)
  : option (wscons_event_type * Z * mfp * kbd_state) :=
  match kbdgetcn m st with
  | None => None
  | Some (key, m, st) =>
      Some (if KBD_RELEASED key then WSCONS_EVENT_KEY_UP
            else WSCONS_EVENT_KEY_DOWN, KBD_SCANCODE key, m, st)
  end.

(** [kbd_write_poll], the wait
    [for (timeout = 100; (KBD->ac_cs & A_TXRDY) == 0; timeout--) delay(10);]
    where [txrdy n] tells whether the [n]th reading of the status shows the
    transmit register empty; the result is the number of readings so far.
    The loop does not test [timeout]. *)
Fixpoint kbd_write_poll_wait (fuel : nat) (txrdy : nat -> bool) (reads : nat)
  : option nat :=
  match fuel with
  | O => None
  | S fuel =>
      if txrdy reads then Some (S reads)
      else kbd_write_poll_wait fuel txrdy (S reads)
  end.

(** [kbd_write_poll]: write a command to the keyboard in 'polled' mode;
    the result is the value returned, the number of readings of the status
    and the state. *)
Fixpoint kbd_write_poll (fuel : nat) (txrdy : nat -> bool) (reads : nat)
    (cmd : list Z) (len : Z) (st : kbd_state)
  : option (Z * nat * kbd_state) :=
  match fuel with
  | O => None
  | S fuel =>
      if 0 <? len then   (* while (len-- > 0) *)
        let len := int (len - 1) in
        let st := emit (KBD_ac_da_write (hd 0 cmd)) st in
        let cmd := tl cmd in
        match kbd_write_poll_wait fuel txrdy reads with
        | None => None
        | Some reads =>
            if txrdy reads
            then kbd_write_poll fuel txrdy (S reads) cmd len st
            else Some (0, S reads, st)
        end
      else Some (1, reads, st)
  end.

(** [n] interrupts of the ACIA, one after the other. *)
Fixpoint kbdintr_times (n : nat) (rb : ringbuf) (st : kbd_state)
  : ringbuf * kbd_state :=
  match n with
  | O => (rb, st)
  | S n => let '(rb, st) := kbdintr rb st in kbdintr_times n rb st
  end.

(** *** Notions for the properties of the rest *)

(** The package fields as [kbdsoft] keeps them: the buffer has its 20
    bytes, and either no package is being assembled or the index is inside
    a package of at most 8 bytes. *)
Definition pkg_inv (st : kbd_state) : Prop :=
  length (sc_package (softc st)) = 20%nat
  /\ (sc_pkg_size (softc st) = 0
      \/ (1 <= sc_pkg_idx (softc st) < sc_pkg_size (softc st)
          /\ sc_pkg_size (softc st) <= 8)).

(** A well-formed queue of events. *)
Definition evvar_wf (ev : evvar) : Prop :=
  0 < EV_QSIZE
  /\ length (ev_q ev) = Z.to_nat EV_QSIZE
  /\ 0 <= ev_put ev < EV_QSIZE
  /\ 0 <= ev_get ev < EV_QSIZE.

(** The number of events in the queue, and the events themselves from
    [ev_get] up to [ev_put], which is what a reader gets. *)
Definition ev_count (ev : evvar) : Z := (ev_put ev - ev_get ev) mod EV_QSIZE.

Fixpoint ev_slice (q : list firm_event) (get : Z) (k : nat) : list firm_event :=
  match k with
  | O => []
  | S k => q !!! Z.to_nat (get mod EV_QSIZE) :: ev_slice q (get + 1) k
  end.

Definition ev_pending (ev : evvar) : list firm_event :=
  ev_slice (ev_q ev) (ev_get ev) (Z.to_nat (ev_count ev)).

(** The events of a list of key codes, with the readings of the clock from
    the [n]th on. *)
Fixpoint key_events (clock : nat -> Z) (n : nat) (l : list Z) : list firm_event :=
  match l with
  | [] => []
  | code :: l =>
      {| fe_id := KBD_SCANCODE code;
         fe_value := if KBD_RELEASED code then VKEY_UP else VKEY_DOWN;
         fe_time := clock n |} :: key_events clock (S n) l
  end.

(** The modifier processing of the bytes of a list that came without
    error, one after the other. *)
Definition track_modifiers (rx : list (bool * Z)) (st : kbd_state)
  : kbd_state :=
  fold_left (fun (st : kbd_state) (e : bool * Z) =>
               if fst e then st else snd (kbd_do_modifier st (snd e))) rx st.

(** The byte all the modifier bits make. *)
Definition KBD_MOD_ALL : Z :=
  Z.lor KBD_MOD_LSHIFT
    (Z.lor KBD_MOD_RSHIFT (Z.lor KBD_MOD_CTRL (Z.lor KBD_MOD_ALT KBD_MOD_CAPS))).

End Rest.

(** An instance for the examples. *)
Definition atari_kbdext : KbdExt := {|
  IB_AINT := 0x40;
  ev_init := fun ev =>
    {| ev_io := ev_io ev; ev_async := ev_async ev; ev_q := ev_q ev;
       ev_put := 0; ev_get := 0 |};
  ev_fini := fun ev => ev;
  WSKBD_TYPE_ATARI := 8
|}.

(** Effects in a row. *)
Definition emit_all (es : list effect) (st : kbd_state) : kbd_state :=
  fold_left (fun s e => emit e s) es st.

(** The writes to the sound chip that play the table [s]: register [i]
    gets [s !!! i], from register 0 up. *)
Definition YM2149_writes (s : list Z) : list effect :=
  map (fun i : nat => YM2149_write (Z.of_nat i) (s !!! i)) (seq 0 (length s)).

(** * Properties *)

(** ** Machine integers *)

Module MachFacts.

Lemma u_int_range z : 0 <= u_int z < 2 ^ 32.
Proof. unfold u_int. apply Z.mod_pos_bound. lia. Qed.

Lemma int_range z : - 2 ^ 31 <= int z < 2 ^ 31.
Proof. unfold int. pose proof (Z.mod_pos_bound (z + 2 ^ 31) (2 ^ 32)). lia. Qed.

Lemma int_small z : - 2 ^ 31 <= z < 2 ^ 31 -> int z = z.
Proof. intros H. unfold int. rewrite Z.mod_small; lia. Qed.

Lemma u_int_small z : 0 <= z < 2 ^ 32 -> u_int z = z.
Proof. intros H. unfold u_int. rewrite Z.mod_small; lia. Qed.

Lemma int_congr x y : x mod 2 ^ 32 = y mod 2 ^ 32 -> int x = int y.
Proof.
  intros H. unfold int. f_equal.
  rewrite <- (Zplus_mod_idemp_l x), <- (Zplus_mod_idemp_l y), H. reflexivity.
Qed.

Lemma int_mod z : int z mod 2 ^ 32 = z mod 2 ^ 32.
Proof. unfold int. Z.div_mod_to_equations. lia. Qed.

Lemma int_of_mod x : x mod 2 ^ 32 < 2 ^ 31 -> int x = x mod 2 ^ 32.
Proof. intros H. unfold int. Z.div_mod_to_equations. lia. Qed.

Lemma u_int_mod z : u_int z mod 2 ^ 32 = z mod 2 ^ 32.
Proof. unfold u_int. apply Zmod_mod. Qed.

Lemma int_u_int z : int (u_int z) = int z.
Proof. apply int_congr, u_int_mod. Qed.

Lemma u_int_int z : u_int (int z) = u_int z.
Proof. unfold u_int. apply int_mod. Qed.

Lemma int_inj_u_int x y :
  0 <= x < 2 ^ 32 -> 0 <= y < 2 ^ 32 -> int x = int y -> x = y.
Proof.
  intros Hx Hy H.
  assert (E : int x mod 2 ^ 32 = int y mod 2 ^ 32) by (rewrite H; reflexivity).
  rewrite !int_mod in E. rewrite !Z.mod_small in E; lia.
Qed.

(** Congruence modulo 2^32 is congruence modulo 256. *)
Lemma mod32_mod8 x y : x mod 2 ^ 32 = y mod 2 ^ 32 -> x mod 256 = y mod 256.
Proof. intros H. Z.div_mod_to_equations. lia. Qed.

Lemma uint8_t_mod z : uint8_t z = z mod 256.
Proof. unfold uint8_t. change 255 with (Z.ones 8). apply Z.land_ones. lia. Qed.

Lemma uint8_t_range z : 0 <= uint8_t z < 256.
Proof. rewrite uint8_t_mod. apply Z.mod_pos_bound. lia. Qed.

Lemma uint8_t_small z : 0 <= z < 256 -> uint8_t z = z.
Proof. intros H. rewrite uint8_t_mod. apply Z.mod_small. lia. Qed.

End MachFacts.

Import MachFacts.

(** ** The ring buffer *)

Section Ring.

Lemma ring_slot_mod i : ring_slot i = Z.to_nat (i mod 256).
Proof.
  unfold ring_slot, KBD_RING_MASK. change 255 with (Z.ones 8).
  rewrite Z.land_ones by lia. reflexivity.
Qed.

Lemma ring_slot_congr i j : i mod 256 = j mod 256 -> ring_slot i = ring_slot j.
Proof. intros H. rewrite !ring_slot_mod, H. reflexivity. Qed.

Lemma ring_slot_lt i : (ring_slot i < 256)%nat.
Proof.
  rewrite ring_slot_mod. pose proof (Z.mod_pos_bound i 256). lia.
Qed.

Lemma ring_slot_inj i j :
  ring_slot i = ring_slot j -> i mod 256 = j mod 256.
Proof.
  rewrite !ring_slot_mod. intros H.
  pose proof (Z.mod_pos_bound i 256). pose proof (Z.mod_pos_bound j 256).
  lia.
Qed.

Lemma ring_slice_congr ring k : forall g g',
  g mod 256 = g' mod 256 -> ring_slice ring g k = ring_slice ring g' k.
Proof.
  induction k as [|k IH]; intros g g' H; simpl; [reflexivity|].
  rewrite (ring_slot_congr g g' H). f_equal. apply IH.
  Z.div_mod_to_equations. lia.
Qed.

(** *** The producer *)

Lemma put_all_rbget l : forall rb, kbd_rbget (put_all l rb) = kbd_rbget rb.
Proof.
  unfold put_all. induction l as [|x l IH]; intros rb; simpl; [reflexivity|].
  rewrite IH. reflexivity.
Qed.

Lemma put_all_rbput_wf l : forall rb,
  0 <= kbd_rbput rb < 2 ^ 32 ->
  kbd_rbput (put_all l rb) = u_int (kbd_rbput rb + Z.of_nat (length l)).
Proof.
  unfold put_all. induction l as [|x l IH]; intros rb H.
  - simpl. rewrite Z.add_0_r, u_int_small; auto.
  - simpl fold_left. rewrite IH by (simpl; apply u_int_range).
    simpl kbd_rbput. simpl length.
    unfold u_int. Z.div_mod_to_equations. lia.
Qed.

Lemma put_all_length l : forall rb,
  length (kbd_ring (put_all l rb)) = length (kbd_ring rb).
Proof.
  unfold put_all. induction l as [|x l IH]; intros rb; simpl; [reflexivity|].
  rewrite IH. simpl. apply length_insert.
Qed.

Lemma put_all_wf l rb : ringbuf_wf rb -> ringbuf_wf (put_all l rb).
Proof.
  intros [H1 H2 H3]. split.
  - rewrite put_all_length. exact H1.
  - rewrite put_all_rbput_wf by exact H2. apply u_int_range.
  - rewrite put_all_rbget. exact H3.
Qed.

(** A slot none of the pushes addresses keeps its contents. *)
Lemma put_all_other l : forall rb (j : nat),
  (forall i, 0 <= i < Z.of_nat (length l) ->
             ring_slot (kbd_rbput rb + i) <> j) ->
  kbd_ring (put_all l rb) !!! j = kbd_ring rb !!! j.
Proof.
  unfold put_all. induction l as [|x l IH]; intros rb j H; [reflexivity|].
  simpl fold_left. rewrite IH.
  - simpl. apply list_lookup_total_insert_ne.
    specialize (H 0). rewrite Z.add_0_r in H. apply H. simpl length. lia.
  - intros i Hi. simpl kbd_rbput.
    rewrite (ring_slot_congr _ (kbd_rbput rb + (i + 1))).
    + apply H. simpl length. lia.
    + unfold u_int. Z.div_mod_to_equations. lia.
Qed.

(** After at most [KBD_RING_SIZE] pushes the ring holds the bytes pushed,
    from the index the pushes started at. *)
Lemma put_all_slice l : forall rb,
  length (kbd_ring rb) = Z.to_nat KBD_RING_SIZE ->
  (length l <= 256)%nat ->
  ring_slice (kbd_ring (put_all l rb)) (kbd_rbput rb) (length l) = l.
Proof.
  induction l as [|x l IH]; intros rb Hlen Hl; [reflexivity|].
  simpl length in *. simpl ring_slice. f_equal.
  - change (put_all (x :: l) rb) with (put_all l (kbd_ring_put rb x)).
    rewrite put_all_other.
    + simpl. apply list_lookup_total_insert_eq.
      rewrite Hlen. apply ring_slot_lt.
    + intros i Hi E. apply ring_slot_inj in E. simpl kbd_rbput in E.
      unfold u_int in E. Z.div_mod_to_equations. lia.
  - change (put_all (x :: l) rb) with (put_all l (kbd_ring_put rb x)).
    etransitivity; [|apply (IH (kbd_ring_put rb x))].
    + apply ring_slice_congr. simpl. unfold u_int.
      Z.div_mod_to_equations. lia.
    + simpl. rewrite length_insert. exact Hlen.
    + lia.
Qed.

Lemma put_all_app l1 l2 rb : put_all (l1 ++ l2) rb = put_all l2 (put_all l1 rb).
Proof. unfold put_all. apply fold_left_app. Qed.

End Ring.

(** *** The consumer *)

Section Drain.
Context {St : Type} (body : St -> Z -> St).

Lemma kbdsoft_while_S fuel ring n get s :
  kbdsoft_while body (S fuel) ring n get s =
  if 0 <=? int (n - 1)
  then kbdsoft_while body fuel ring (int (n - 1)) (int (get + 1))
         (body s (ring !!! ring_slot get))
  else Some (get, s).
Proof. reflexivity. Qed.

Lemma kbdsoft_for_S fuel rb get s :
  kbdsoft_for body (S fuel) rb get s =
  if get =? int (kbd_rbput rb) then Some (rb, s)
  else
    let '(get, n) := kbdsoft_overflow get (int (int (kbd_rbput rb) - get)) in
    match kbdsoft_while body fuel (kbd_ring rb) n get s with
    | None => None
    | Some (get, s) => kbdsoft_for body fuel (set_kbd_rbget (u_int get) rb) get s
    end.
Proof. reflexivity. Qed.

(** The inner loop runs its body on [n] consecutive slots. *)
Lemma kbdsoft_while_spec ring : forall (k fuel : nat) get s,
  (k < fuel)%nat -> Z.of_nat k < 2 ^ 31 -> - 2 ^ 31 <= get < 2 ^ 31 ->
  kbdsoft_while body fuel ring (Z.of_nat k) get s =
  Some (int (get + Z.of_nat k), fold_left body (ring_slice ring get k) s).
Proof.
  induction k as [|k IH]; intros fuel get s Hf Hk Hg;
    (destruct fuel as [|fuel]; [lia|]); rewrite kbdsoft_while_S.
  - change (int (Z.of_nat 0 - 1)) with (-1). simpl.
    rewrite Z.add_0_r, int_small by exact Hg. reflexivity.
  - rewrite int_small by lia.
    replace (Z.of_nat (S k) - 1) with (Z.of_nat k) by lia.
    destruct (Z.leb_spec 0 (Z.of_nat k)) as [_|]; [|lia].
    rewrite IH; [|lia|lia|apply int_range].
    f_equal. f_equal.
    + apply int_congr. rewrite <- Zplus_mod_idemp_l, int_mod, Zplus_mod_idemp_l.
      f_equal. lia.
    + simpl.
      rewrite (ring_slice_congr ring k (int (get + 1)) (get + 1));
        [reflexivity|]. apply mod32_mod8, int_mod.
Qed.

(** A count that is negative makes the inner loop do nothing. *)
Lemma kbdsoft_while_negative fuel ring n get s :
  - 2 ^ 31 < n <= 0 ->
  kbdsoft_while body (S fuel) ring n get s = Some (get, s).
Proof.
  intros H. rewrite kbdsoft_while_S, int_small by lia.
  destruct (Z.leb_spec 0 (n - 1)); [lia|reflexivity].
Qed.

(** With nothing to read the handler leaves at once. *)
Lemma kbdsoft_loop_empty fuel rb s :
  kbd_rbget rb = kbd_rbput rb ->
  kbdsoft_loop body (S fuel) rb s = Some (rb, s).
Proof.
  intros H. unfold kbdsoft_loop. rewrite kbdsoft_for_S, H, Z.eqb_refl.
  reflexivity.
Qed.

(** One pass of the handler over a ring with [d] bytes not yet read,
    [0 < d < 2^31]: the body runs on the last [drain_count d] slots up
    to [kbd_rbput], and [kbd_rbget] catches up with [kbd_rbput]. *)
Lemma kbdsoft_loop_spec fuel rb s :
  ringbuf_wf rb ->
  let d := u_int (kbd_rbput rb - kbd_rbget rb) in
  0 < d < 2 ^ 31 ->
  (Z.to_nat (drain_count d) + 2 <= fuel)%nat ->
  kbdsoft_loop body fuel rb s =
  Some (set_kbd_rbget (kbd_rbput rb) rb,
        fold_left body
          (ring_slice (kbd_ring rb) (kbd_rbput rb - drain_count d)
             (Z.to_nat (drain_count d))) s).
Proof.
  intros [Hlen Hput Hget] d Hd Hfuel.
  destruct fuel as [|[|fuel]]; [lia|lia|].
  unfold kbdsoft_loop. rewrite kbdsoft_for_S.
  destruct (Z.eqb_spec (int (kbd_rbget rb)) (int (kbd_rbput rb))) as [E|_].
  { apply int_inj_u_int in E; [|assumption..]. subst d. rewrite E in Hd.
    rewrite Z.sub_diag in Hd. change (u_int 0) with 0 in Hd. lia. }
  assert (En : int (int (kbd_rbput rb) - int (kbd_rbget rb)) = d).
  { rewrite int_of_mod.
    - rewrite Zminus_mod, !int_mod, <- Zminus_mod. reflexivity.
    - rewrite Zminus_mod, !int_mod, <- Zminus_mod. apply Hd. }
  rewrite En.
  set (m := drain_count d) in *.
  assert (Hm : 0 < m <= 256) by (unfold m, drain_count, KBD_RING_SIZE; lia).
  assert (Eo : exists g0, kbdsoft_overflow (int (kbd_rbget rb)) d = (g0, m)
                 /\ - 2 ^ 31 <= g0 < 2 ^ 31
                 /\ g0 mod 2 ^ 32 = (kbd_rbput rb - m) mod 2 ^ 32).
  { unfold kbdsoft_overflow, m, drain_count, KBD_RING_SIZE in *.
    destruct (Z.ltb_spec 256 d).
    - eexists; split; [rewrite Z.min_r by lia; reflexivity|].
      split; [apply int_range|]. rewrite int_mod, Z.min_r by lia.
      rewrite <- Zplus_mod_idemp_l, int_mod, Zplus_mod_idemp_l.
      subst d. unfold u_int. Z.div_mod_to_equations. lia.
    - eexists; split; [rewrite Z.min_l by lia; reflexivity|].
      split; [apply int_range|]. rewrite int_mod, Z.min_l by lia.
      subst d. unfold u_int. Z.div_mod_to_equations. lia. }
  destruct Eo as (g0 & -> & Hg0 & Eg0).
  rewrite <- (Z2Nat.id m) at 1 by lia.
  rewrite kbdsoft_while_spec; [|lia|lia|exact Hg0].
  rewrite Z2Nat.id by lia.
  assert (Eg : (g0 + m) mod 2 ^ 32 = kbd_rbput rb mod 2 ^ 32).
  { rewrite <- Zplus_mod_idemp_l, Eg0, Zplus_mod_idemp_l. f_equal. lia. }
  rewrite kbdsoft_for_S. simpl kbd_rbput.
  rewrite (int_congr _ _ Eg), Z.eqb_refl.
  rewrite <- (int_congr _ _ Eg), u_int_int. unfold u_int at 1.
  rewrite Eg, Z.mod_small by exact Hput.
  do 3 f_equal. apply ring_slice_congr, mod32_mod8, Eg0.
Qed.

(** When the unsigned difference of the indices is above [2^31], the
    count [n] is negative in every pass and the handler never leaves
    the outer loop. *)
Lemma kbdsoft_for_stuck : forall fuel rb get s,
  - 2 ^ 31 <= get < 2 ^ 31 ->
  - 2 ^ 31 < int (int (kbd_rbput rb) - get) < 0 ->
  kbdsoft_for body fuel rb get s = None.
Proof.
  induction fuel as [|fuel IH]; intros rb get s Hg Hn; [reflexivity|].
  rewrite kbdsoft_for_S.
  destruct (Z.eqb_spec get (int (kbd_rbput rb))) as [E|_].
  { rewrite E, Z.sub_diag in Hn. change (int 0) with 0 in Hn. lia. }
  unfold kbdsoft_overflow, KBD_RING_SIZE.
  destruct (Z.ltb_spec 256 (int (int (kbd_rbput rb) - get))); [lia|].
  destruct fuel as [|fuel]; [reflexivity|].
  rewrite kbdsoft_while_negative by lia.
  apply IH; [exact Hg|exact Hn].
Qed.

End Drain.

(** *** Producer and consumer together *)

Lemma set_kbd_rbget_id rb : set_kbd_rbget (kbd_rbget rb) rb = rb.
Proof. destruct rb; reflexivity. Qed.

(** The unsigned difference of the indices after [n < 2^32] pushes into
    a ring that had been read to the end. *)
Lemma put_all_pending l rb :
  ringbuf_wf rb -> kbd_rbget rb = kbd_rbput rb ->
  Z.of_nat (length l) < 2 ^ 32 ->
  u_int (kbd_rbput (put_all l rb) - kbd_rbget (put_all l rb))
  = Z.of_nat (length l).
Proof.
  intros [_ Hput _] E Hl.
  rewrite put_all_rbget, put_all_rbput_wf, E by exact Hput.
  unfold u_int. Z.div_mod_to_equations. lia.
Qed.

(** The overflow test of that pass: [get] becomes [kbd_rbput - KBD_RING_SIZE]
    and the count [KBD_RING_SIZE]. *)
Lemma kbdsoft_overflow_overrun rb l :
  ringbuf_wf rb -> kbd_rbget rb = kbd_rbput rb ->
  (256 < length l)%nat -> Z.of_nat (length l) < 2 ^ 31 ->
  let rb' := put_all l rb in
  kbdsoft_overflow (int (kbd_rbget rb'))
    (int (int (kbd_rbput rb') - int (kbd_rbget rb')))
  = (int (kbd_rbput rb' - KBD_RING_SIZE), KBD_RING_SIZE)
  /\ int (kbd_rbput rb' - KBD_RING_SIZE)
     = int (kbd_rbget rb' + (Z.of_nat (length l) - KBD_RING_SIZE)).
Proof.
  intros Hwf E Hl Hl' rb'.
  pose proof (put_all_pending l rb Hwf E) as Hd. fold rb' in Hd.
  assert (En : int (int (kbd_rbput rb') - int (kbd_rbget rb'))
               = Z.of_nat (length l)).
  { rewrite int_of_mod.
    - rewrite Zminus_mod, !int_mod, <- Zminus_mod. apply Hd. lia.
    - rewrite Zminus_mod, !int_mod, <- Zminus_mod.
      unfold u_int in Hd. rewrite Hd; lia. }
  assert (Eg : (kbd_rbput rb' - KBD_RING_SIZE) mod 2 ^ 32
               = (kbd_rbget rb' + (Z.of_nat (length l) - KBD_RING_SIZE))
                   mod 2 ^ 32).
  { unfold u_int in Hd. specialize (Hd ltac:(lia)).
    unfold KBD_RING_SIZE. Z.div_mod_to_equations. lia. }
  split.
  - rewrite En. unfold kbdsoft_overflow, KBD_RING_SIZE.
    destruct (Z.ltb_spec 256 (Z.of_nat (length l))); [|lia].
    f_equal. apply int_congr.
    rewrite <- Zplus_mod_idemp_l, int_mod, Zplus_mod_idemp_l.
    symmetry. exact Eg.
  - apply int_congr, Eg.
Qed.

Section PushDrain.
Context {St : Type} (body : St -> Z -> St).

(** Up to [KBD_RING_SIZE] pushes: one pass runs the body on the bytes
    pushed. *)
Lemma kbdsoft_loop_pushed rb l fuel s :
  ringbuf_wf rb -> kbd_rbget rb = kbd_rbput rb ->
  (length l <= 256)%nat -> (258 <= fuel)%nat ->
  kbdsoft_loop body fuel (put_all l rb) s =
  Some (set_kbd_rbget (kbd_rbput (put_all l rb)) (put_all l rb),
        fold_left body l s).
Proof.
  intros Hwf E Hl Hfuel.
  destruct l as [|x l].
  - destruct fuel as [|fuel]; [lia|].
    change (put_all [] rb) with rb.
    rewrite kbdsoft_loop_empty by exact E.
    rewrite <- E, set_kbd_rbget_id. reflexivity.
  - pose proof (put_all_pending (x :: l) rb Hwf E) as Hd.
    remember (x :: l) as l' eqn:El.
    assert (Hpos : (0 < length l')%nat) by (subst l'; simpl; lia).
    rewrite kbdsoft_loop_spec.
    + rewrite Hd by lia. unfold drain_count, KBD_RING_SIZE.
      rewrite Z.min_l, Nat2Z.id by lia.
      do 3 f_equal.
      etransitivity; [|apply (put_all_slice l' rb); [apply Hwf|exact Hl]].
      apply ring_slice_congr.
      rewrite put_all_rbput_wf by apply Hwf.
      unfold u_int. Z.div_mod_to_equations. lia.
    + apply put_all_wf, Hwf.
    + rewrite Hd by lia. lia.
    + rewrite Hd by lia. unfold drain_count, KBD_RING_SIZE. lia.
Qed.

(** More than [KBD_RING_SIZE] pushes, fewer than [2^31]: one pass runs the
    body on the last [KBD_RING_SIZE] bytes pushed. *)
Lemma kbdsoft_loop_overrun rb l fuel s :
  ringbuf_wf rb -> kbd_rbget rb = kbd_rbput rb ->
  (256 < length l)%nat -> Z.of_nat (length l) < 2 ^ 31 ->
  (258 <= fuel)%nat ->
  kbdsoft_loop body fuel (put_all l rb) s =
  Some (set_kbd_rbget (kbd_rbput (put_all l rb)) (put_all l rb),
        fold_left body (drop (length l - 256) l) s).
Proof.
  intros Hwf E Hl Hl' Hfuel.
  pose proof (put_all_pending l rb Hwf E) as Hd.
  rewrite kbdsoft_loop_spec.
  - rewrite Hd by lia. unfold drain_count, KBD_RING_SIZE.
    rewrite Z.min_r by lia. do 3 f_equal.
    set (l1 := take (length l - 256) l). set (l2 := drop (length l - 256) l).
    assert (El : l = l1 ++ l2) by (symmetry; apply take_drop).
    assert (H1 : length l1 = (length l - 256)%nat)
      by (unfold l1; rewrite length_take; lia).
    assert (H2 : length l2 = 256%nat)
      by (unfold l2; rewrite length_drop; lia).
    assert (Ep : put_all l rb = put_all l2 (put_all l1 rb))
      by (rewrite El at 1; apply put_all_app).
    rewrite Ep.
    etransitivity; [|apply (put_all_slice l2 (put_all l1 rb))].
    + rewrite H2. apply ring_slice_congr.
      rewrite !put_all_rbput_wf, H1, H2;
        [|apply Hwf|apply (put_all_wf l1 rb Hwf)].
      unfold u_int. Z.div_mod_to_equations. lia.
    + rewrite put_all_length. apply Hwf.
    + lia.
  - apply put_all_wf, Hwf.
  - rewrite Hd by lia. lia.
  - rewrite Hd by lia. unfold drain_count, KBD_RING_SIZE. lia.
Qed.

End PushDrain.

Lemma fold_left_snoc {A} (l : list A) : forall acc,
  fold_left (fun bytes code => bytes ++ [code]) l acc = acc ++ l.
Proof.
  induction l as [|x l IH]; intros acc; simpl.
  - symmetry. apply app_nil_r.
  - rewrite IH, <- app_assoc. reflexivity.
Qed.

(** [kbdintr] pushes the bytes it reads without error, in the order it
    reads them. *)
Lemma kbdintr_rx_pushes rx : forall rb got_char,
  fst (kbdintr_rx rx rb got_char)
  = put_all (map snd (List.filter (fun e => negb (fst e)) rx)) rb.
Proof.
  induction rx as [|[error code] rx IH]; intros rb got_char; [reflexivity|].
  simpl. destruct error; simpl; apply IH.
Qed.

Lemma kbdintr_pushes {R : KbdReg} rb st :
  fst (kbdintr rb st)
  = put_all (map snd (List.filter (fun e => negb (fst e))
                        (rx_pending (KBD st)))) rb.
Proof.
  unfold kbdintr. rewrite <- (kbdintr_rx_pushes _ rb false).
  destruct (kbdintr_rx (rx_pending (KBD st)) rb false) as [rb' [|]];
    reflexivity.
Qed.

(** C1. For every sequence of at most [KBD_RING_SIZE] (256) bytes the
    producer pushes into a ring that had been read to the end (as [kbdintr]
    does with the bytes it reads without error), one pass of [kbdsoft]
    takes exactly the bytes pushed from the ring, in the order they were
    pushed, and hands them in that order to the loop body. *)
Theorem kbdsoft_yields_pushed_bytes (rb : ringbuf) (l : list Z) (fuel : nat) :
  ringbuf_wf rb -> kbd_rbget rb = kbd_rbput rb ->
  (length l <= 256)%nat -> (258 <= fuel)%nat ->
  let rb' := put_all l rb in
  kbd_ring_drain fuel rb' = Some (set_kbd_rbget (kbd_rbput rb') rb', l)
  /\ (forall (R : KbdReg) (st : kbd_state),
        kbdsoft fuel rb' st =
        Some (set_kbd_rbget (kbd_rbput rb') rb', fold_left kbdsoft_code l st))
  /\ (forall (R : KbdReg) (st : kbd_state),
        rx_pending (KBD st) = map (pair false) l ->
        fst (kbdintr rb st) = rb').
Proof.
  intros Hwf E Hl Hfuel rb'. repeat apply conj.
  - unfold kbd_ring_drain, rb'.
    rewrite kbdsoft_loop_pushed by assumption.
    rewrite fold_left_snoc. reflexivity.
  - intros R st. unfold kbdsoft, rb'.
    apply kbdsoft_loop_pushed; assumption.
  - intros R st Hrx. rewrite kbdintr_pushes, Hrx. unfold rb'. f_equal.
    clear. induction l as [|x l IH]; [reflexivity|].
    simpl. f_equal. exact IH.
Qed.

Lemma ring_initial_wf : ringbuf_wf ring_initial.
Proof. split; [reflexivity | simpl; lia | simpl; lia]. Defined.

Lemma kbdsoft_yields_pushed_bytes_witness :
  kbd_ring_drain 258 (put_all [0x1e; 0x9e; 0x30] ring_initial)
  = Some (set_kbd_rbget 3 (put_all [0x1e; 0x9e; 0x30] ring_initial),
          [0x1e; 0x9e; 0x30]).
Proof.
  apply (kbdsoft_yields_pushed_bytes ring_initial [0x1e; 0x9e; 0x30] 258).
  - exact ring_initial_wf.
  - reflexivity.
  - simpl. lia.
  - lia.
Defined.

(** C2 (amended). For every sequence of pushes that exceeds the ring
    capacity by [k] bytes and is shorter than [2^31] bytes, the overflow
    test of [kbdsoft] sets [get] to [kbd_rbput - KBD_RING_SIZE], which is
    [get] advanced by [k], with the count [KBD_RING_SIZE] (not negative);
    the pass ends, takes the most recent 256 bytes only, in order, and
    leaves [kbd_rbget] equal to [kbd_rbput]. *)
Theorem kbdsoft_overflow_resynchronizes (rb : ringbuf) (l : list Z)
    (fuel : nat) :
  ringbuf_wf rb -> kbd_rbget rb = kbd_rbput rb ->
  (256 < length l)%nat -> Z.of_nat (length l) < 2 ^ 31 ->
  (258 <= fuel)%nat ->
  let rb' := put_all l rb in
  let k := (length l - 256)%nat in
  kbdsoft_overflow (int (kbd_rbget rb'))
    (int (int (kbd_rbput rb') - int (kbd_rbget rb')))
  = (int (kbd_rbput rb' - KBD_RING_SIZE), KBD_RING_SIZE)
  /\ int (kbd_rbput rb' - KBD_RING_SIZE) = int (kbd_rbget rb' + Z.of_nat k)
  /\ kbd_ring_drain fuel rb'
     = Some (set_kbd_rbget (kbd_rbput rb') rb', drop k l)
  /\ forall (R : KbdReg) (st : kbd_state),
       kbdsoft fuel rb' st =
       Some (set_kbd_rbget (kbd_rbput rb') rb',
             fold_left kbdsoft_code (drop k l) st).
Proof.
  intros Hwf E Hl Hl' Hfuel rb' k.
  destruct (kbdsoft_overflow_overrun rb l Hwf E Hl Hl') as [Ho Eg].
  fold rb' in Ho, Eg.
  split; [exact Ho|]. split.
  { rewrite Eg. f_equal. unfold k, KBD_RING_SIZE. lia. }
  split.
  - unfold kbd_ring_drain, rb'.
    rewrite kbdsoft_loop_overrun by assumption.
    rewrite fold_left_snoc. reflexivity.
  - intros R st. unfold kbdsoft, rb'.
    apply kbdsoft_loop_overrun; assumption.
Qed.

Lemma kbdsoft_overflow_resynchronizes_witness :
  kbd_ring_drain 258 (put_all keycodes_300 ring_initial)
  = Some (set_kbd_rbget 300 (put_all keycodes_300 ring_initial),
          drop 44 keycodes_300).
Proof.
  destruct (kbdsoft_overflow_resynchronizes ring_initial keycodes_300 258)
    as (_ & _ & H & _).
  - exact ring_initial_wf.
  - reflexivity.
  - vm_compute. lia.
  - vm_compute. reflexivity.
  - lia.
  - exact H.
Defined.

(** After [N] pushes, [2^31 < N < 2^32], into the initial ring no amount of
    fuel lets the handler come back. *)
Lemma kbdsoft_stuck_after (N : nat) :
  2 ^ 31 < Z.of_nat N < 2 ^ 32 ->
  forall fuel,
    kbd_ring_drain fuel (put_all (replicate N 0) ring_initial) = None.
Proof.
  intros HN fuel. unfold kbd_ring_drain, kbdsoft_loop.
  rewrite put_all_rbget.
  assert (Ep : kbd_rbput (put_all (replicate N 0) ring_initial) = Z.of_nat N).
  { rewrite put_all_rbput_wf by (simpl; lia).
    rewrite length_replicate. simpl kbd_rbput. rewrite Z.add_0_l.
    apply u_int_small. lia. }
  apply kbdsoft_for_stuck.
  - apply int_range.
  - rewrite Ep. simpl kbd_rbget. change (int 0) with 0. rewrite Z.sub_0_r.
    unfold int. Z.div_mod_to_equations. lia.
Qed.

(** C2, counterexample to the statement of the specification: after
    [2^31 + 1] pushes, which exceed the capacity, the count [n] is negative
    in every pass of the outer loop, and the handler takes no byte and does
    not come back. *)
Lemma kbdsoft_overflow_beyond_int_never_returns :
  let l := replicate (Z.to_nat (2 ^ 31 + 1)) 0 in
  (256 < length l)%nat
  /\ forall fuel, kbd_ring_drain fuel (put_all l ring_initial) = None.
Proof.
  intros l. split.
  - unfold l. rewrite length_replicate. lia.
  - apply kbdsoft_stuck_after. lia.
Qed.

(** ** Package assembly *)

Section Package.
Context {R : KbdReg}.

(** The key stroke paths leave the package fields alone. *)
Lemma kbd_do_modifier_softc st code :
  softc (snd (kbd_do_modifier st code)) = softc st.
Proof.
  unfold kbd_do_modifier.
  repeat match goal with
         | |- context [if ?b then _ else _] => destruct b
         end; reflexivity.
Qed.

Lemma kbdsoft_event_pkg_size st code :
  sc_pkg_size (softc (kbdsoft_event st code)) = sc_pkg_size (softc st).
Proof.
  unfold kbdsoft_event.
  destruct (Z.rem _ _ =? _); reflexivity.
Qed.

Lemma kbdsoft_key_pkg_size st code :
  sc_pkg_size (softc (kbdsoft_key st code)) = sc_pkg_size (softc st).
Proof.
  unfold kbdsoft_key.
  match goal with
  | |- context [match ?x with Some _ => _ | None => _ end] => destruct x
  end; [reflexivity|].
  pose proof (kbd_do_modifier_softc st code) as Hm.
  destruct (0 <? NITE).
  - destruct (kbd_do_modifier st code) as [m st']. simpl in Hm.
    destruct (negb (m =? 0) && _); [congruence|].
    destruct (sc_event_mode (softc st) =? 0); [simpl; congruence|].
    rewrite kbdsoft_event_pkg_size. congruence.
  - destruct (negb (0 =? 0) && _); [reflexivity|].
    destruct (sc_event_mode (softc st) =? 0); [reflexivity|].
    apply kbdsoft_event_pkg_size.
Qed.

(** With no package being assembled, a key code takes the key stroke
    path. *)
Lemma kbdsoft_code_key st code :
  idle st -> KBD_IS_KEY code = true ->
  kbdsoft_code st code = kbdsoft_key st code.
Proof.
  unfold idle, kbdsoft_code. intros -> ->. reflexivity.
Qed.

Lemma kbdsoft_code_keys l : forall st,
  idle st -> Forall (fun c => KBD_IS_KEY c = true) l ->
  fold_left kbdsoft_code l st = fold_left kbdsoft_key l st
  /\ idle (fold_left kbdsoft_code l st).
Proof.
  induction l as [|c l IH]; intros st Hidle Hl; [split; [reflexivity|exact Hidle]|].
  inversion Hl as [|? ? Hc Hl']; subst. simpl.
  rewrite kbdsoft_code_key by assumption.
  apply IH; [|exact Hl'].
  unfold idle. rewrite kbdsoft_key_pkg_size. exact Hidle.
Qed.

(** The table of [kbd_pkg_start]. *)
Lemma kbd_pkg_start_table :
  starts_package 0xf6 KBD_MEM_PKG 8
  /\ starts_package 0xf7 KBD_AMS_PKG 6
  /\ starts_package 0xf8 KBD_RMS_PKG 3
  /\ starts_package 0xf9 KBD_RMS_PKG 3
  /\ starts_package 0xfa KBD_RMS_PKG 3
  /\ starts_package 0xfb KBD_RMS_PKG 3
  /\ starts_package 0xfc KBD_CLK_PKG 7
  /\ starts_package 0xfe KBD_JOY0_PKG 2
  /\ starts_package 0xff KBD_JOY1_PKG 2.
Proof.
  repeat split; simpl;
    try (intros Hlen; apply list_lookup_insert_eq; rewrite Hlen; lia).
Qed.

End Package.

(** C3. With no package being assembled, the header byte [0xfa] and two
    more bytes [b1], [b2] give one complete package of the relative mouse
    type with the bytes [0xfa, b1, b2]: nothing is handed on before the
    third byte, the package is handed to [mouse_soft] once (where a mouse
    is configured), and the softc is back to no assembly
    ([sc_pkg_size = 0]). The lengths [kbd_pkg_start] sets are 8 for [0xf6]
    (memory), 6 for [0xf7] (absolute mouse), 3 for [0xf8] to [0xfb]
    (relative mouse), 7 for [0xfc] (clock), 2 for [0xfe] and 2 for [0xff]
    (joysticks). *)
Theorem relative_mouse_package_assembled {R : KbdReg} (st : kbd_state)
    (b1 b2 : Z) :
  idle st -> KBD_IS_KEY 0xfa = false ->
  length (sc_package (softc st)) = 20%nat ->
  let st1 := kbdsoft_code st 0xfa in
  let st2 := kbdsoft_code st1 b1 in
  let st3 := kbdsoft_code st2 b2 in
  (sc_pkg_size (softc st1) = 3 /\ sc_pkg_idx (softc st1) = 1
   /\ trace st1 = trace st)
  /\ (sc_pkg_size (softc st2) = 3 /\ sc_pkg_idx (softc st2) = 2
      /\ trace st2 = trace st)
  /\ (take 3 (sc_package (softc st3)) = [0xfa; b1; b2]
      /\ sc_pkg_type (softc st3) = KBD_RMS_PKG
      /\ idle st3
      /\ trace st3 =
         trace st ++
         (if 0 <? NMOUSE
          then [mouse_soft (sc_package (softc st3)) 3 KBD_RMS_PKG] else []))
  /\ (starts_package 0xf6 KBD_MEM_PKG 8
      /\ starts_package 0xf7 KBD_AMS_PKG 6
      /\ starts_package 0xf8 KBD_RMS_PKG 3
      /\ starts_package 0xf9 KBD_RMS_PKG 3
      /\ starts_package 0xfa KBD_RMS_PKG 3
      /\ starts_package 0xfb KBD_RMS_PKG 3
      /\ starts_package 0xfc KBD_CLK_PKG 7
      /\ starts_package 0xfe KBD_JOY0_PKG 2
      /\ starts_package 0xff KBD_JOY1_PKG 2).
Proof.
  intros Hidle Hkey Hlen. cbv zeta.
  assert (E1 : kbdsoft_code st 0xfa = kbd_pkg_start st 0xfa).
  { unfold kbdsoft_code. rewrite Hidle, Hkey. reflexivity. }
  rewrite E1. clear E1.
  destruct st as [[em ev cs pkg size idx ty sp cnt dev poll] m snd a clk cr tr].
  unfold idle in *. simpl in Hidle, Hlen. subst size.
  destruct pkg as [|p0 [|p1 [|p2 pkg]]]; try discriminate Hlen.
  split; [simpl; auto|].
  split; [simpl; auto|].
  split; [|apply kbd_pkg_start_table].
  unfold kbdsoft_code, kbdsoft_package. simpl.
  destruct (0 <? NMOUSE); simpl; rewrite ?app_nil_r; auto.
Qed.

Lemma relative_mouse_package_assembled_witness :
  let st3 := fold_left (kbdsoft_code (R := atari_kbdreg)) [0xfa; 0x05; 0xfd]
               atari_initial in
  take 3 (sc_package (softc st3)) = [0xfa; 0x05; 0xfd]
  /\ sc_pkg_type (softc st3) = KBD_RMS_PKG
  /\ idle st3
  /\ trace st3 = [mouse_soft (sc_package (softc st3)) 3 KBD_RMS_PKG].
Proof.
  destruct (relative_mouse_package_assembled (R := atari_kbdreg)
              atari_initial 0x05 0xfd) as (_ & _ & H & _).
  - reflexivity.
  - reflexivity.
  - reflexivity.
  - exact H.
Defined.

(** The unknown header and what follows it are taken up again below, once
    the three ways of a key stroke are at hand. *)

(** ** Modifier tracking *)

Lemma uint8_t_bits x n :
  0 <= n -> Z.testbit (uint8_t x) n = Z.testbit x n && (n <? 8).
Proof.
  intros Hn. unfold uint8_t. change 255 with (Z.ones 8).
  rewrite Z.land_spec, Z.testbit_ones_nonneg by lia. reflexivity.
Qed.

Lemma byte_testbit_high x n : 0 <= x < 256 -> 8 <= n -> Z.testbit x n = false.
Proof.
  intros Hx Hn. rewrite <- (Z.mod_small x (2 ^ 8)) by lia.
  apply Z.mod_pow2_bits_high. lia.
Qed.

(** Equalities of bit patterns, bit by bit. *)
Ltac bitwise :=
  apply Z.bits_inj'; intros ?n ?Hn;
  repeat first [ rewrite uint8_t_bits by lia | rewrite Z.land_spec
               | rewrite Z.lor_spec | rewrite Z.lxor_spec
               | rewrite Z.lnot_spec by lia ].

Lemma uint8_t_lor m L :
  0 <= m < 256 -> 0 <= L < 256 -> uint8_t (Z.lor m L) = Z.lor m L.
Proof.
  intros Hm HL. bitwise.
  destruct (Z.ltb_spec n 8); [apply andb_true_r|].
  rewrite !(byte_testbit_high _ n) by assumption. reflexivity.
Qed.

Lemma uint8_t_lxor m L :
  0 <= m < 256 -> 0 <= L < 256 -> uint8_t (Z.lxor m L) = Z.lxor m L.
Proof.
  intros Hm HL. bitwise.
  destruct (Z.ltb_spec n 8); [apply andb_true_r|].
  rewrite !(byte_testbit_high _ n) by assumption. reflexivity.
Qed.

Lemma uint8_t_land_lnot m L :
  0 <= m < 256 -> uint8_t (Z.land m (Z.lnot L)) = Z.land m (Z.lnot L).
Proof.
  intros Hm. bitwise.
  destruct (Z.ltb_spec n 8); [apply andb_true_r|].
  rewrite (byte_testbit_high m n) by assumption. reflexivity.
Qed.

Lemma lor_then_land_lnot m L :
  Z.land (Z.lor m L) (Z.lnot L) = Z.land m (Z.lnot L).
Proof.
  bitwise. destruct (Z.testbit m n), (Z.testbit L n); reflexivity.
Qed.

Lemma land_lnot_clear m L : Z.land m L = 0 -> Z.land m (Z.lnot L) = m.
Proof.
  intros H. bitwise.
  assert (E : Z.testbit (Z.land m L) n = false) by (rewrite H; apply Z.bits_0).
  rewrite Z.land_spec in E.
  destruct (Z.testbit m n), (Z.testbit L n); try reflexivity; discriminate E.
Qed.

Lemma lxor_twice m C : Z.lxor (Z.lxor m C) C = m.
Proof. rewrite Z.lxor_assoc, Z.lxor_nilpotent, Z.lxor_0_r. reflexivity. Qed.

Lemma lxor_toggles m C :
  Z.land (Z.lxor m C) C = Z.lxor (Z.land m C) C.
Proof.
  bitwise. destruct (Z.testbit m n), (Z.testbit C n); reflexivity.
Qed.

Lemma lxor_changes m C : C <> 0 -> Z.lxor m C <> m.
Proof.
  intros HC E. apply HC.
  rewrite <- (Z.lxor_nilpotent m), <- E at 1.
  rewrite Z.lxor_comm, <- Z.lxor_assoc, Z.lxor_nilpotent, Z.lxor_0_l.
  reflexivity.
Qed.

Lemma lxor_byte m C : 0 <= m < 256 -> 0 <= C < 256 -> 0 <= Z.lxor m C < 256.
Proof.
  intros Hm HC. rewrite <- uint8_t_lxor by assumption. apply uint8_t_range.
Qed.

Lemma lor_byte m C : 0 <= m < 256 -> 0 <= C < 256 -> 0 <= Z.lor m C < 256.
Proof.
  intros Hm HC. rewrite <- uint8_t_lor by assumption. apply uint8_t_range.
Qed.

Lemma set_kbd_modifier_id st : set_kbd_modifier (kbd_modifier st) st = st.
Proof. destruct st; reflexivity. Qed.

Lemma set_kbd_modifier_twice m1 m2 st :
  set_kbd_modifier m2 (set_kbd_modifier m1 st) = set_kbd_modifier m2 st.
Proof. reflexivity. Qed.

Section Modifier.
Context {R : KbdReg} (Hok : KbdRegOk R).

Lemma scancodes_distinct :
  KBD_LEFT_SHIFT <> KBD_RIGHT_SHIFT /\ KBD_LEFT_SHIFT <> KBD_CTRL
  /\ KBD_LEFT_SHIFT <> KBD_ALT /\ KBD_LEFT_SHIFT <> KBD_CAPS_LOCK
  /\ KBD_RIGHT_SHIFT <> KBD_CTRL /\ KBD_RIGHT_SHIFT <> KBD_ALT
  /\ KBD_RIGHT_SHIFT <> KBD_CAPS_LOCK /\ KBD_CTRL <> KBD_ALT
  /\ KBD_CTRL <> KBD_CAPS_LOCK /\ KBD_ALT <> KBD_CAPS_LOCK.
Proof.
  pose proof (ok_scancodes R Hok) as H.
  repeat match goal with
         | H : NoDup (_ :: _) |- _ => inversion_clear H
         end.
  rewrite ?not_elem_of_cons in *. intuition.
Qed.

(** What [kbd_do_modifier] does with each of the keys. *)
Lemma kbd_do_modifier_left_shift st code :
  KBD_SCANCODE code = KBD_LEFT_SHIFT -> 0 <= kbd_modifier st < 256 ->
  kbd_do_modifier st code =
  (1, set_kbd_modifier
        (if KBD_RELEASED code
         then Z.land (kbd_modifier st) (Z.lnot KBD_MOD_LSHIFT)
         else Z.lor (kbd_modifier st) KBD_MOD_LSHIFT) st).
Proof.
  intros Hkey Hm. pose proof (ok_lshift R Hok) as HL.
  unfold kbd_do_modifier. rewrite Hkey, Z.eqb_refl.
  rewrite (uint8_t_small KBD_MOD_LSHIFT) by lia.
  destruct (Z.eqb_spec KBD_MOD_LSHIFT 0) as [E|_]; [lia|]. simpl.
  destruct (KBD_RELEASED code).
  - rewrite uint8_t_land_lnot by exact Hm. reflexivity.
  - rewrite uint8_t_lor by lia. reflexivity.
Qed.

Lemma kbd_do_modifier_caps_lock st code :
  KBD_SCANCODE code = KBD_CAPS_LOCK -> 0 <= kbd_modifier st < 256 ->
  kbd_do_modifier st code =
  (1, if KBD_RELEASED code then st
      else set_kbd_modifier (Z.lxor (kbd_modifier st) KBD_MOD_CAPS) st).
Proof.
  intros Hkey Hm. pose proof (ok_caps R Hok) as HC.
  destruct scancodes_distinct as (_ & _ & _ & D1 & _ & _ & D2 & _ & D3 & D4).
  unfold kbd_do_modifier. rewrite Hkey.
  destruct (Z.eqb_spec KBD_CAPS_LOCK KBD_LEFT_SHIFT); [congruence|].
  destruct (Z.eqb_spec KBD_CAPS_LOCK KBD_RIGHT_SHIFT); [congruence|].
  destruct (Z.eqb_spec KBD_CAPS_LOCK KBD_CTRL); [congruence|].
  destruct (Z.eqb_spec KBD_CAPS_LOCK KBD_ALT); [congruence|].
  rewrite Z.eqb_refl.
  destruct (KBD_RELEASED code); [reflexivity|].
  rewrite uint8_t_lxor by lia. reflexivity.
Qed.

Lemma kbd_do_modifier_other st code :
  modifier_key code = false -> kbd_do_modifier st code = (0, st).
Proof.
  unfold modifier_key, modifier_scancodes. simpl. intros Hc.
  repeat (apply orb_false_elim in Hc; destruct Hc as [? Hc]).
  unfold kbd_do_modifier.
  repeat match goal with
         | H : (KBD_SCANCODE code =? _) = false |- _ => rewrite H; clear H
         end.
  reflexivity.
Qed.

Lemma kbd_do_modifier_taken st code :
  modifier_key code = true -> fst (kbd_do_modifier st code) = 1.
Proof.
  pose proof (ok_lshift R Hok). pose proof (ok_rshift R Hok).
  pose proof (ok_ctrl R Hok). pose proof (ok_alt R Hok).
  unfold modifier_key, modifier_scancodes. simpl. intros Hc.
  unfold kbd_do_modifier.
  rewrite (uint8_t_small KBD_MOD_LSHIFT), (uint8_t_small KBD_MOD_RSHIFT),
    (uint8_t_small KBD_MOD_CTRL), (uint8_t_small KBD_MOD_ALT) by lia.
  repeat match goal with
         | |- context [?a =? ?b] =>
             destruct (Z.eqb_spec a b); simpl in *; try lia; try discriminate
         | |- context [if KBD_RELEASED code then _ else _] =>
             destruct (KBD_RELEASED code)
         end; reflexivity.
Qed.

End Modifier.

(** With left shift held, a left shift press and release do not give the
    mask back: the bit ends up cleared, whatever the values of the scan
    code and of the bit. *)
Lemma left_shift_held_not_restored {R : KbdReg} (Hok : KbdRegOk R) st p r :
  0 <= kbd_modifier st < 256 ->
  KBD_SCANCODE p = KBD_LEFT_SHIFT -> KBD_RELEASED p = false ->
  KBD_SCANCODE r = KBD_LEFT_SHIFT -> KBD_RELEASED r = true ->
  Z.land (kbd_modifier st) KBD_MOD_LSHIFT <> 0 ->
  kbd_modifier (snd (kbd_do_modifier (snd (kbd_do_modifier st p)) r))
  <> kbd_modifier st.
Proof.
  intros Hm Hp Hpu Hr Hru Hheld. pose proof (ok_lshift R Hok) as HL.
  rewrite (kbd_do_modifier_left_shift Hok st p) by assumption.
  rewrite Hpu. simpl snd.
  rewrite (kbd_do_modifier_left_shift Hok)
    by (try assumption; apply lor_byte; simpl; lia).
  rewrite Hru. simpl snd.
  change (kbd_modifier (set_kbd_modifier ?m _)) with m.
  rewrite lor_then_land_lnot. intros E. apply Hheld.
  rewrite <- E. bitwise.
  rewrite Z.bits_0. destruct (Z.testbit (kbd_modifier st) n),
    (Z.testbit KBD_MOD_LSHIFT n); reflexivity.
Qed.

Lemma atari_kbdreg_ok : KbdRegOk atari_kbdreg.
Proof.
  split; try (simpl; lia).
  apply (bool_decide_unpack _). vm_compute. exact I.
Defined.

Lemma atari_kbdreg_no_ite_ok : KbdRegOk atari_kbdreg_no_ite.
Proof.
  split; try (simpl; lia).
  apply (bool_decide_unpack _). vm_compute. exact I.
Defined.

(** C5 (amended). For [kbd_do_modifier], from any state: a left shift
    press followed by a left shift release leaves the modifier mask at its
    value before the press with the left shift bit cleared, which is the
    value before the press whenever that bit was clear then; a caps lock
    press toggles the caps bit and a caps lock release changes nothing, so
    that two caps lock presses, with or without a release in between, give
    the state back; a scan code that is none of shift, control, alternate
    and caps lock leaves the state as it is and the result is 0, and for
    the modifier and caps lock scan codes the result is 1. *)
Theorem kbd_do_modifier_tracks {R : KbdReg} (st : kbd_state) :
  KbdRegOk R -> 0 <= kbd_modifier st < 256 ->
  (forall p r,
     press_of KBD_LEFT_SHIFT p -> release_of KBD_LEFT_SHIFT r ->
     let st' := snd (kbd_do_modifier (snd (kbd_do_modifier st p)) r) in
     st' = set_kbd_modifier
             (Z.land (kbd_modifier st) (Z.lnot KBD_MOD_LSHIFT)) st
     /\ (Z.land (kbd_modifier st) KBD_MOD_LSHIFT = 0 -> st' = st))
  /\ (forall c,
        press_of KBD_CAPS_LOCK c ->
        let st' := snd (kbd_do_modifier st c) in
        st' = set_kbd_modifier (Z.lxor (kbd_modifier st) KBD_MOD_CAPS) st
        /\ Z.land (kbd_modifier st') KBD_MOD_CAPS
           = Z.lxor (Z.land (kbd_modifier st) KBD_MOD_CAPS) KBD_MOD_CAPS
        /\ kbd_modifier st' <> kbd_modifier st)
  /\ (forall c, release_of KBD_CAPS_LOCK c -> snd (kbd_do_modifier st c) = st)
  /\ (forall c1 c2,
        press_of KBD_CAPS_LOCK c1 -> press_of KBD_CAPS_LOCK c2 ->
        snd (kbd_do_modifier (snd (kbd_do_modifier st c1)) c2) = st)
  /\ (forall c1 r c2,
        press_of KBD_CAPS_LOCK c1 -> release_of KBD_CAPS_LOCK r ->
        press_of KBD_CAPS_LOCK c2 ->
        snd (kbd_do_modifier
               (snd (kbd_do_modifier (snd (kbd_do_modifier st c1)) r)) c2)
        = st)
  /\ (forall c, modifier_key c = false -> kbd_do_modifier st c = (0, st))
  /\ (forall c, modifier_key c = true -> fst (kbd_do_modifier st c) = 1).
Proof.
  intros Hok Hm.
  pose proof (ok_lshift R Hok) as HL. pose proof (ok_caps R Hok) as HC.
  assert (Hx : 0 <= Z.lxor (kbd_modifier st) KBD_MOD_CAPS < 256)
    by (apply lxor_byte; lia).
  assert (Hcaps : forall c, press_of KBD_CAPS_LOCK c -> forall s,
            0 <= kbd_modifier s < 256 ->
            snd (kbd_do_modifier s c)
            = set_kbd_modifier (Z.lxor (kbd_modifier s) KBD_MOD_CAPS) s).
  { intros c [Hk Hu] s Hs.
    rewrite (kbd_do_modifier_caps_lock Hok) by assumption.
    rewrite Hu. reflexivity. }
  assert (Hrel : forall c, release_of KBD_CAPS_LOCK c -> forall s,
            0 <= kbd_modifier s < 256 -> snd (kbd_do_modifier s c) = s).
  { intros c [Hk Hu] s Hs.
    rewrite (kbd_do_modifier_caps_lock Hok) by assumption.
    rewrite Hu. reflexivity. }
  repeat apply conj.
  - intros p r [Hp Hpu] [Hr Hru]. cbv zeta.
    rewrite (kbd_do_modifier_left_shift Hok st p) by assumption.
    rewrite Hpu. simpl snd.
    rewrite (kbd_do_modifier_left_shift Hok) by (try assumption; apply lor_byte; simpl; lia).
    rewrite Hru. simpl snd. rewrite set_kbd_modifier_twice.
    change (kbd_modifier (set_kbd_modifier ?m _)) with m.
    rewrite lor_then_land_lnot. split; [reflexivity|].
    intros E. rewrite land_lnot_clear by exact E. apply set_kbd_modifier_id.
  - intros c Hc. cbv zeta. rewrite Hcaps by assumption. simpl.
    split; [reflexivity|]. split; [apply lxor_toggles|].
    apply lxor_changes. lia.
  - intros c Hc. apply Hrel; assumption.
  - intros c1 c2 H1 H2. rewrite (Hcaps c1 H1 st Hm).
    rewrite (Hcaps c2 H2) by exact Hx. rewrite set_kbd_modifier_twice.
    change (kbd_modifier (set_kbd_modifier ?m _)) with m.
    rewrite lxor_twice. apply set_kbd_modifier_id.
  - intros c1 r c2 H1 Hr H2. rewrite (Hcaps c1 H1 st Hm).
    rewrite (Hrel r Hr) by exact Hx.
    rewrite (Hcaps c2 H2) by exact Hx. rewrite set_kbd_modifier_twice.
    change (kbd_modifier (set_kbd_modifier ?m _)) with m.
    rewrite lxor_twice. apply set_kbd_modifier_id.
  - intros c. apply kbd_do_modifier_other.
  - intros c. apply (kbd_do_modifier_taken Hok).
Qed.

Lemma kbd_do_modifier_tracks_witness :
  snd (kbd_do_modifier (R := atari_kbdreg)
         (snd (kbd_do_modifier (R := atari_kbdreg) atari_initial 0x2a)) 0xaa)
  = atari_initial.
Proof.
  destruct (kbd_do_modifier_tracks (R := atari_kbdreg) atari_initial)
    as (H & _).
  - exact atari_kbdreg_ok.
  - simpl. lia.
  - apply (H 0x2a 0xaa).
    + split; reflexivity.
    + split; reflexivity.
    + reflexivity.
Defined.

(** C5, counterexample to the statement of the specification: with left
    shift held (the state after a left shift press), a left shift press
    and a left shift release leave the mask at 0 and not at its value
    before the press. *)
Lemma left_shift_press_release_when_held :
  let held := snd (kbd_do_modifier (R := atari_kbdreg) atari_initial 0x2a) in
  let after :=
    snd (kbd_do_modifier (R := atari_kbdreg)
           (snd (kbd_do_modifier (R := atari_kbdreg) held 0x2a)) 0xaa) in
  press_of (R := atari_kbdreg) (KBD_LEFT_SHIFT (KbdReg := atari_kbdreg)) 0x2a
  /\ release_of (R := atari_kbdreg) (KBD_LEFT_SHIFT (KbdReg := atari_kbdreg)) 0xaa
  /\ kbd_modifier held = 1
  /\ kbd_modifier after = 0
  /\ kbd_modifier after <> kbd_modifier held.
Proof.
  vm_compute. repeat split; discriminate.
Qed.

(** ** Dispatch of key strokes *)

Section Dispatch.
Context {R : KbdReg}.

(** [kbd_do_modifier] changes nothing but [kbd_modifier]. *)
Lemma kbd_do_modifier_frame st code :
  exists m, snd (kbd_do_modifier st code) = set_kbd_modifier m st.
Proof.
  unfold kbd_do_modifier.
  repeat match goal with
         | |- context [if ?b then _ else _] => destruct b
         end; simpl;
    solve [ eexists; reflexivity
          | exists (kbd_modifier st); symmetry; apply set_kbd_modifier_id ].
Qed.

Lemma kbd_do_modifier_trace st code :
  trace (snd (kbd_do_modifier st code)) = trace st.
Proof. destruct (kbd_do_modifier_frame st code) as [m ->]. reflexivity. Qed.

(** The wskbd takes the key stroke: attached, not polling, no event mode. *)
Lemma kbdsoft_key_wskbd st code dev :
  0 < NWSKBD -> sc_wskbddev (softc st) = Some dev ->
  sc_pollingmode (softc st) = 0 -> sc_event_mode (softc st) = 0 ->
  kbdsoft_key st code =
  emit (wskbd_input dev
          (if KBD_RELEASED code then WSCONS_EVENT_KEY_UP
           else WSCONS_EVENT_KEY_DOWN) (KBD_SCANCODE code)) st.
Proof.
  intros HW Hdev Hpoll Hem. unfold kbdsoft_key.
  rewrite Hdev, Hpoll, Hem.
  destruct (Z.ltb_spec 0 NWSKBD); [reflexivity|lia].
Qed.

Lemma kbdsoft_key_no_wskbd st :
  no_wskbd st ->
  (if (0 <? NWSKBD) && (sc_pollingmode (softc st) =? 0)
      && (sc_event_mode (softc st) =? 0)
   then sc_wskbddev (softc st) else None) = None.
Proof.
  intros [H|H].
  - destruct (Z.ltb_spec 0 NWSKBD); [lia|reflexivity].
  - rewrite H. destruct (_ && _); reflexivity.
Qed.

(** Without event mode and without wskbd: a modifier key is swallowed, any
    other key goes to [ite_filter]; the softc stays as it is. *)
Lemma kbdsoft_key_ite (Hok : KbdRegOk R) st code :
  0 < NITE -> sc_event_mode (softc st) = 0 -> no_wskbd st ->
  softc (kbdsoft_key st code) = softc st
  /\ trace (kbdsoft_key st code) =
     trace st ++
     (if modifier_key code then [] else [ite_filter code ITEFILT_TTY]).
Proof.
  intros HI Hem Hno. unfold kbdsoft_key.
  rewrite (kbdsoft_key_no_wskbd st Hno), Hem.
  destruct (Z.ltb_spec 0 NITE) as [_|]; [|lia].
  destruct (modifier_key code) eqn:Ek.
  - pose proof (kbd_do_modifier_taken Hok st code Ek) as E1.
    pose proof (kbd_do_modifier_softc st code) as E2.
    pose proof (kbd_do_modifier_trace st code) as E3.
    destruct (kbd_do_modifier st code) as [m st']. simpl in E1, E2, E3.
    subst m. simpl. rewrite app_nil_r. auto.
  - rewrite (kbd_do_modifier_other st code Ek). simpl. auto.
Qed.

Lemma kbdsoft_keys_ite (Hok : KbdRegOk R) l : forall st,
  0 < NITE -> sc_event_mode (softc st) = 0 -> no_wskbd st ->
  trace (fold_left kbdsoft_key l st) =
  trace st ++
  map (fun c => ite_filter c ITEFILT_TTY)
    (List.filter (fun c => negb (modifier_key c)) l).
Proof.
  induction l as [|c l IH]; intros st HI Hem Hno; simpl.
  - symmetry. apply app_nil_r.
  - destruct (kbdsoft_key_ite Hok st c HI Hem Hno) as [Esc Etr].
    rewrite IH; [|exact HI|rewrite Esc; exact Hem|].
    + rewrite Etr, <- app_assoc. f_equal.
      destruct (modifier_key c); reflexivity.
    + unfold no_wskbd in *. rewrite Esc. exact Hno.
Qed.

End Dispatch.

(** C6 (amended). For a key code taken from the ring with no package
    being assembled: if a wskbd is attached, the driver is not in polling
    mode and not in event mode, the scan code with its press or release
    goes to [wskbd_input] and nothing else happens, [kbd_modifier]
    included; with event mode off and no wskbd, in a kernel configured
    with ite ([NITE > 0]), every key code that is not a modifier key goes
    to [ite_filter] exactly once, in the order of arrival, and after at
    most 256 pushes one pass of [kbdsoft] delivers them in the order they
    were pushed. *)
Theorem kbdsoft_routes_key_strokes {R : KbdReg} (st : kbd_state) :
  KbdRegOk R -> idle st -> sc_event_mode (softc st) = 0 ->
  (forall code dev,
     KBD_IS_KEY code = true ->
     0 < NWSKBD -> sc_wskbddev (softc st) = Some dev ->
     sc_pollingmode (softc st) = 0 ->
     kbdsoft_code st code =
     emit (wskbd_input dev
             (if KBD_RELEASED code then WSCONS_EVENT_KEY_UP
              else WSCONS_EVENT_KEY_DOWN) (KBD_SCANCODE code)) st
     /\ kbd_modifier (kbdsoft_code st code) = kbd_modifier st)
  /\ (forall l,
        Forall (fun c => KBD_IS_KEY c = true) l ->
        0 < NITE -> no_wskbd st ->
        let delivered :=
          map (fun c => ite_filter c ITEFILT_TTY)
            (List.filter (fun c => negb (modifier_key c)) l) in
        trace (fold_left kbdsoft_code l st) = trace st ++ delivered
        /\ forall rb fuel,
             ringbuf_wf rb -> kbd_rbget rb = kbd_rbput rb ->
             (length l <= 256)%nat -> (258 <= fuel)%nat ->
             exists rb' st',
               kbdsoft fuel (put_all l rb) st = Some (rb', st')
               /\ kbd_rbget rb' = kbd_rbput (put_all l rb)
               /\ st' = fold_left kbdsoft_code l st
               /\ trace st' = trace st ++ delivered).
Proof.
  intros Hok Hidle Hem. split.
  - intros code dev Hkey HW Hdev Hpoll.
    rewrite kbdsoft_code_key by assumption.
    rewrite (kbdsoft_key_wskbd st code dev) by assumption.
    split; reflexivity.
  - intros l Hl HI Hno delivered.
    destruct (kbdsoft_code_keys l st Hidle Hl) as [E _].
    assert (Et : trace (fold_left kbdsoft_code l st) = trace st ++ delivered).
    { rewrite E. apply (kbdsoft_keys_ite Hok); assumption. }
    split; [exact Et|].
    intros rb fuel Hwf Eg Hlen Hfuel.
    unfold kbdsoft. rewrite kbdsoft_loop_pushed by assumption.
    eexists _, _. split; [reflexivity|].
    split; [reflexivity|]. split; [reflexivity|exact Et].
Qed.

Lemma kbdsoft_routes_key_strokes_witness :
  trace (fold_left (kbdsoft_code (R := atari_kbdreg))
           [0x1e; 0x2a; 0x30; 0xb0; 0xaa; 0x9e] atari_initial)
  = [ite_filter 0x1e ITEFILT_TTY; ite_filter 0x30 ITEFILT_TTY;
     ite_filter 0xb0 ITEFILT_TTY; ite_filter 0x9e ITEFILT_TTY].
Proof.
  destruct (kbdsoft_routes_key_strokes (R := atari_kbdreg) atari_initial)
    as [_ H].
  - exact atari_kbdreg_ok.
  - reflexivity.
  - reflexivity.
  - destruct (H [0x1e; 0x2a; 0x30; 0xb0; 0xaa; 0x9e]) as [Ht _].
    + repeat constructor.
    + simpl. lia.
    + right. reflexivity.
    + exact Ht.
Defined.

(** C6, counterexample to the statement of the specification: in a kernel
    configured without ite the call of [ite_filter] is not compiled in;
    with event mode off and no wskbd attached, a key code that is not a
    modifier key is taken from the ring by [kbdsoft] and forwarded
    nowhere. *)
Lemma kbdsoft_forwards_nothing_without_ite :
  let st := kbd_state_initial (R := atari_kbdreg_no_ite) in
  idle st /\ sc_event_mode (softc st) = 0
  /\ sc_wskbddev (softc st) = None
  /\ KBD_IS_KEY (KbdReg := atari_kbdreg_no_ite) 0x1e = true
  /\ modifier_key (R := atari_kbdreg_no_ite) 0x1e = false
  /\ kbdsoft (R := atari_kbdreg_no_ite) 300 (put_all [0x1e] ring_initial) st
     = Some (set_kbd_rbget 1 (put_all [0x1e] ring_initial), st)
  /\ trace st = [].
Proof.
  vm_compute. repeat split.
Qed.

(** ** The event queue *)

Section Events.
Context {R : KbdReg}.

Lemma kbdsoft_event_set_kbd_modifier m st code :
  kbdsoft_event (set_kbd_modifier m st) code
  = set_kbd_modifier m (kbdsoft_event st code).
Proof.
  unfold kbdsoft_event. simpl.
  destruct (Z.rem _ _ =? _); reflexivity.
Qed.

(** In event mode a key code ends in [kbdsoft_event], after the modifier
    processing where an ite is configured. *)
Lemma kbdsoft_code_event st code :
  idle st -> KBD_IS_KEY code = true -> sc_event_mode (softc st) <> 0 ->
  kbdsoft_code st code =
  kbdsoft_event
    (if 0 <? NITE then snd (kbd_do_modifier st code) else st) code.
Proof.
  intros Hidle Hkey Hem. rewrite kbdsoft_code_key by assumption.
  unfold kbdsoft_key.
  destruct (Z.eqb_spec (sc_event_mode (softc st)) 0) as [|_]; [contradiction|].
  rewrite !andb_false_r.
  destruct (0 <? NITE).
  - destruct (kbd_do_modifier st code) as [m st'].
    rewrite andb_false_r. reflexivity.
  - reflexivity.
Qed.

End Events.

(** C7. In event mode a key code taken from the ring with no package being
    assembled becomes an event with the scan code, up or down, and the
    time read from the clock, stored at [ev_put], which then advances, and
    the reader is woken; when the queue is full the event is dropped with a
    warning logged, the queue ([ev_put], [ev_get] and all entries, the
    whole softc) is as before, and the handler goes on: nothing sleeps and
    nothing is reported to the producer. *)
Theorem kbdsoft_enqueues_or_drops {R : KbdReg} (st : kbd_state) (code : Z) :
  idle st -> KBD_IS_KEY code = true -> sc_event_mode (softc st) <> 0 ->
  let ev := sc_events (softc st) in
  let st' := kbdsoft_code st code in
  let ev' := sc_events (softc st') in
  let event :=
    {| fe_id := KBD_SCANCODE code;
       fe_value := if KBD_RELEASED code then VKEY_UP else VKEY_DOWN;
       fe_time := clock st (clock_reads st) |} in
  (~ ev_full ev ->
     ev_q ev' = <[Z.to_nat (ev_put ev) := event]> (ev_q ev)
     /\ (0 <= ev_put ev < Z.of_nat (length (ev_q ev)) ->
         ev_q ev' !! Z.to_nat (ev_put ev) = Some event)
     /\ (forall i, i <> Z.to_nat (ev_put ev) -> ev_q ev' !! i = ev_q ev !! i)
     /\ ev_put ev' = Z.rem (ev_put ev + 1) EV_QSIZE
     /\ ev_get ev' = ev_get ev
     /\ clock_reads st' = S (clock_reads st)
     /\ trace st' = trace st ++ [EV_WAKEUP])
  /\ (ev_full ev ->
        softc st' = softc st
        /\ clock_reads st' = clock_reads st
        /\ trace st' =
           trace st ++ [log_warning "keyboard event queue overflow"]).
Proof.
  intros Hidle Hkey Hem. cbv zeta.
  rewrite kbdsoft_code_event by assumption.
  assert (E : exists m,
            (if 0 <? NITE then snd (kbd_do_modifier st code) else st)
            = set_kbd_modifier m st).
  { destruct (0 <? NITE); [apply kbd_do_modifier_frame|].
    exists (kbd_modifier st). symmetry. apply set_kbd_modifier_id. }
  destruct E as [m ->]. rewrite kbdsoft_event_set_kbd_modifier.
  unfold ev_full, kbdsoft_event.
  destruct (Z.eqb_spec (Z.rem (ev_put (sc_events (softc st)) + 1) EV_QSIZE)
              (ev_get (sc_events (softc st)))) as [Efull|Efull].
  - split; [intros H; contradiction|]. intros _. simpl. auto.
  - split; [|intros H; contradiction]. intros _. simpl.
    repeat apply conj; try reflexivity.
    + intros Hput. apply list_lookup_insert_eq. lia.
    + intros i Hi. apply list_lookup_insert_ne. auto.
Qed.

Lemma kbdsoft_enqueues_or_drops_witness :
  let st := atari_event_mode 5 6 in
  let st' := kbdsoft_code (R := atari_kbdreg) st 0x1e in
  softc st' = softc st
  /\ clock_reads st' = clock_reads st
  /\ trace st' = trace st ++ [log_warning "keyboard event queue overflow"].
Proof.
  destruct (kbdsoft_enqueues_or_drops (R := atari_kbdreg)
              (atari_event_mode 5 6) 0x1e) as [_ H].
  - reflexivity.
  - reflexivity.
  - discriminate.
  - apply H. reflexivity.
Defined.

(** ** The bell parameters *)

Section Bell.

(** A value cut into its low byte and the [w] bits above, and put together
    again. *)
Lemma low_high_join f w :
  0 <= w ->
  Z.lor (uint8_t (Z.land f 0xff))
    (Z.shiftl (uint8_t (Z.land (Z.shiftr f 8) (Z.ones w))) 8)
  = Z.land f (Z.ones (8 + Z.min w 8)).
Proof.
  intros Hw. apply Z.bits_inj'. intros n Hn.
  change 0xff with (Z.ones 8).
  rewrite Z.lor_spec, Z.land_spec, uint8_t_bits, Z.land_spec by lia.
  rewrite !Z.testbit_ones_nonneg by lia.
  destruct (Z.ltb_spec n 8) as [Hlt|Hge].
  - rewrite Z.shiftl_spec, (Z.testbit_neg_r _ (n - 8)) by lia.
    destruct (Z.ltb_spec n (8 + Z.min w 8)); [|lia].
    rewrite orb_false_r, !andb_true_r. reflexivity.
  - rewrite Z.shiftl_spec, uint8_t_bits, Z.land_spec, Z.shiftr_spec by lia.
    rewrite Z.testbit_ones_nonneg by lia.
    replace (n - 8 + 8) with n by lia.
    rewrite !andb_false_r. simpl.
    destruct (Z.ltb_spec (n - 8) w), (Z.ltb_spec (n - 8) 8),
      (Z.ltb_spec n (8 + Z.min w 8)); try lia;
      rewrite ?andb_true_r, ?andb_false_r; reflexivity.
Qed.

Lemma low_high_nibble f :
  Z.lor (uint8_t (Z.land f 0xff))
    (Z.shiftl (uint8_t (Z.land (Z.shiftr f 8) 0xf)) 8)
  = f mod 4096.
Proof.
  change 0xf with (Z.ones 4). rewrite low_high_join by lia.
  change (8 + Z.min 4 8) with 12. rewrite Z.land_ones by lia. reflexivity.
Qed.

Lemma low_high_byte t :
  Z.lor (uint8_t (Z.land t 0xff))
    (Z.shiftl (uint8_t (Z.land (Z.shiftr t 8) 0xff)) 8)
  = t mod 65536.
Proof.
  change 0xff with (Z.ones 8) at 2. rewrite low_high_join by lia.
  change (8 + Z.min 8 8) with 16. rewrite Z.land_ones by lia. reflexivity.
Qed.

(** The pitch after the two tests of [kbd_bell_sparms]. *)
Lemma clamped_pitch pitch :
  (if 20000 <? (if 10 <? pitch then pitch else 10) then 20000
   else if 10 <? pitch then pitch else 10)
  = Z.max 10 (Z.min pitch 20000).
Proof.
  destruct (Z.ltb_spec 10 pitch);
    [destruct (Z.ltb_spec 20000 pitch)|destruct (Z.ltb_spec 20000 10)]; lia.
Qed.

(** What [kbd_bell_gparms] reads back after [kbd_bell_sparms]: the
    divisor modulo 2^12 and the ticks modulo 2^16. *)
Lemma kbd_bell_gparms_sparms st volume pitch duration :
  length (sound st) = 14%nat ->
  let f := KBDBELLCLOCK / Z.max 10 (Z.min pitch 20000) in
  let t := u_int (duration * 1000) / KBDBELLDURATION in
  kbd_bell_gparms (kbd_bell_sparms volume pitch duration st) =
  if f mod 4096 =? 0 then None
  else Some (0, KBDBELLCLOCK / (f mod 4096),
             u_int (t mod 65536 * KBDBELLDURATION) / 1000).
Proof.
  intros Hlen f t.
  unfold kbd_bell_gparms, kbd_bell_sparms.
  rewrite clamped_pitch. fold f. fold t.
  destruct (sound st) as [|s0 [|s1 [|s2 [|s3 [|s4 [|s5 [|s6 [|s7 [|s8 [|s9
    [|s10 [|s11 [|s12 [|s13 [|]]]]]]]]]]]]]]]; try discriminate Hlen.
  cbn [sound set_sound insert list_insert lookup_total list_lookup_total].
  rewrite low_high_nibble, low_high_byte. reflexivity.
Qed.

End Bell.

(** The divisor of a pitch between 10 and 20000. *)
Lemma bell_divisor p :
  10 <= p <= 20000 ->
  let f := KBDBELLCLOCK / p in
  6 <= f <= 12500 /\ f mod 4096 <> 0 /\ (31 <= p -> f mod 4096 = f)
  /\ exists r, KBDBELLCLOCK = f * p + r /\ 0 <= r < p.
Proof.
  intros Hp f. unfold KBDBELLCLOCK in *.
  assert (Hr : exists r, 125000 = f * p + r /\ 0 <= r < p).
  { exists (125000 mod p). split.
    - unfold f. rewrite Z.mul_comm. apply Z.div_mod. lia.
    - apply Z.mod_pos_bound. lia. }
  destruct Hr as (r & Er & Hr).
  assert (Hf : 6 <= f <= 12500) by nia.
  split; [exact Hf|]. split; [|split; [|exists r; auto]].
  - intros E.
    assert (Hc : f = 4096 \/ f = 8192 \/ f = 12288)
      by (Z.div_mod_to_equations; lia).
    destruct Hc as [Hc|[Hc|Hc]]; rewrite Hc in Er; lia.
  - intros H31. apply Z.mod_small. nia.
Qed.

(** C8 (amended). For the bell parameters, for all [volume], [pitch] and
    [duration]: what [kbd_bell_gparms] reads back after [kbd_bell_sparms]
    has volume 0; its duration is [duration] after the two conversions
    ([t = duration * 1000 / 128], back as [t * 128 / 1000]), within 1 of
    [duration], whenever [t] fits the 16 bits of the table; its pitch is
    the pitch [p] clamped to [10, 20000] after the two divisions
    ([125000 / (125000 / p)]) whenever [p >= 31]: a pitch with the same
    divisor as [p], not below [p], and [p] itself up to 353. *)
Theorem bell_parameters_round_trip (st : kbd_state)
    (volume pitch duration : Z) :
  length (sound st) = 14%nat -> 0 <= duration ->
  let p := Z.max 10 (Z.min pitch 20000) in
  let t := duration * 1000 / KBDBELLDURATION in
  exists pitch' duration',
    kbd_bell_gparms (kbd_bell_sparms volume pitch duration st)
    = Some (0, pitch', duration')
    /\ (t < 65536 ->
        duration' = t * KBDBELLDURATION / 1000
        /\ duration - 1 <= duration' <= duration)
    /\ (31 <= p ->
        pitch' = KBDBELLCLOCK / (KBDBELLCLOCK / p)
        /\ p <= pitch'
        /\ KBDBELLCLOCK / pitch' = KBDBELLCLOCK / p)
    /\ (31 <= p <= 353 -> pitch' = p).
Proof.
  intros Hlen Hd p t.
  rewrite kbd_bell_gparms_sparms by exact Hlen. fold p.
  assert (Hp : 10 <= p <= 20000) by (unfold p; lia).
  destruct (bell_divisor p Hp) as (Hf & Hnz & Hsmall & r & Er & Hr).
  set (f := KBDBELLCLOCK / p) in *.
  destruct (Z.eqb_spec (f mod 4096) 0) as [E|_]; [contradiction|].
  eexists _, _. split; [reflexivity|]. split; [|split].
  - intros Ht. unfold t, KBDBELLDURATION in *.
    assert (Hd' : duration * 1000 < 2 ^ 23)
      by (Z.div_mod_to_equations; lia).
    rewrite (u_int_small (duration * 1000)) by lia.
    rewrite (Z.mod_small _ 65536) by (Z.div_mod_to_equations; lia).
    rewrite u_int_small by (Z.div_mod_to_equations; lia).
    split; [reflexivity|]. Z.div_mod_to_equations. lia.
  - intros H31. rewrite (Hsmall H31).
    assert (Hle : p <= KBDBELLCLOCK / f)
      by (apply Z.div_le_lower_bound; lia).
    split; [reflexivity|]. split; [exact Hle|].
    apply Z.le_antisymm.
    + fold f. apply Z.div_le_compat_l; lia.
    + apply Z.div_le_lower_bound; [lia|].
      rewrite Z.mul_comm. apply Z.mul_div_le. lia.
  - intros [H31 H353]. rewrite (Hsmall H31).
    symmetry. apply (Z.div_unique _ _ _ r); [|lia].
    left. unfold KBDBELLCLOCK in *. nia.
Qed.

Lemma bell_parameters_round_trip_witness :
  kbd_bell_gparms (kbd_bell_sparms 50 300 200 atari_initial)
  = Some (0, 300, 199).
Proof.
  destruct (bell_parameters_round_trip atari_initial 50 300 200)
    as (pitch' & duration' & E & Hd & _ & Hp).
  - reflexivity.
  - lia.
  - rewrite E. destruct Hd as [-> _]; [vm_compute; reflexivity|].
    rewrite Hp by (vm_compute; split; discriminate).
    reflexivity.
Defined.

(** C8, counterexample to the statement of the specification: the pitch
    20000 comes back as 20833, the pitch 10 as 589, and the duration 10000
    as 1611, where the two conversions alone would give 10000. *)
Lemma bell_parameters_not_reconstructed :
  kbd_bell_gparms (kbd_bell_sparms 0 20000 100 atari_initial)
  = Some (0, 20833, 99)
  /\ kbd_bell_gparms (kbd_bell_sparms 0 10 100 atari_initial)
     = Some (0, 589, 99)
  /\ kbd_bell_gparms (kbd_bell_sparms 0 440 10000 atari_initial)
     = Some (0, 440, 1611)
  /\ 10000 * 1000 / 128 * 128 / 1000 = 10000.
Proof. vm_compute. repeat split. Qed.

(** ** Writing a command *)

(** C9. With no write pending ([sc_sendp] is [NULL]) and the transmit
    register ready, [kbd_write] of a command of length 1 enables the
    transmit interrupt, sends the byte at once and returns, after waking
    the waiters, without reaching a [tsleep]; [sc_sendp] stays [NULL] and
    [sc_send_cnt] keeps its value, 0 if it was 0. *)
Theorem kbd_write_one_byte_does_not_sleep {R : KbdReg} (st : kbd_state)
    (b : Z) :
  sc_sendp (softc st) = None -> tx_ready (KBD st) = true ->
  let cs := uint8_t (Z.lor (sc_soft_cs (softc st)) A_TXINT) in
  exists st',
    kbd_write [b] 1 st = kbd_write_returns st'
    /\ sc_sendp (softc st') = None
    /\ sc_send_cnt (softc st') = sc_send_cnt (softc st)
    /\ (sc_send_cnt (softc st) = 0 -> sc_send_cnt (softc st') = 0)
    /\ softc st' = set_sc_soft_cs cs (softc st)
    /\ trace st' =
       trace st ++
       [KBD_ac_cs_write cs; KBD_ac_da_write b; wakeup chan_sc_sendp].
Proof.
  intros Hsend Hready cs. unfold kbd_write. rewrite Hsend.
  change (tx_ready (KBD (emit ?e (on_softc ?f st)))) with (tx_ready (KBD st)).
  rewrite Hready. change (int (1 - 1)) with 0. simpl.
  eexists. split; [reflexivity|]. simpl.
  rewrite <- !app_assoc. repeat split; auto.
Qed.

Lemma kbd_write_one_byte_does_not_sleep_witness :
  exists st',
    kbd_write (R := atari_kbdreg) [0x80] 1 atari_initial
    = kbd_write_returns st'
    /\ sc_sendp (softc st') = None
    /\ sc_send_cnt (softc st') = 0
    /\ trace st' =
       [KBD_ac_cs_write 0x20; KBD_ac_da_write 0x80; wakeup chan_sc_sendp].
Proof.
  destruct (kbd_write_one_byte_does_not_sleep (R := atari_kbdreg)
              atari_initial 0x80) as (st' & E & H1 & H2 & _ & _ & H3).
  - reflexivity.
  - reflexivity.
  - exists st'. repeat split; assumption.
Defined.

(** ** Control requests *)

(** C10. The requests [FIOSETOWN] and [TIOCSPGRP] only check the caller
    against the process that has opened the device: the result is 0 when
    the value is the process id or minus the value is the process group id
    ([FIOSETOWN]), or when the value is the process group id
    ([TIOCSPGRP]), and [EPERM] otherwise; the value is stored nowhere and
    the state of the driver (the softc with the event queue, the modifier
    state and everything else) is as it was, whatever the outcome. *)
Theorem kbdioctl_owner_requests_change_nothing {R : KbdReg}
    (st : kbd_state) (data : Z) (p : proc) :
  ev_io (sc_events (softc st)) = Some p ->
  kbdioctl (FIOSETOWN data) st =
  Some {| ioctl_error :=
            if (int (- data) =? p_pgid p) || (data =? p_pid p)
            then None else Some EPERM;
          ioctl_state := st; ioctl_data := None |}
  /\ kbdioctl (TIOCSPGRP data) st =
     Some {| ioctl_error := if data =? p_pgid p then None else Some EPERM;
             ioctl_state := st; ioctl_data := None |}
  /\ forall cmd r,
       cmd = FIOSETOWN data \/ cmd = TIOCSPGRP data ->
       kbdioctl cmd st = Some r ->
       ioctl_state r = st /\ ioctl_data r = None.
Proof.
  intros Hio. unfold kbdioctl. rewrite Hio.
  split; [|split].
  - destruct (int (- data) =? p_pgid p), (data =? p_pid p); reflexivity.
  - destruct (data =? p_pgid p); reflexivity.
  - intros cmd r [-> | ->] E; simpl in E.
    + destruct (negb _ && negb _); injection E as <-; auto.
    + destruct (negb _); injection E as <-; auto.
Qed.

Lemma kbdioctl_owner_requests_change_nothing_witness :
  kbdioctl (R := atari_kbdreg) (FIOSETOWN 7) (atari_event_mode 0 0)
  = Some {| ioctl_error := Some EPERM;
            ioctl_state := atari_event_mode 0 0; ioctl_data := None |}.
Proof.
  destruct (kbdioctl_owner_requests_change_nothing (R := atari_kbdreg)
              (atari_event_mode 0 0) 7 {| p_pid := 100; p_pgid := 100 |})
    as [H _].
  - reflexivity.
  - exact H.
Defined.

(** * More properties of the driver *)

(** ** The ring buffer, whatever its state *)

Section DrainReturns.
Context {St : Type} (body : St -> Z -> St).

(** The outer loop leaves only with [kbd_rbget] equal to [kbd_rbput], and
    it stores nothing but [kbd_rbget]. *)
Lemma kbdsoft_for_returns : forall fuel rb get s rb' s',
  0 <= kbd_rbput rb < 2 ^ 32 -> kbd_rbget rb = u_int get ->
  kbdsoft_for body fuel rb get s = Some (rb', s') ->
  kbd_ring rb' = kbd_ring rb /\ kbd_rbput rb' = kbd_rbput rb
  /\ kbd_rbget rb' = kbd_rbput rb.
Proof.
  induction fuel as [|fuel IH]; intros rb get s rb' s' Hput Hget E;
    [discriminate E|].
  rewrite kbdsoft_for_S in E.
  destruct (Z.eqb_spec get (int (kbd_rbput rb))) as [Eg|_].
  - injection E as <- <-. repeat split.
    rewrite Hget, Eg, u_int_int. apply u_int_small, Hput.
  - destruct (kbdsoft_overflow get (int (int (kbd_rbput rb) - get)))
      as [get1 n1].
    destruct (kbdsoft_while body fuel (kbd_ring rb) n1 get1 s)
      as [[get2 s2]|]; [|discriminate E].
    apply IH in E; [exact E|exact Hput|reflexivity].
Qed.

Lemma kbdsoft_loop_returns fuel rb s rb' s' :
  ringbuf_wf rb -> kbdsoft_loop body fuel rb s = Some (rb', s') ->
  kbd_ring rb' = kbd_ring rb /\ kbd_rbput rb' = kbd_rbput rb
  /\ kbd_rbget rb' = kbd_rbput rb.
Proof.
  intros [_ Hput Hget] E. unfold kbdsoft_loop in E.
  apply kbdsoft_for_returns in E; [exact E|exact Hput|].
  rewrite u_int_int. symmetry. apply u_int_small, Hget.
Qed.

End DrainReturns.

(** X1. Whatever the state of the ring and however many bytes are waiting,
    a pass of [kbdsoft] that comes back has stored nothing in [kbd_ring]
    and [kbd_rbput], which are the producer's, and has left [kbd_rbget]
    equal to [kbd_rbput]; a second pass right after it changes nothing. *)
Theorem kbdsoft_returns_with_ring_read {R : KbdReg} (fuel : nat)
    (rb rb' : ringbuf) (st st' : kbd_state) :
  ringbuf_wf rb -> kbdsoft fuel rb st = Some (rb', st') ->
  kbd_ring rb' = kbd_ring rb /\ kbd_rbput rb' = kbd_rbput rb
  /\ kbd_rbget rb' = kbd_rbput rb
  /\ forall fuel', kbdsoft (S fuel') rb' st' = Some (rb', st').
Proof.
  intros Hwf E. unfold kbdsoft in *.
  destruct (kbdsoft_loop_returns _ _ _ _ _ _ Hwf E) as (E1 & E2 & E3).
  repeat split; try assumption.
  intros fuel'. apply kbdsoft_loop_empty. congruence.
Qed.

Lemma kbdsoft_returns_with_ring_read_witness :
  kbd_rbget (set_kbd_rbget 1 (put_all [0x1e] ring_initial))
  = kbd_rbput (put_all [0x1e] ring_initial).
Proof.
  destruct (kbdsoft_returns_with_ring_read (R := atari_kbdreg) 3
              (put_all [0x1e] ring_initial)
              (set_kbd_rbget 1 (put_all [0x1e] ring_initial))
              atari_initial
              (kbdsoft_code (R := atari_kbdreg) atari_initial 0x1e))
    as (_ & _ & H & _).
  - split; [reflexivity | vm_compute; split; [discriminate|reflexivity]..].
  - reflexivity.
  - exact H.
Defined.

(** X2. Two rounds of pushes and passes are one: after at most 256 pushes
    and a pass, and again at most 256 pushes and a pass, the state of the
    driver is the one the loop body gives on all the bytes in the order
    they were pushed, so that what the first pass has begun (a package) the
    second goes on with. *)
Theorem kbdsoft_passes_compose {R : KbdReg} (rb : ringbuf) (st : kbd_state)
    (l1 l2 : list Z) (fuel : nat) :
  ringbuf_wf rb -> kbd_rbget rb = kbd_rbput rb ->
  (length l1 <= 256)%nat -> (length l2 <= 256)%nat -> (258 <= fuel)%nat ->
  exists rb1 st1 rb2,
    kbdsoft fuel (put_all l1 rb) st = Some (rb1, st1)
    /\ kbdsoft fuel (put_all l2 rb1) st1
       = Some (rb2, fold_left kbdsoft_code (l1 ++ l2) st)
    /\ kbd_rbget rb2 = kbd_rbput rb2
    /\ kbd_rbput rb2
       = u_int (kbd_rbput rb + Z.of_nat (length l1) + Z.of_nat (length l2)).
Proof.
  intros Hwf E H1 H2 Hfuel. unfold kbdsoft.
  eexists _, _, _. split; [apply kbdsoft_loop_pushed; assumption|].
  set (rb1 := set_kbd_rbget (kbd_rbput (put_all l1 rb)) (put_all l1 rb)).
  assert (Hwf1 : ringbuf_wf rb1).
  { pose proof (put_all_wf l1 rb Hwf) as [W1 W2 W3].
    split; [exact W1|exact W2|exact W2]. }
  assert (E1 : kbd_rbget rb1 = kbd_rbput rb1) by reflexivity.
  split; [|split].
  - rewrite kbdsoft_loop_pushed by assumption.
    rewrite fold_left_app. reflexivity.
  - reflexivity.
  - simpl kbd_rbput. rewrite put_all_rbput_wf by apply Hwf1.
    unfold rb1. simpl kbd_rbput. rewrite put_all_rbput_wf by apply Hwf.
    unfold u_int. Z.div_mod_to_equations. lia.
Qed.

Lemma kbdsoft_passes_compose_witness :
  exists rb1 st1 rb2,
    kbdsoft (R := atari_kbdreg) 258 (put_all [0xfa; 0x05] ring_initial)
      atari_initial = Some (rb1, st1)
    /\ kbdsoft (R := atari_kbdreg) 258 (put_all [0x07] rb1) st1
       = Some (rb2, fold_left (kbdsoft_code (R := atari_kbdreg))
                      ([0xfa; 0x05] ++ [0x07]) atari_initial).
Proof.
  destruct (kbdsoft_passes_compose (R := atari_kbdreg) ring_initial
              atari_initial [0xfa; 0x05] [0x07] 258)
    as (rb1 & st1 & rb2 & H1 & H2 & _).
  - exact ring_initial_wf.
  - reflexivity.
  - simpl. lia.
  - simpl. lia.
  - lia.
  - exists rb1, st1, rb2. split; assumption.
Defined.

(** ** The interrupt handler *)

Lemma trace_emit e st : trace (emit e st) = trace st ++ [e].
Proof. reflexivity. Qed.

Lemma trace_on_softc f st : trace (on_softc f st) = trace st.
Proof. reflexivity. Qed.

Section Interrupt.
Context {R : KbdReg}.

(** The transmit part touches the softc and the trace only, and schedules
    no soft interrupt. *)
Lemma kbdintr_tx_trace st :
  exists tx,
    trace (kbdintr_tx st) = trace st ++ tx
    /\ Forall (fun e => e <> softint_schedule) tx
    /\ KBD (kbdintr_tx st) = KBD st
    /\ kbd_modifier (kbdintr_tx st) = kbd_modifier st.
Proof.
  unfold kbdintr_tx.
  destruct (negb _ && tx_ready (KBD st));
    [|exists []; rewrite app_nil_r; repeat split; constructor].
  destruct (sc_sendp (softc st)) as [p|];
    destruct (int (sc_send_cnt (softc st) - 1) <=? 0);
    rewrite ?trace_emit, ?trace_on_softc, ?trace_emit, ?trace_on_softc,
      ?trace_emit, ?trace_on_softc, <- ?app_assoc;
    (eexists; split; [reflexivity || (symmetry; apply app_nil_r)|]);
    repeat split; repeat constructor; discriminate.
Qed.

End Interrupt.

(** X3. [kbdintr] reads all the bytes waiting in the ACIA: those read
    without error go into the ring in the order read, those with an overrun
    or parity error are dropped, and [kbd_rbget] is not touched; the soft
    interrupt is scheduled, once, exactly when at least one byte was read,
    be it in error. *)
Theorem kbdintr_receives {R : KbdReg} (rb : ringbuf) (st : kbd_state) :
  let rx := rx_pending (KBD st) in
  let good := map snd (List.filter (fun e => negb (fst e)) rx) in
  let rb' := fst (kbdintr rb st) in
  let st' := snd (kbdintr rb st) in
  rb' = put_all good rb
  /\ kbd_rbget rb' = kbd_rbget rb
  /\ rx_pending (KBD st') = []
  /\ exists tx,
       trace st' =
       trace st ++ tx ++
       (match rx with [] => [] | _ => [softint_schedule; rnd_add_uint32] end)
       /\ Forall (fun e => e <> softint_schedule) tx.
Proof.
  cbv zeta. split; [apply kbdintr_pushes|].
  split; [rewrite kbdintr_pushes; apply put_all_rbget|].
  unfold kbdintr.
  pose proof (kbdintr_tx_trace
                (set_KBD {| rx_pending := []; tx_ready := tx_ready (KBD st) |} st))
    as (tx & Et & Htx & Ek & _).
  assert (Eg : snd (kbdintr_rx (rx_pending (KBD st)) rb false)
               = match rx_pending (KBD st) with [] => false | _ => true end).
  { assert (Hgot : forall rx r, snd (kbdintr_rx rx r true) = true).
    { clear. induction rx as [|[e c] rx IH]; intros r; [reflexivity|].
      simpl. destruct e; apply IH. }
    destruct (rx_pending (KBD st)) as [|[e c] rx]; [reflexivity|].
    simpl. destruct e; apply Hgot. }
  destruct (kbdintr_rx (rx_pending (KBD st)) rb false) as [rb1 got].
  simpl in Eg. subst got.
  destruct (rx_pending (KBD st)) as [|e rx]; simpl.
  - rewrite Ek. split; [reflexivity|]. exists tx.
    rewrite app_nil_r. split; assumption.
  - rewrite Ek. split; [reflexivity|]. exists tx.
    rewrite Et, <- !app_assoc. split; [reflexivity|assumption].
Qed.

(** ** Packages of any type *)

Section Packages.
Context {R : KbdReg}.

(** The key stroke paths change nothing of the softc but the queue of
    events. *)
Lemma kbdsoft_key_softc st code :
  exists ev, softc (kbdsoft_key st code) = set_sc_events ev (softc st).
Proof.
  assert (Eid : softc st = set_sc_events (sc_events (softc st)) (softc st))
    by (destruct (softc st); reflexivity).
  assert (Hev : forall s, softc s = softc st ->
            exists ev, softc (kbdsoft_event s code) = set_sc_events ev (softc st)).
  { intros s Es. unfold kbdsoft_event.
    destruct (Z.rem _ _ =? _); simpl; rewrite Es; eexists;
      [exact Eid|reflexivity]. }
  unfold kbdsoft_key.
  match goal with
  | |- context [match ?x with Some _ => _ | None => _ end] => destruct x
  end; [eexists; exact Eid|].
  pose proof (kbd_do_modifier_softc st code) as Hm.
  destruct (0 <? NITE).
  - destruct (kbd_do_modifier st code) as [m st']. simpl in Hm.
    destruct (negb (m =? 0) && _); [eexists; rewrite Hm; exact Eid|].
    destruct (sc_event_mode (softc st) =? 0);
      [eexists; simpl; rewrite Hm; exact Eid|].
    apply Hev, Hm.
  - destruct (negb (0 =? 0) && _); [eexists; exact Eid|].
    destruct (sc_event_mode (softc st) =? 0); [eexists; exact Eid|].
    apply Hev. reflexivity.
Qed.


(** A byte that is not the last of its package. *)
Lemma kbdsoft_package_more st b :
  0 <= sc_pkg_idx (softc st) ->
  sc_pkg_idx (softc st) + 1 < sc_pkg_size (softc st) ->
  sc_pkg_size (softc st) <= 255 ->
  kbdsoft_package st b =
  on_softc (fun sc =>
    set_sc_pkg_idx (sc_pkg_idx sc + 1)
      (set_sc_package (<[Z.to_nat (sc_pkg_idx sc) := b]> (sc_package sc)) sc))
    st.
Proof.
  intros H0 Hlt Hle. unfold kbdsoft_package, on_softc. simpl.
  rewrite !uint8_t_small by lia.
  destruct (Z.eqb_spec (sc_pkg_idx (softc st) + 1) (sc_pkg_size (softc st)));
    [lia|reflexivity].
Qed.

(** The last byte of a package. *)
Lemma kbdsoft_package_last st b :
  0 <= sc_pkg_idx (softc st) ->
  sc_pkg_idx (softc st) + 1 = sc_pkg_size (softc st) ->
  sc_pkg_size (softc st) <= 255 ->
  let pkg := <[Z.to_nat (sc_pkg_idx (softc st)) := b]> (sc_package (softc st)) in
  let st1 :=
    on_softc (fun sc =>
      set_sc_pkg_idx (sc_pkg_idx sc + 1) (set_sc_package pkg sc)) st in
  kbdsoft_package st b =
  on_softc (set_sc_pkg_size 0)
    (if (0 <? NMOUSE) && mouse_package (sc_pkg_type (softc st))
     then emit (mouse_soft pkg (sc_pkg_size (softc st))
                  (sc_pkg_type (softc st))) st1
     else st1).
Proof.
  intros H0 Hlt Hle. cbv zeta. unfold kbdsoft_package, on_softc. simpl.
  rewrite !uint8_t_small by lia.
  destruct (Z.eqb_spec (sc_pkg_idx (softc st) + 1) (sc_pkg_size (softc st)));
    [reflexivity|lia].
Qed.


(** One byte keeps the package fields within their bounds. *)
Lemma kbdsoft_code_pkg_inv st b : pkg_inv st -> pkg_inv (kbdsoft_code st b).
Proof.
  intros [Hlen Hinv]. unfold kbdsoft_code.
  destruct (Z.eqb_spec (sc_pkg_size (softc st)) 0) as [E0|N0];
    cbn [negb andb].
  - (* no package under way *)
    destruct (KBD_IS_KEY b); cbn [negb].
    + unfold pkg_inv. destruct (kbdsoft_key_softc st b) as [ev ->].
      split; [exact Hlen|left; exact E0].
    + unfold kbd_pkg_start, pkg_inv.
      repeat match goal with
             | |- context [if ?c then _ else _] => destruct c
             end; simpl; rewrite length_insert;
        (split; [exact Hlen|]); try (right; lia); left; exact E0.
  - destruct Hinv as [|[Hi Hn]]; [contradiction|].
    destruct (Z.ltb_spec (sc_pkg_idx (softc st)) (sc_pkg_size (softc st)));
      [|lia].
    destruct (Z.eq_dec (sc_pkg_idx (softc st) + 1) (sc_pkg_size (softc st))).
    + rewrite kbdsoft_package_last by lia.
      destruct (_ && _); (split; [simpl; rewrite length_insert; exact Hlen|]);
        left; reflexivity.
    + rewrite kbdsoft_package_more by lia.
      split; [simpl; rewrite length_insert; exact Hlen|].
      right. simpl. lia.
Qed.

End Packages.



(** X5. Whatever bytes come, [kbdsoft] keeps the package fields within
    their bounds: the buffer keeps its 20 bytes, and either no package is
    under way or the index is at least 1 and below the size, which is at
    most 8; so a byte of a package is always stored below the end of
    [sc_package]. *)
Theorem kbdsoft_keeps_package_in_bounds {R : KbdReg} (st : kbd_state)
    (l : list Z) :
  pkg_inv st -> pkg_inv (fold_left kbdsoft_code l st).
Proof.
  revert st. induction l as [|b l IH]; intros st H; [exact H|].
  simpl. apply IH, kbdsoft_code_pkg_inv, H.
Qed.

Lemma kbdsoft_keeps_package_in_bounds_witness :
  pkg_inv (fold_left (kbdsoft_code (R := atari_kbdreg))
             [0xf6; 0xff; 0xf7; 0x1e; 0xfd; 0xf7; 0x2a] atari_initial).
Proof.
  apply (kbdsoft_keeps_package_in_bounds (R := atari_kbdreg)).
  split; [reflexivity|left; reflexivity].
Defined.

(** ** The queue of events as a queue *)

Lemma mod_inj_near Q a b :
  0 < Q -> a mod Q = b mod Q -> 0 <= b - a < Q -> a = b.
Proof.
  intros HQ E Hd.
  pose proof (Z.div_mod a Q ltac:(lia)) as Ha.
  pose proof (Z.div_mod b Q ltac:(lia)) as Hb.
  rewrite E in Ha.
  assert (Hk : b - a = Q * (b / Q - a / Q)) by lia.
  assert (b / Q - a / Q = 0) by nia. lia.
Qed.

Lemma mod_succ Q a :
  0 <= a < Q -> (a + 1) mod Q = if a + 1 <? Q then a + 1 else 0.
Proof.
  intros H. destruct (Z.ltb_spec (a + 1) Q).
  - apply Z.mod_small. lia.
  - replace (a + 1) with Q by lia. apply Z_mod_same_full.
Qed.

Lemma mod_diff Q a b :
  0 <= a < Q -> 0 <= b < Q ->
  (a - b) mod Q = if b <=? a then a - b else a - b + Q.
Proof.
  intros Ha Hb. destruct (Z.leb_spec b a).
  - apply Z.mod_small. lia.
  - rewrite <- (Z_mod_plus_full (a - b) 1 Q), Z.mul_1_l.
    apply Z.mod_small. lia.
Qed.

Section EventQueue.
Context {R : KbdReg}.

Lemma ev_slice_snoc q k : forall g,
  ev_slice q g (S k)
  = ev_slice q g k ++ [q !!! Z.to_nat ((g + Z.of_nat k) mod EV_QSIZE)].
Proof.
  induction k as [|k IH]; intros g.
  - simpl. rewrite Z.add_0_r. reflexivity.
  - change (ev_slice q g (S (S k)))
      with (q !!! Z.to_nat (g mod EV_QSIZE) :: ev_slice q (g + 1) (S k)).
    rewrite IH. replace (g + 1 + Z.of_nat k) with (g + Z.of_nat (S k)) by lia.
    reflexivity.
Qed.

(** A store outside the slots of the slice does not change the slice. *)
Lemma ev_slice_insert q j e k : forall g,
  (forall i, 0 <= i < Z.of_nat k ->
             Z.to_nat ((g + i) mod EV_QSIZE) <> j) ->
  ev_slice (<[j := e]> q) g k = ev_slice q g k.
Proof.
  induction k as [|k IH]; intros g H; [reflexivity|].
  simpl. f_equal.
  - apply list_lookup_total_insert_ne.
    specialize (H 0). rewrite Z.add_0_r in H. intros E. apply H; [lia|].
    symmetry. exact E.
  - apply IH. intros i Hi.
    replace (g + 1 + i) with (g + (i + 1)) by lia. apply H. lia.
Qed.

(** The queue is full exactly when it holds [EV_QSIZE - 1] events. *)
Lemma ev_full_count ev :
  evvar_wf ev -> (ev_full ev <-> ev_count ev = EV_QSIZE - 1).
Proof.
  intros (HQ & _ & Hp & Hg). unfold ev_full, ev_count.
  rewrite Z.rem_mod_nonneg, mod_succ, mod_diff by lia.
  destruct (Z.ltb_spec (ev_put ev + 1) EV_QSIZE),
    (Z.leb_spec (ev_get ev) (ev_put ev)); lia.
Qed.

Lemma ev_count_range ev : evvar_wf ev -> 0 <= ev_count ev <= EV_QSIZE - 1.
Proof.
  intros (HQ & _ & Hp & Hg). unfold ev_count.
  pose proof (Z.mod_pos_bound (ev_put ev - ev_get ev) EV_QSIZE). lia.
Qed.

(** [kbdsoft_event] on a queue that is not full: the event is appended. *)
Lemma kbdsoft_event_appends st code :
  let ev := sc_events (softc st) in
  let st' := kbdsoft_event st code in
  let ev' := sc_events (softc st') in
  evvar_wf ev -> ev_count ev < EV_QSIZE - 1 ->
  evvar_wf ev' /\ ev_get ev' = ev_get ev
  /\ ev_count ev' = ev_count ev + 1
  /\ ev_pending ev' =
     ev_pending ev ++
     [{| fe_id := KBD_SCANCODE code;
         fe_value := if KBD_RELEASED code then VKEY_UP else VKEY_DOWN;
         fe_time := clock st (clock_reads st) |}]
  /\ clock_reads st' = S (clock_reads st)
  /\ trace st' = trace st ++ [EV_WAKEUP].
Proof.
  intros ev st' ev' Hwf Hc.
  pose proof (ev_full_count ev Hwf) as Hfull.
  pose proof (ev_count_range ev Hwf) as Hr.
  destruct Hwf as (HQ & Hlen & Hp & Hg).
  subst ev' st'. unfold kbdsoft_event. fold ev.
  destruct (Z.eqb_spec (Z.rem (ev_put ev + 1) EV_QSIZE) (ev_get ev)) as [E|_].
  { apply Hfull in E. lia. }
  unfold evvar_wf, ev_pending, ev_count.
  cbn [softc sc_events emit on_softc set_softc set_clock_reads set_sc_events
       set_ev_put set_ev_q ev_put ev_get ev_q trace clock_reads clock].
  fold ev. fold (ev_count ev).
  rewrite Z.rem_mod_nonneg by lia.
  assert (Ecount : ((ev_put ev + 1) mod EV_QSIZE - ev_get ev) mod EV_QSIZE
                   = ev_count ev + 1).
  { pose proof (Z.mod_pos_bound (ev_put ev + 1) EV_QSIZE HQ) as Hp'.
    unfold ev_count in *.
    rewrite (mod_diff EV_QSIZE ((ev_put ev + 1) mod EV_QSIZE)) by lia.
    rewrite (mod_diff EV_QSIZE (ev_put ev)) in * by lia.
    rewrite mod_succ in * by lia.
    destruct (Z.ltb_spec (ev_put ev + 1) EV_QSIZE),
      (Z.leb_spec (ev_get ev) (ev_put ev)),
      (Z.leb_spec (ev_get ev) (ev_put ev + 1)),
      (Z.leb_spec (ev_get ev) 0); lia. }
  rewrite Ecount, length_insert.
  split; [repeat split; try lia; apply Z.mod_pos_bound; lia|].
  split; [reflexivity|]. split; [reflexivity|].
  split; [|split; reflexivity].
  replace (Z.to_nat (ev_count ev + 1)) with (S (Z.to_nat (ev_count ev)))
    by lia.
  rewrite ev_slice_snoc. rewrite Z2Nat.id by lia.
  assert (Eput : (ev_get ev + ev_count ev) mod EV_QSIZE = ev_put ev).
  { unfold ev_count. rewrite Zplus_mod_idemp_r.
    replace (ev_get ev + (ev_put ev - ev_get ev)) with (ev_put ev) by lia.
    apply Z.mod_small. lia. }
  rewrite Eput. f_equal.
  - apply ev_slice_insert. intros i Hi E.
    assert (Em : (ev_get ev + i) mod EV_QSIZE = ev_put ev).
    { pose proof (Z.mod_pos_bound (ev_get ev + i) EV_QSIZE). lia. }
    rewrite <- Eput in Em. apply mod_inj_near in Em; lia.
  - f_equal. apply list_lookup_total_insert_eq. lia.
Qed.

(** [kbdsoft_event] on a full queue: the event is dropped. *)
Lemma kbdsoft_event_drops st code :
  let ev := sc_events (softc st) in
  let st' := kbdsoft_event st code in
  evvar_wf ev -> ev_count ev = EV_QSIZE - 1 ->
  softc st' = softc st /\ clock_reads st' = clock_reads st
  /\ trace st' = trace st ++ [log_warning "keyboard event queue overflow"].
Proof.
  intros ev st' Hwf Hc. apply (ev_full_count ev Hwf) in Hc.
  unfold st', kbdsoft_event. fold ev. unfold ev_full in Hc.
  rewrite Hc, Z.eqb_refl. repeat split.
Qed.

(** Neither changes the clock, the mode or the package fields. *)
Lemma kbdsoft_event_frame st code :
  clock (kbdsoft_event st code) = clock st
  /\ sc_event_mode (softc (kbdsoft_event st code)) = sc_event_mode (softc st)
  /\ sc_pkg_size (softc (kbdsoft_event st code)) = sc_pkg_size (softc st).
Proof.
  unfold kbdsoft_event. destruct (Z.rem _ _ =? _); repeat split.
Qed.

(** In event mode a key code is one [kbdsoft_event], up to the modifier
    state. *)
Lemma kbdsoft_code_event_mode st code :
  idle st -> KBD_IS_KEY code = true -> sc_event_mode (softc st) <> 0 ->
  exists m, kbdsoft_code st code = set_kbd_modifier m (kbdsoft_event st code).
Proof.
  intros Hidle Hkey Hem. rewrite kbdsoft_code_event by assumption.
  destruct (0 <? NITE).
  - destruct (kbd_do_modifier_frame st code) as [m ->].
    exists m. apply kbdsoft_event_set_kbd_modifier.
  - exists (kbd_modifier (kbdsoft_event st code)).
    symmetry. apply set_kbd_modifier_id.
Qed.

End EventQueue.

(** X6. In event mode the queue of events is a first-in first-out queue of
    at most [EV_QSIZE - 1] events: for key codes taken from the ring in a
    row, the events waiting for the reader (from [ev_get] up to [ev_put])
    afterwards are those that waited before, followed by the events of the
    first key codes, as many as there was room for, in their order and
    with one reading of the clock after the other; the key codes after
    them are dropped with a warning each, [ev_get] is not touched and no
    event that waited is lost or overwritten. *)
Theorem kbdsoft_event_queue_fifo {R : KbdReg} (l : list Z) :
  forall st : kbd_state,
  idle st -> sc_event_mode (softc st) <> 0 ->
  evvar_wf (sc_events (softc st)) ->
  Forall (fun c => KBD_IS_KEY c = true) l ->
  let ev := sc_events (softc st) in
  let st' := fold_left kbdsoft_code l st in
  let ev' := sc_events (softc st') in
  let room := Z.to_nat (EV_QSIZE - 1 - ev_count ev) in
  evvar_wf ev' /\ ev_get ev' = ev_get ev
  /\ ev_pending ev' =
     ev_pending ev ++ take room (key_events (clock st) (clock_reads st) l)
  /\ ev_count ev' = Z.min (EV_QSIZE - 1) (ev_count ev + Z.of_nat (length l))
  /\ trace st' =
     trace st ++ replicate (Nat.min room (length l)) EV_WAKEUP
     ++ replicate (length l - room)
          (log_warning "keyboard event queue overflow").
Proof.
  induction l as [|c l IH]; intros st Hidle Hem Hwf Hl; cbv zeta.
  - pose proof (ev_count_range _ Hwf). simpl.
    rewrite take_nil, !app_nil_r, Nat.min_0_r. simpl. rewrite app_nil_r.
    repeat split; try assumption; try apply Hwf. lia.
  - inversion Hl as [|? ? Hc Hl']; subst. simpl fold_left.
    destruct (kbdsoft_code_event_mode st c Hidle Hc Hem) as [m Em].
    pose proof (kbdsoft_event_frame st c) as (Fc & Fm & Fp).
    pose proof (ev_count_range _ Hwf) as Hr.
    set (st1 := kbdsoft_code st c) in *.
    assert (Hidle1 : idle st1) by (rewrite Em; unfold idle; simpl; congruence).
    assert (Hem1 : sc_event_mode (softc st1) <> 0)
      by (rewrite Em; simpl; congruence).
    assert (Hclk : clock st1 = clock st) by (rewrite Em; exact Fc).
    destruct (Z.eq_dec (ev_count (sc_events (softc st))) (EV_QSIZE - 1))
      as [Efull|Hroom].
    + destruct (kbdsoft_event_drops st c Hwf Efull) as (D1 & D2 & D3).
      assert (Esc : softc st1 = softc st) by (rewrite Em; exact D1).
      specialize (IH st1 Hidle1 Hem1). rewrite Esc in IH.
      destruct (IH Hwf Hl') as (I1 & I2 & I3 & I4 & I5).
      rewrite Efull in *.
      replace (Z.to_nat (EV_QSIZE - 1 - (EV_QSIZE - 1))) with 0%nat in * by lia.
      rewrite take_0 in *. simpl length.
      split; [exact I1|]. split; [exact I2|]. split; [exact I3|].
      split; [lia|].
      rewrite I5. replace (trace st1) with (trace st ++ [log_warning "keyboard event queue overflow"]) by (rewrite Em; symmetry; exact D3).
      simpl. rewrite Nat.sub_0_r, <- app_assoc. reflexivity.
    + destruct (kbdsoft_event_appends st c Hwf ltac:(lia))
        as (A1 & A2 & A3 & A4 & A5 & A6).
      assert (Esc : sc_events (softc st1)
                    = sc_events (softc (kbdsoft_event st c)))
        by (rewrite Em; reflexivity).
      specialize (IH st1 Hidle1 Hem1). rewrite Esc in IH.
      destruct (IH A1 Hl') as (I1 & I2 & I3 & I4 & I5).
      assert (Ereads : clock_reads st1 = S (clock_reads st))
        by (rewrite Em; exact A5).
      rewrite A3, Hclk, Ereads in *.
      replace (Z.to_nat (EV_QSIZE - 1 - ev_count (sc_events (softc st))))
        with (S (Z.to_nat (EV_QSIZE - 1 - (ev_count (sc_events (softc st)) + 1))))
        by lia.
      simpl length. simpl key_events.
      split; [exact I1|]. split; [congruence|].
      split; [rewrite I3, A4, <- app_assoc; reflexivity|].
      split; [lia|].
      rewrite I5.
      replace (trace st1) with (trace st ++ [EV_WAKEUP])
        by (rewrite Em; symmetry; exact A6).
      simpl. rewrite <- app_assoc. reflexivity.
Qed.

Lemma kbdsoft_event_queue_fifo_witness :
  let st := atari_event_mode 254 1 in
  let st' := fold_left (kbdsoft_code (R := atari_kbdreg))
               [0x1e; 0x9e; 0x30; 0xb0] st in
  ev_count (R := atari_kbdreg) (sc_events (softc st')) = 255
  /\ trace st' =
     [EV_WAKEUP; EV_WAKEUP;
      log_warning "keyboard event queue overflow";
      log_warning "keyboard event queue overflow"].
Proof.
  destruct (kbdsoft_event_queue_fifo (R := atari_kbdreg)
              [0x1e; 0x9e; 0x30; 0xb0] (atari_event_mode 254 1))
    as (_ & _ & _ & H1 & H2).
  - reflexivity.
  - discriminate.
  - repeat split; try reflexivity; discriminate.
  - repeat constructor.
  - split; [exact H1|exact H2].
Defined.

(** ** A command on its way out *)

Lemma txint_on cs T :
  0 < T < 256 -> Z.land (uint8_t (Z.lor cs T)) T = T.
Proof.
  intros HT. bitwise.
  destruct (Z.ltb_spec n 8).
  - destruct (Z.testbit cs n), (Z.testbit T n); reflexivity.
  - rewrite (byte_testbit_high T n) by lia. apply andb_false_r.
Qed.

Lemma txint_off x T : Z.land (uint8_t (Z.land x (Z.lnot T))) T = 0.
Proof.
  bitwise. rewrite Z.bits_0.
  destruct (Z.testbit x n), (Z.testbit T n), (n <? 8); reflexivity.
Qed.

Section Transmit.
Context {R : KbdReg}.

(** An interrupt with nothing received and the transmit register empty is
    the transmit part alone. *)
Lemma kbdintr_tx_only rb st :
  KBD st = {| rx_pending := []; tx_ready := true |} ->
  kbdintr rb st = (rb, kbdintr_tx st).
Proof.
  intros HK. unfold kbdintr. rewrite HK. simpl.
  replace (set_KBD {| rx_pending := []; tx_ready := true |} st) with st
    by (destruct st; simpl in HK; subst; reflexivity).
  reflexivity.
Qed.

(** The bytes of a command still to send go out one per interrupt, in
    their order; the last one turns the transmit interrupt off and wakes
    the writer. *)
Lemma kbdintr_times_sends p : forall rb st,
  p <> [] ->
  sc_sendp (softc st) = Some p ->
  sc_send_cnt (softc st) = Z.of_nat (length p) ->
  Z.of_nat (length p) < 2 ^ 31 ->
  Z.land (sc_soft_cs (softc st)) A_TXINT <> 0 ->
  KBD st = {| rx_pending := []; tx_ready := true |} ->
  let cs := uint8_t (Z.land (sc_soft_cs (softc st)) (Z.lnot A_TXINT)) in
  let st' := snd (kbdintr_times (length p) rb st) in
  fst (kbdintr_times (length p) rb st) = rb
  /\ sc_sendp (softc st') = None
  /\ sc_send_cnt (softc st') = 0
  /\ sc_soft_cs (softc st') = cs
  /\ trace st' =
     trace st ++ map KBD_ac_da_write p
     ++ [KBD_ac_cs_write cs; wakeup chan_sc_send_cnt].
Proof.
  induction p as [|b p IH]; intros rb st Hne Hp Hcnt Hlen Hon HK;
    [contradiction|].
  cbv zeta. simpl kbdintr_times. rewrite kbdintr_tx_only by exact HK.
  assert (Etx : tx_ready (KBD st) = true) by (rewrite HK; reflexivity).
  unfold kbdintr_tx.
  destruct (Z.eqb_spec (Z.land (sc_soft_cs (softc st)) A_TXINT) 0);
    [contradiction|].
  rewrite Etx, Hp, Hcnt. cbn [negb andb hd tl].
  simpl length in *. rewrite int_small by lia.
  destruct (Z.leb_spec (Z.of_nat (S (length p)) - 1) 0) as [Hle|Hgt].
  - assert (p = []) as -> by (destruct p; [reflexivity|simpl in Hle; lia]).
    simpl. repeat split. rewrite <- !app_assoc. reflexivity.
  - destruct p as [|b' p]; [simpl in Hgt; lia|].
    set (st1 := on_softc _ (emit _ _)).
    destruct (IH rb st1) as (I1 & I2 & I3 & I4 & I5).
    + discriminate.
    + reflexivity.
    + unfold st1. simpl. lia.
    + lia.
    + exact Hon.
    + exact HK.
    + split; [exact I1|]. split; [exact I2|]. split; [exact I3|].
      split; [exact I4|].
      rewrite I5. unfold st1. simpl. rewrite <- !app_assoc. reflexivity.
Qed.

End Transmit.

(** X7. [kbd_write] of a command of two or more bytes, or of any command
    when the transmit register is not empty, goes to sleep in "kbd_write2"
    with the rest of the command pending; then one byte goes out with each
    transmit interrupt, so that all the bytes of the command are written
    to the ACIA exactly once and in their order, and only the interrupt
    that sends the last byte turns the transmit interrupt off, clears the
    pending state and wakes the writer. *)
Theorem kbd_write_sends_whole_command {R : KbdReg} (st : kbd_state)
    (rb : ringbuf) (b : Z) (rest : list Z) (ready : bool) :
  0 < A_TXINT < 256 ->
  sc_sendp (softc st) = None ->
  KBD st = {| rx_pending := []; tx_ready := ready |} ->
  Z.of_nat (length (b :: rest)) < 2 ^ 31 ->
  ready = false \/ rest <> [] ->
  let cmd := b :: rest in
  let pending := if ready then rest else cmd in
  let cs1 := uint8_t (Z.lor (sc_soft_cs (softc st)) A_TXINT) in
  let cs2 := uint8_t (Z.land cs1 (Z.lnot A_TXINT)) in
  exists st1,
    kbd_write cmd (Z.of_nat (length cmd)) st
    = kbd_write_tsleep chan_sc_send_cnt "kbd_write2" st1
    /\ sc_sendp (softc st1) = Some pending
    /\ sc_send_cnt (softc st1) = Z.of_nat (length pending)
    /\ let st2 :=
         snd (kbdintr_times (length pending) rb
                (set_KBD {| rx_pending := []; tx_ready := true |} st1)) in
       sc_sendp (softc st2) = None
       /\ sc_send_cnt (softc st2) = 0
       /\ sc_soft_cs (softc st2) = cs2
       /\ Z.land cs2 A_TXINT = 0
       /\ trace st2 =
          trace st ++ [KBD_ac_cs_write cs1] ++ map KBD_ac_da_write cmd
          ++ [KBD_ac_cs_write cs2; wakeup chan_sc_send_cnt].
Proof.
  intros HT Hp HK Hlen Hcase cmd pending cs1 cs2.
  assert (Etx : tx_ready (KBD st) = ready) by (rewrite HK; reflexivity).
  unfold kbd_write. rewrite Hp.
  change (tx_ready (KBD (emit ?e (on_softc ?f st)))) with (tx_ready (KBD st)).
  rewrite Etx. fold cs1.
  set (st0 := emit (KBD_ac_cs_write cs1) (on_softc (set_sc_soft_cs cs1) st)).
  assert (Hgo : forall s p,
            p <> [] -> Z.of_nat (length p) < 2 ^ 31 ->
            sc_soft_cs (softc s) = cs1 ->
            let s1 := on_softc (set_sc_send (Some p) (Z.of_nat (length p))) s in
            let s2 :=
              snd (kbdintr_times (length p) rb
                     (set_KBD {| rx_pending := []; tx_ready := true |} s1)) in
            sc_sendp (softc s2) = None /\ sc_send_cnt (softc s2) = 0
            /\ sc_soft_cs (softc s2) = cs2 /\ Z.land cs2 A_TXINT = 0
            /\ trace s2 =
               trace s ++ map KBD_ac_da_write p
               ++ [KBD_ac_cs_write cs2; wakeup chan_sc_send_cnt]).
  { intros s p Hne Hl Hcs. cbv zeta.
    destruct (kbdintr_times_sends p rb
                (set_KBD {| rx_pending := []; tx_ready := true |}
                   (on_softc (set_sc_send (Some p) (Z.of_nat (length p))) s)))
      as (_ & I2 & I3 & I4 & I5); try assumption; try reflexivity.
    - change (Z.land (sc_soft_cs (softc s)) A_TXINT <> 0).
      rewrite Hcs. unfold cs1. rewrite txint_on by exact HT. lia.
    - change (sc_soft_cs (softc (set_KBD _ (on_softc _ s))))
        with (sc_soft_cs (softc s)) in I4, I5.
      rewrite Hcs in I4, I5.
      split; [exact I2|]. split; [exact I3|]. split; [exact I4|].
      split; [apply txint_off|exact I5]. }
  destruct ready.
  - destruct Hcase as [|Hrest]; [discriminate|].
    simpl length in *. cbn [hd tl].
    rewrite int_small by lia.
    replace (Z.of_nat (S (length rest)) - 1) with (Z.of_nat (length rest))
      by lia.
    destruct (Z.ltb_spec 0 (Z.of_nat (length rest)));
      [|destruct rest; [contradiction|simpl length in *; lia]].
    eexists. split; [reflexivity|]. split; [reflexivity|].
    split; [reflexivity|].
    destruct (Hgo (emit (KBD_ac_da_write b) st0) rest Hrest ltac:(lia)
                eq_refl) as (G1 & G2 & G3 & G4 & G5).
    split; [exact G1|]. split; [exact G2|]. split; [exact G3|].
    split; [exact G4|]. etransitivity; [exact G5|].
    unfold st0. rewrite !trace_emit, trace_on_softc, <- !app_assoc.
    reflexivity.
  - destruct (Z.ltb_spec 0 (Z.of_nat (length cmd)));
      [|unfold cmd in *; simpl length in *; lia].
    eexists. split; [reflexivity|]. split; [reflexivity|].
    split; [reflexivity|].
    destruct (Hgo st0 cmd ltac:(discriminate) Hlen eq_refl)
      as (G1 & G2 & G3 & G4 & G5).
    split; [exact G1|]. split; [exact G2|]. split; [exact G3|].
    split; [exact G4|]. etransitivity; [exact G5|].
    unfold st0. rewrite !trace_emit, trace_on_softc, <- !app_assoc.
    reflexivity.
Qed.

Lemma kbd_write_sends_whole_command_witness :
  exists st1,
    kbd_write (R := atari_kbdreg) [0x80; 0x01] 2 atari_initial
    = kbd_write_tsleep chan_sc_send_cnt "kbd_write2" st1
    /\ trace (snd (kbdintr_times (R := atari_kbdreg) 1 ring_initial
                     (set_KBD {| rx_pending := []; tx_ready := true |} st1)))
       = [KBD_ac_cs_write 0x20; KBD_ac_da_write 0x80; KBD_ac_da_write 0x01;
          KBD_ac_cs_write 0; wakeup chan_sc_send_cnt].
Proof.
  destruct (kbd_write_sends_whole_command (R := atari_kbdreg) atari_initial
              ring_initial 0x80 [0x01] true)
    as (st1 & E & _ & _ & _ & _ & _ & _ & Ht).
  - simpl. lia.
  - reflexivity.
  - reflexivity.
  - simpl. lia.
  - right. discriminate.
  - exists st1. split; [exact E|exact Ht].
Defined.

(** X8. After [kbd_write] of a single byte that went out at once, the
    transmit interrupt is still enabled with nothing pending; the next
    interrupt with the transmit register empty sends nothing, turns the
    transmit interrupt off and issues a wakeup, and the interrupts after
    that leave the driver alone. *)
Theorem kbdintr_after_one_byte_write {R : KbdReg} (st : kbd_state)
    (rb : ringbuf) (b : Z) :
  0 < A_TXINT < 256 ->
  sc_sendp (softc st) = None -> sc_send_cnt (softc st) = 0 ->
  KBD st = {| rx_pending := []; tx_ready := true |} ->
  let cs1 := uint8_t (Z.lor (sc_soft_cs (softc st)) A_TXINT) in
  let cs2 := uint8_t (Z.land cs1 (Z.lnot A_TXINT)) in
  exists st1 st2,
    kbd_write [b] 1 st = kbd_write_returns st1
    /\ Z.land (sc_soft_cs (softc st1)) A_TXINT <> 0
    /\ kbdintr rb st1 = (rb, st2)
    /\ trace st2 =
       trace st ++
       [KBD_ac_cs_write cs1; KBD_ac_da_write b; wakeup chan_sc_sendp;
        KBD_ac_cs_write cs2; wakeup chan_sc_send_cnt]
    /\ sc_sendp (softc st2) = None /\ sc_send_cnt (softc st2) = 0
    /\ sc_soft_cs (softc st2) = cs2 /\ Z.land cs2 A_TXINT = 0
    /\ kbdintr rb st2 = (rb, st2).
Proof.
  intros HT Hp Hcnt HK cs1 cs2.
  assert (Etx : tx_ready (KBD st) = true) by (rewrite HK; reflexivity).
  unfold kbd_write. rewrite Hp.
  change (tx_ready (KBD (emit ?e (on_softc ?f st)))) with (tx_ready (KBD st)).
  rewrite Etx. fold cs1. change (int (1 - 1)) with 0. cbn [Z.ltb Z.compare hd].
  eexists _, _. split; [reflexivity|].
  assert (Eon : Z.land cs1 A_TXINT = A_TXINT) by (apply txint_on; exact HT).
  split; [simpl; lia|].
  rewrite kbdintr_tx_only by exact HK.
  unfold kbdintr_tx at 1.
  cbn [softc sc_soft_cs sc_sendp sc_send_cnt emit on_softc set_softc
       set_sc_soft_cs KBD tx_ready].
  rewrite Eon, Etx, Hp, Hcnt.
  destruct (Z.eqb_spec A_TXINT 0); [lia|]. cbn [negb andb].
  change (int (0 - 1) <=? 0) with true. cbv iota. fold cs2.
  split; [reflexivity|].
  split; [simpl; rewrite <- !app_assoc; reflexivity|].
  split; [reflexivity|]. split; [reflexivity|]. split; [reflexivity|].
  assert (Eoff : Z.land cs2 A_TXINT = 0) by apply txint_off.
  split; [exact Eoff|].
  rewrite kbdintr_tx_only by exact HK.
  unfold kbdintr_tx.
  cbn [softc sc_soft_cs emit on_softc set_softc set_sc_soft_cs set_sc_send].
  rewrite Eoff. reflexivity.
Qed.

Lemma kbdintr_after_one_byte_write_witness :
  exists st1 st2,
    kbd_write (R := atari_kbdreg) [0x80] 1 atari_initial
    = kbd_write_returns st1
    /\ kbdintr (R := atari_kbdreg) ring_initial st1 = (ring_initial, st2)
    /\ sc_soft_cs (softc st2) = 0
    /\ kbdintr (R := atari_kbdreg) ring_initial st2 = (ring_initial, st2).
Proof.
  destruct (kbdintr_after_one_byte_write (R := atari_kbdreg) atari_initial
              ring_initial 0x80)
    as (st1 & st2 & E1 & _ & E2 & _ & _ & _ & E3 & _ & E4).
  - simpl. lia.
  - reflexivity.
  - reflexivity.
  - reflexivity.
  - exists st1, st2. repeat split; assumption.
Defined.

(** ** Writing a command in polled mode *)

(** The wait ends only at a reading that shows the register empty. *)
Lemma kbd_write_poll_wait_ends txrdy : forall fuel reads r,
  kbd_write_poll_wait fuel txrdy reads = Some r ->
  exists n, r = S n /\ (reads <= n)%nat /\ txrdy n = true.
Proof.
  induction fuel as [|fuel IH]; intros reads r E; [discriminate E|].
  simpl in E. destruct (txrdy reads) eqn:Er.
  - injection E as <-. exists reads. auto.
  - apply IH in E. destruct E as (n & -> & Hn & Et).
    exists n. repeat split; [lia|exact Et].
Qed.

Lemma kbd_write_poll_wait_ready txrdy fuel reads :
  txrdy reads = true ->
  kbd_write_poll_wait (S fuel) txrdy reads = Some (S reads).
Proof. intros E. simpl. rewrite E. reflexivity. Qed.

Lemma kbd_write_poll_wait_never txrdy : forall fuel reads,
  (forall n, txrdy n = false) -> kbd_write_poll_wait fuel txrdy reads = None.
Proof.
  induction fuel as [|fuel IH]; intros reads H; [reflexivity|].
  simpl. rewrite H. apply IH, H.
Qed.

Lemma kbd_write_poll_S fuel txrdy reads cmd len st :
  kbd_write_poll (S fuel) txrdy reads cmd len st =
  if 0 <? len then
    match kbd_write_poll_wait fuel txrdy reads with
    | None => None
    | Some reads =>
        if txrdy reads
        then kbd_write_poll fuel txrdy (S reads) (tl cmd) (int (len - 1))
               (emit (KBD_ac_da_write (hd 0 cmd)) st)
        else Some (0, S reads, emit (KBD_ac_da_write (hd 0 cmd)) st)
    end
  else Some (1, reads, st).
Proof. reflexivity. Qed.

(** X9. Whenever [kbd_write_poll] returns, the bytes it has written to the
    ACIA are the first bytes of the command, in their order. It returns 1
    only after writing the whole command, and it returns 0 only when, after
    a byte, a reading of the status showed the transmit register empty and
    the very next reading showed it busy again: the count [timeout] plays
    no part. *)
Theorem kbd_write_poll_result (txrdy : nat -> bool) :
  forall (fuel reads : nat) (cmd : list Z) (st : kbd_state)
         (v : Z) (reads' : nat) (st' : kbd_state),
  Z.of_nat (length cmd) < 2 ^ 31 ->
  kbd_write_poll fuel txrdy reads cmd (Z.of_nat (length cmd)) st
  = Some (v, reads', st') ->
  (v = 1 /\ trace st' = trace st ++ map KBD_ac_da_write cmd)
  \/ (v = 0
      /\ exists k n,
           (1 <= k <= length cmd)%nat
           /\ trace st' = trace st ++ map KBD_ac_da_write (take k cmd)
           /\ (reads <= n)%nat /\ txrdy n = true /\ txrdy (S n) = false).
Proof.
  induction fuel as [|fuel IH]; intros reads cmd st v reads' st' Hlen E;
    [discriminate E|].
  rewrite kbd_write_poll_S in E.
  destruct cmd as [|b cmd].
  - simpl in E. injection E as <- <- <-. left.
    split; [reflexivity|]. simpl. symmetry. apply app_nil_r.
  - simpl length in *.
    destruct (Z.ltb_spec 0 (Z.of_nat (S (length cmd)))); [|lia].
    destruct (kbd_write_poll_wait fuel txrdy reads) as [r|] eqn:Ew;
      [|discriminate E].
    apply kbd_write_poll_wait_ends in Ew. destruct Ew as (n & -> & Hn & Et).
    cbn [hd tl] in E. rewrite int_small in E by lia.
    replace (Z.of_nat (S (length cmd)) - 1) with (Z.of_nat (length cmd)) in E
      by lia.
    destruct (txrdy (S n)) eqn:Et'.
    + apply IH in E; [|lia].
      destruct E as [[-> Etr] | (-> & k & n' & Hk & Etr & Hn' & E1 & E2)].
      * left. split; [reflexivity|].
        rewrite Etr, trace_emit, <- app_assoc. reflexivity.
      * right. split; [reflexivity|]. exists (S k), n'.
        split; [lia|]. split; [|split; [lia|split; assumption]].
        rewrite Etr, trace_emit, <- app_assoc. reflexivity.
    + injection E as <- <- <-. right. split; [reflexivity|].
      exists 1%nat, n. split; [lia|].
      split; [rewrite trace_emit; reflexivity|].
      split; [exact Hn|split; assumption].
Qed.

Lemma kbd_write_poll_result_witness :
  trace (emit (KBD_ac_da_write 0x01) (emit (KBD_ac_da_write 0x80) atari_initial))
  = trace atari_initial ++ map KBD_ac_da_write [0x80; 0x01].
Proof.
  destruct (kbd_write_poll_result (fun _ => true)
              3 0 [0x80; 0x01] atari_initial 1 4
              (emit (KBD_ac_da_write 0x01)
                 (emit (KBD_ac_da_write 0x80) atari_initial)))
    as [[_ H] | [H _]].
  - simpl. lia.
  - reflexivity.
  - exact H.
  - discriminate H.
Defined.

(** X10. With a device that shows the transmit register empty at every
    reading, [kbd_write_poll] returns 1 after writing every byte of the
    command in order, with two readings of the status for each byte; a
    command of length 0 returns 1 at once with nothing written. *)
Theorem kbd_write_poll_device_ready (txrdy : nat -> bool)
    (cmd : list Z) :
  forall (fuel reads : nat) (st : kbd_state),
  (forall n, txrdy n = true) ->
  Z.of_nat (length cmd) < 2 ^ 31 -> (length cmd < fuel)%nat ->
  exists st',
    kbd_write_poll fuel txrdy reads cmd (Z.of_nat (length cmd)) st
    = Some (1, (reads + 2 * length cmd)%nat, st')
    /\ trace st' = trace st ++ map KBD_ac_da_write cmd
    /\ softc st' = softc st.
Proof.
  induction cmd as [|b cmd IH]; intros fuel reads st Hrdy Hlen Hfuel;
    (destruct fuel as [|fuel]; [lia|]); rewrite kbd_write_poll_S.
  - simpl. exists st. rewrite Nat.add_0_r, app_nil_r. auto.
  - simpl length in *.
    destruct (Z.ltb_spec 0 (Z.of_nat (S (length cmd)))); [|lia].
    destruct fuel as [|fuel]; [lia|].
    rewrite kbd_write_poll_wait_ready, Hrdy by apply Hrdy.
    cbn [hd tl]. rewrite int_small by lia.
    replace (Z.of_nat (S (length cmd)) - 1) with (Z.of_nat (length cmd))
      by lia.
    destruct (IH (S fuel) (S (S reads)) (emit (KBD_ac_da_write b) st))
      as (st' & E & Etr & Esc); [exact Hrdy|lia|lia|].
    exists st'. rewrite E. split; [do 3 f_equal; lia|].
    split; [|exact Esc].
    rewrite Etr, trace_emit, <- app_assoc. reflexivity.
Qed.

Lemma kbd_write_poll_device_ready_witness :
  exists st',
    kbd_write_poll 3 (fun _ => true) 0 [0x12; 0x15] 2
      atari_initial = Some (1, 4%nat, st')
    /\ trace st' = [KBD_ac_da_write 0x12; KBD_ac_da_write 0x15].
Proof.
  destruct (kbd_write_poll_device_ready (fun _ => true)
              [0x12; 0x15] 3 0 atari_initial) as (st' & E & Et & _).
  - reflexivity.
  - simpl. lia.
  - simpl. lia.
  - exists st'. split; [exact E|exact Et].
Defined.

(** X11. With a device that never shows the transmit register empty,
    [kbd_write_poll] of a command that is not empty writes the first byte
    and then waits for ever: the wait counts [timeout] down but never
    tests it, and the function does not come back to report a failure. *)
Theorem kbd_write_poll_waits_for_ever (txrdy : nat -> bool)
    (cmd : list Z) (len : Z) (st : kbd_state) (reads fuel : nat) :
  (forall n, txrdy n = false) -> 0 < len ->
  kbd_write_poll fuel txrdy reads cmd len st = None.
Proof.
  intros Hnever Hlen. destruct fuel as [|fuel]; [reflexivity|].
  rewrite kbd_write_poll_S.
  destruct (Z.ltb_spec 0 len); [|lia].
  rewrite kbd_write_poll_wait_never by exact Hnever. reflexivity.
Qed.

Lemma kbd_write_poll_waits_for_ever_witness :
  kbd_write_poll 1000 (fun _ => false) 0 [0x80; 0x01] 2
    atari_initial = None.
Proof.
  apply kbd_write_poll_waits_for_ever.
  - reflexivity.
  - lia.
Defined.

(** ** Getting a character from the console *)

Lemma imrb_restored m I :
  0 <= m < 256 -> Z.land m I = I ->
  uint8_t (Z.lor (uint8_t (Z.land m (Z.lnot I))) I) = m.
Proof.
  intros Hm HI. bitwise.
  assert (E : Z.testbit (Z.land m I) n = Z.testbit I n) by (rewrite HI; reflexivity).
  rewrite Z.land_spec in E.
  destruct (Z.ltb_spec n 8).
  - destruct (Z.testbit m n), (Z.testbit I n); try reflexivity; discriminate E.
  - rewrite (byte_testbit_high m n) in * by lia. apply andb_false_r.
Qed.

Section Getcn.
Context {R : KbdReg} {X : KbdExt}.

Lemma track_modifiers_frame rx : forall st,
  exists m, track_modifiers rx st = set_kbd_modifier m st.
Proof.
  unfold track_modifiers.
  induction rx as [|[e c] rx IH]; intros st; simpl.
  - exists (kbd_modifier st). symmetry. apply set_kbd_modifier_id.
  - destruct e; simpl; [apply IH|].
    destruct (kbd_do_modifier_frame st c) as [m1 ->].
    destruct (IH (set_kbd_modifier m1 st)) as [m2 ->].
    exists m2. reflexivity.
Qed.

(** The loop passes over the bytes in error and over the modifier keys. *)
Lemma kbdgetcn_for_skips (Hok : KbdRegOk R) pre : forall rest st,
  0 < NITE ->
  Forall (fun e => fst e = true \/ modifier_key (snd e) = true) pre ->
  kbdgetcn_for (pre ++ rest) st = kbdgetcn_for rest (track_modifiers pre st).
Proof.
  induction pre as [|[e c] pre IH]; intros rest st HI Hpre; [reflexivity|].
  inversion Hpre as [|? ? Hc Hpre']; subst. simpl in Hc.
  simpl app. simpl kbdgetcn_for. unfold track_modifiers. simpl fold_left.
  destruct e; simpl fst; cbv iota.
  - apply IH; assumption.
  - destruct Hc as [Hc|Hc]; [discriminate Hc|].
    destruct (Z.ltb_spec 0 NITE); [|lia].
    pose proof (kbd_do_modifier_taken Hok st c Hc) as E.
    destruct (kbd_do_modifier st c) as [v st1]. simpl in E. subst v.
    simpl. apply IH; assumption.
Qed.

(** The same for a kernel with or without ite: without, the modifier
    processing is not compiled in and only the bytes in error are passed
    over. *)
Lemma kbdgetcn_for_passes (Hok : KbdRegOk R) pre : forall rest st,
  Forall (fun e => fst e = true
                   \/ ((0 <? NITE) = true /\ modifier_key (snd e) = true))
    pre ->
  kbdgetcn_for (pre ++ rest) st =
  kbdgetcn_for rest (if 0 <? NITE then track_modifiers pre st else st).
Proof.
  destruct (Z.ltb_spec 0 NITE) as [HI|HI].
  - intros rest st Hpre. apply (kbdgetcn_for_skips Hok); [exact HI|].
    eapply List.Forall_impl; [|exact Hpre]. intros e [He|[_ He]]; auto.
  - induction pre as [|[e c] pre IH]; intros rest st Hpre; [reflexivity|].
    inversion Hpre as [|? ? Hc Hpre']; subst. simpl in Hc.
    destruct Hc as [->|[Hc _]]; [|discriminate Hc].
    simpl. apply IH. exact Hpre'.
Qed.

End Getcn.

(** X12. [kbdgetcn] works through the bytes waiting in the ACIA and
    returns the first that came without error and that the modifier
    processing does not take: in a kernel with ite ([NITE > 0]) the first
    such byte that is not a modifier key (a package header counts as such
    a byte), in a kernel without ite, where [kbd_do_modifier] is not
    called, the first byte without error, modifier key or not. The bytes
    after it are left waiting; the bytes in error before it are dropped
    and, with ite, the modifier keys before it go through the modifier
    processing and nowhere else, so that nothing but [kbd_modifier]
    changes in the driver; the interrupt mask of the MFP is as it was
    found (a byte whose ACIA bit is either set or clear). If none of the
    bytes waiting is such a byte, [kbdgetcn] reads them all and does not
    return on them: it goes on waiting for a byte. [kbd_getc] gives the
    scan code of the byte returned with its press or release. *)
Theorem kbdgetcn_returns_first_key {R : KbdReg} {X : KbdExt}
    (m : mfp) (st : kbd_state) (pre : list (bool * Z)) :
  KbdRegOk R ->
  Forall (fun e => fst e = true
                   \/ ((0 <? NITE) = true /\ modifier_key (snd e) = true))
    pre ->
  0 <= mf_imrb m < 256 ->
  Z.land (mf_imrb m) IB_AINT = 0 \/ Z.land (mf_imrb m) IB_AINT = IB_AINT ->
  let tracked := if 0 <? NITE then track_modifiers pre st else st in
  (rx_pending (KBD st) = pre -> kbdgetcn m st = None)
  /\ forall (c : Z) (post : list (bool * Z)),
       rx_pending (KBD st) = pre ++ (false, c) :: post ->
       (0 <? NITE) && modifier_key c = false ->
       exists m' st',
         kbdgetcn m st = Some (c, m', st')
         /\ st' = set_KBD {| rx_pending := post; tx_ready := tx_ready (KBD st) |}
                    tracked
         /\ (exists mods, tracked = set_kbd_modifier mods st)
         /\ mf_imrb m' = mf_imrb m /\ mf_ierb m' = mf_ierb m
         /\ kbd_getc m st =
            Some (if KBD_RELEASED c then WSCONS_EVENT_KEY_UP
                  else WSCONS_EVENT_KEY_DOWN, KBD_SCANCODE c, m', st').
Proof.
  intros Hok Hpre Hm Hbit tracked. split.
  - intros Erx. unfold kbdgetcn. rewrite Erx.
    rewrite <- (app_nil_r pre), (kbdgetcn_for_passes Hok) by assumption.
    reflexivity.
  - intros c post Erx Hc.
    assert (Eg : kbdgetcn_for (rx_pending (KBD st)) st
                 = Some (c, post, tracked)).
    { rewrite Erx, (kbdgetcn_for_passes Hok) by assumption.
      fold tracked. simpl.
      destruct (0 <? NITE); [|reflexivity].
      simpl in Hc. rewrite (kbd_do_modifier_other _ c Hc). reflexivity. }
    assert (Hmods : exists mods, tracked = set_kbd_modifier mods st).
    { unfold tracked. destruct (0 <? NITE).
      - apply track_modifiers_frame.
      - exists (kbd_modifier st). symmetry. apply set_kbd_modifier_id. }
    destruct Hmods as [mods Emods].
    assert (Ek : tx_ready (KBD tracked) = tx_ready (KBD st))
      by (rewrite Emods; reflexivity).
    assert (E : exists m',
              kbdgetcn m st
              = Some (c, m',
                      set_KBD {| rx_pending := post;
                                 tx_ready := tx_ready (KBD st) |} tracked)
              /\ mf_imrb m' = mf_imrb m /\ mf_ierb m' = mf_ierb m).
    { unfold kbdgetcn. rewrite Eg, Ek.
      destruct (Z.eqb_spec (Z.land (mf_imrb m) IB_AINT) 0) as [E0|N0];
        cbn [negb].
      - eexists. split; [reflexivity|]. split; reflexivity.
      - eexists. split; [reflexivity|]. split; [|reflexivity].
        cbn [mf_imrb]. destruct Hbit as [|Hbit]; [contradiction|].
        apply imrb_restored; assumption. }
    destruct E as (m' & E & Em1 & Em2).
    exists m', (set_KBD {| rx_pending := post; tx_ready := tx_ready (KBD st) |}
                  tracked).
    split; [exact E|]. split; [reflexivity|].
    split; [exists mods; exact Emods|]. split; [exact Em1|].
    split; [exact Em2|].
    unfold kbd_getc. rewrite E. reflexivity.
Qed.

Lemma kbdgetcn_returns_first_key_witness :
  (exists m' st',
     kbdgetcn (R := atari_kbdreg) (X := atari_kbdext)
       {| mf_ierb := 0x40; mf_iprb := 0; mf_imrb := 0x40 |}
       (set_KBD {| rx_pending := [(true, 0x55); (false, 0x2a); (false, 0x1e);
                                  (false, 0x9e)];
                   tx_ready := true |} atari_initial)
     = Some (0x1e, m', st')
     /\ mf_imrb m' = 0x40)
  /\ (exists m' st',
        kbdgetcn (R := atari_kbdreg_no_ite) (X := atari_kbdext)
          {| mf_ierb := 0x40; mf_iprb := 0; mf_imrb := 0x40 |}
          (set_KBD {| rx_pending := [(true, 0x55); (false, 0x2a);
                                     (false, 0x1e); (false, 0x9e)];
                      tx_ready := true |} atari_initial)
        = Some (0x2a, m', st')
        /\ mf_imrb m' = 0x40).
Proof.
  split.
  - destruct (kbdgetcn_returns_first_key (R := atari_kbdreg)
                (X := atari_kbdext)
                {| mf_ierb := 0x40; mf_iprb := 0; mf_imrb := 0x40 |}
                (set_KBD {| rx_pending := [(true, 0x55); (false, 0x2a);
                                           (false, 0x1e); (false, 0x9e)];
                            tx_ready := true |} atari_initial)
                [(true, 0x55); (false, 0x2a)]) as [_ H].
    + exact atari_kbdreg_ok.
    + constructor; [left; reflexivity|].
      constructor; [right; split; reflexivity|]. constructor.
    + simpl. lia.
    + right. reflexivity.
    + destruct (H 0x1e [(false, 0x9e)]) as (m' & st' & E & _ & _ & Em & _).
      * reflexivity.
      * reflexivity.
      * exists m', st'. split; [exact E|exact Em].
  - destruct (kbdgetcn_returns_first_key (R := atari_kbdreg_no_ite)
                (X := atari_kbdext)
                {| mf_ierb := 0x40; mf_iprb := 0; mf_imrb := 0x40 |}
                (set_KBD {| rx_pending := [(true, 0x55); (false, 0x2a);
                                           (false, 0x1e); (false, 0x9e)];
                            tx_ready := true |} atari_initial)
                [(true, 0x55)]) as [_ H].
    + exact atari_kbdreg_no_ite_ok.
    + constructor; [left; reflexivity|]. constructor.
    + simpl. lia.
    + right. reflexivity.
    + destruct (H 0x2a [(false, 0x1e); (false, 0x9e)])
        as (m' & st' & E & _ & _ & Em & _).
      * reflexivity.
      * reflexivity.
      * exists m', st'. split; [exact E|exact Em].
Defined.

(** ** The modifier byte, bit by bit *)

Lemma mask_in_all L Rs C A K M :
  M = L \/ M = Rs \/ M = C \/ M = A \/ M = K ->
  Z.land M (Z.lnot (Z.lor L (Z.lor Rs (Z.lor C (Z.lor A K))))) = 0.
Proof.
  intros H. bitwise. rewrite Z.bits_0.
  destruct H as [->|[->|[->|[->| ->]]]];
    destruct (Z.testbit L n), (Z.testbit Rs n), (Z.testbit C n),
      (Z.testbit A n), (Z.testbit K n); reflexivity.
Qed.

Lemma land_lnot_outside m M N :
  Z.land M (Z.lnot N) = 0 ->
  Z.land (Z.land m (Z.lnot M)) (Z.lnot N) = Z.land m (Z.lnot N)
  /\ Z.land (Z.lor m M) (Z.lnot N) = Z.land m (Z.lnot N)
  /\ Z.land (Z.lxor m M) (Z.lnot N) = Z.land m (Z.lnot N).
Proof.
  intros H.
  assert (B : forall n, 0 <= n -> Z.testbit M n && negb (Z.testbit N n) = false).
  { intros n Hn. rewrite <- Z.lnot_spec, <- Z.land_spec, H by lia.
    apply Z.bits_0. }
  repeat split; bitwise; specialize (B n Hn);
    destruct (Z.testbit m n), (Z.testbit M n), (Z.testbit N n);
    try reflexivity; discriminate B.
Qed.

Lemma land_lnot_byte m M : 0 <= m < 256 -> 0 <= Z.land m (Z.lnot M) < 256.
Proof.
  intros Hm. rewrite <- uint8_t_land_lnot by exact Hm. apply uint8_t_range.
Qed.

Lemma land_lnot_idem m M :
  Z.land (Z.land m (Z.lnot M)) (Z.lnot M) = Z.land m (Z.lnot M).
Proof. bitwise. destruct (Z.testbit m n), (Z.testbit M n); reflexivity. Qed.

Lemma lor_idem m M : Z.lor (Z.lor m M) M = Z.lor m M.
Proof. bitwise. destruct (Z.testbit m n), (Z.testbit M n); reflexivity. Qed.

Lemma land_lor_set m M : Z.land (Z.lor m M) M = M.
Proof. bitwise. destruct (Z.testbit m n), (Z.testbit M n); reflexivity. Qed.

Lemma land_lnot_unset m M : Z.land (Z.land m (Z.lnot M)) M = 0.
Proof.
  bitwise. rewrite Z.bits_0.
  destruct (Z.testbit m n), (Z.testbit M n); reflexivity.
Qed.

Section ModifierBits.
Context {R : KbdReg} (Hok : KbdRegOk R).

(** Each of the four keys that are not the toggle has one mask, which it
    sets when pressed and clears when released. *)
Lemma kbd_do_modifier_mask code :
  modifier_key code = true -> KBD_SCANCODE code <> KBD_CAPS_LOCK ->
  exists M,
    0 < M < 256
    /\ Z.land M (Z.lnot KBD_MOD_ALL) = 0
    /\ forall st, 0 <= kbd_modifier st < 256 ->
        kbd_do_modifier st code =
        (1, set_kbd_modifier
              (if KBD_RELEASED code
               then Z.land (kbd_modifier st) (Z.lnot M)
               else Z.lor (kbd_modifier st) M) st).
Proof.
  pose proof (ok_lshift R Hok). pose proof (ok_rshift R Hok).
  pose proof (ok_ctrl R Hok). pose proof (ok_alt R Hok).
  unfold modifier_key, modifier_scancodes. simpl. intros Hc Hcaps.
  assert (G : forall M,
    0 < M < 256 ->
    forall st, 0 <= kbd_modifier st < 256 ->
    (if negb (uint8_t M =? 0)
     then if KBD_RELEASED code
          then (1, set_kbd_modifier
                     (uint8_t (Z.land (kbd_modifier st) (Z.lnot (uint8_t M))))
                     st)
          else (1, set_kbd_modifier
                     (uint8_t (Z.lor (kbd_modifier st) (uint8_t M))) st)
     else (0, st))
    = (1, set_kbd_modifier
            (if KBD_RELEASED code
             then Z.land (kbd_modifier st) (Z.lnot M)
             else Z.lor (kbd_modifier st) M) st)).
  { intros M HM st Hm. rewrite (uint8_t_small M) by lia.
    destruct (Z.eqb_spec M 0); [lia|]. simpl.
    destruct (KBD_RELEASED code).
    - rewrite uint8_t_land_lnot by exact Hm. reflexivity.
    - rewrite uint8_t_lor by lia. reflexivity. }
  destruct (Z.eqb_spec (KBD_SCANCODE code) KBD_LEFT_SHIFT) as [E1|N1].
  { exists KBD_MOD_LSHIFT. split; [assumption|]. split.
    - apply mask_in_all. auto.
    - intros st Hm. unfold kbd_do_modifier.
      rewrite E1, Z.eqb_refl. apply G; assumption. }
  destruct (Z.eqb_spec (KBD_SCANCODE code) KBD_RIGHT_SHIFT) as [E2|N2].
  { exists KBD_MOD_RSHIFT. split; [assumption|]. split.
    - apply mask_in_all. auto.
    - intros st Hm. unfold kbd_do_modifier.
      destruct (Z.eqb_spec (KBD_SCANCODE code) KBD_LEFT_SHIFT); [contradiction|].
      rewrite E2, Z.eqb_refl. apply G; assumption. }
  destruct (Z.eqb_spec (KBD_SCANCODE code) KBD_CTRL) as [E3|N3].
  { exists KBD_MOD_CTRL. split; [assumption|]. split.
    - apply mask_in_all. auto.
    - intros st Hm. unfold kbd_do_modifier.
      destruct (Z.eqb_spec (KBD_SCANCODE code) KBD_LEFT_SHIFT); [contradiction|].
      destruct (Z.eqb_spec (KBD_SCANCODE code) KBD_RIGHT_SHIFT); [contradiction|].
      rewrite E3, Z.eqb_refl. apply G; assumption. }
  destruct (Z.eqb_spec (KBD_SCANCODE code) KBD_ALT) as [E4|N4].
  { exists KBD_MOD_ALT. split; [assumption|]. split.
    - apply mask_in_all. auto.
    - intros st Hm. unfold kbd_do_modifier.
      destruct (Z.eqb_spec (KBD_SCANCODE code) KBD_LEFT_SHIFT); [contradiction|].
      destruct (Z.eqb_spec (KBD_SCANCODE code) KBD_RIGHT_SHIFT); [contradiction|].
      destruct (Z.eqb_spec (KBD_SCANCODE code) KBD_CTRL); [contradiction|].
      rewrite E4, Z.eqb_refl. apply G; assumption. }
  destruct (Z.eqb_spec (KBD_SCANCODE code) KBD_CAPS_LOCK); [contradiction|].
  discriminate Hc.
Qed.

(** The same, key by key: the mask that goes with each scan code. *)
Lemma kbd_do_modifier_key_mask code key M :
  In (key, M)
    [(KBD_LEFT_SHIFT, KBD_MOD_LSHIFT); (KBD_RIGHT_SHIFT, KBD_MOD_RSHIFT);
     (KBD_CTRL, KBD_MOD_CTRL); (KBD_ALT, KBD_MOD_ALT)] ->
  KBD_SCANCODE code = key ->
  0 < M < 256
  /\ forall st, 0 <= kbd_modifier st < 256 ->
      kbd_do_modifier st code =
      (1, set_kbd_modifier
            (if KBD_RELEASED code
             then Z.land (kbd_modifier st) (Z.lnot M)
             else Z.lor (kbd_modifier st) M) st).
Proof.
  pose proof (ok_lshift R Hok). pose proof (ok_rshift R Hok).
  pose proof (ok_ctrl R Hok). pose proof (ok_alt R Hok).
  destruct (scancodes_distinct Hok)
    as (D1 & D2 & D3 & _ & D5 & D6 & _ & D8 & _ & _).
  assert (G : forall M,
    0 < M < 256 ->
    forall st, 0 <= kbd_modifier st < 256 ->
    (if negb (uint8_t M =? 0)
     then if KBD_RELEASED code
          then (1, set_kbd_modifier
                     (uint8_t (Z.land (kbd_modifier st) (Z.lnot (uint8_t M))))
                     st)
          else (1, set_kbd_modifier
                     (uint8_t (Z.lor (kbd_modifier st) (uint8_t M))) st)
     else (0, st))
    = (1, set_kbd_modifier
            (if KBD_RELEASED code
             then Z.land (kbd_modifier st) (Z.lnot M)
             else Z.lor (kbd_modifier st) M) st)).
  { intros M0 HM st Hm. rewrite (uint8_t_small M0) by lia.
    destruct (Z.eqb_spec M0 0); [lia|]. simpl.
    destruct (KBD_RELEASED code).
    - rewrite uint8_t_land_lnot by exact Hm. reflexivity.
    - rewrite uint8_t_lor by lia. reflexivity. }
  intros Hin Hkey.
  destruct Hin as [E|[E|[E|[E|[]]]]]; injection E as <- <-;
    (split; [assumption|]); intros st Hm; unfold kbd_do_modifier;
    rewrite Hkey.
  - rewrite Z.eqb_refl. apply G; assumption.
  - destruct (Z.eqb_spec KBD_RIGHT_SHIFT KBD_LEFT_SHIFT); [congruence|].
    rewrite Z.eqb_refl. apply G; assumption.
  - destruct (Z.eqb_spec KBD_CTRL KBD_LEFT_SHIFT); [congruence|].
    destruct (Z.eqb_spec KBD_CTRL KBD_RIGHT_SHIFT); [congruence|].
    rewrite Z.eqb_refl. apply G; assumption.
  - destruct (Z.eqb_spec KBD_ALT KBD_LEFT_SHIFT); [congruence|].
    destruct (Z.eqb_spec KBD_ALT KBD_RIGHT_SHIFT); [congruence|].
    destruct (Z.eqb_spec KBD_ALT KBD_CTRL); [congruence|].
    rewrite Z.eqb_refl. apply G; assumption.
Qed.

End ModifierBits.

(** The modifier byte stays a byte, the bits outside the modifier bits
    stay, a key that is not the toggle leaves a state that the same code
    does not change, and a second press of the toggle undoes the first. *)
Lemma kbd_do_modifier_keeps_byte {R : KbdReg} (Hok : KbdRegOk R)
    (st : kbd_state) (code : Z) :
  0 <= kbd_modifier st < 256 ->
  let st' := snd (kbd_do_modifier st code) in
  0 <= kbd_modifier st' < 256
  /\ Z.land (kbd_modifier st') (Z.lnot KBD_MOD_ALL)
     = Z.land (kbd_modifier st) (Z.lnot KBD_MOD_ALL)
  /\ (modifier_key code = true -> KBD_SCANCODE code <> KBD_CAPS_LOCK ->
      exists M,
        0 < M < 256
        /\ Z.land (kbd_modifier st') M = (if KBD_RELEASED code then 0 else M)
        /\ kbd_do_modifier st' code = (1, st'))
  /\ (KBD_SCANCODE code = KBD_CAPS_LOCK -> KBD_RELEASED code = false ->
      kbd_do_modifier st' code = (1, st)).
Proof.
  intros Hm st'. pose proof (ok_caps R Hok) as HC.
  assert (Hcaps : Z.land KBD_MOD_CAPS (Z.lnot KBD_MOD_ALL) = 0).
  { apply mask_in_all. auto 6. }
  destruct (Z.eq_dec (KBD_SCANCODE code) KBD_CAPS_LOCK) as [Ec|Nc].
  - (* the toggle *)
    pose proof (kbd_do_modifier_caps_lock Hok st code Ec Hm) as E.
    assert (Est' : st' = if KBD_RELEASED code then st
                         else set_kbd_modifier
                                (Z.lxor (kbd_modifier st) KBD_MOD_CAPS) st).
    { unfold st'. rewrite E. reflexivity. }
    clearbody st'. subst st'.
    destruct (KBD_RELEASED code) eqn:Er.
    + split; [exact Hm|]. split; [reflexivity|].
      split; [intros _ N; contradiction|]. intros _ Ef. discriminate Ef.
    + cbn [kbd_modifier set_kbd_modifier].
      split; [apply lxor_byte; lia|].
      split; [apply (land_lnot_outside _ _ _ Hcaps)|].
      split; [intros _ N; contradiction|]. intros _ _.
      rewrite (kbd_do_modifier_caps_lock Hok) by
        (try exact Ec; cbn [kbd_modifier set_kbd_modifier];
         apply lxor_byte; lia).
      rewrite Er. cbn [kbd_modifier set_kbd_modifier].
      rewrite lxor_twice, set_kbd_modifier_twice, set_kbd_modifier_id.
      reflexivity.
  - destruct (modifier_key code) eqn:Ek.
    + (* one of the four other keys *)
      destruct (kbd_do_modifier_mask Hok code Ek Nc) as (M & HM & Hin & E).
      assert (Est' : st' = set_kbd_modifier
                (if KBD_RELEASED code
                 then Z.land (kbd_modifier st) (Z.lnot M)
                 else Z.lor (kbd_modifier st) M) st).
      { unfold st'. rewrite (E st Hm). reflexivity. }
      clearbody st'. subst st'. cbn [kbd_modifier set_kbd_modifier].
      assert (Hb : 0 <= (if KBD_RELEASED code
                         then Z.land (kbd_modifier st) (Z.lnot M)
                         else Z.lor (kbd_modifier st) M) < 256).
      { destruct (KBD_RELEASED code);
          [apply land_lnot_byte; exact Hm|apply lor_byte; lia]. }
      split; [exact Hb|].
      split.
      { destruct (KBD_RELEASED code);
          apply (land_lnot_outside _ _ _ Hin). }
      split; [|intros Ec; contradiction].
      intros _ _. exists M. split; [exact HM|]. split.
      * destruct (KBD_RELEASED code);
          [apply land_lnot_unset|apply land_lor_set].
      * rewrite E by exact Hb. cbn [kbd_modifier set_kbd_modifier].
        rewrite set_kbd_modifier_twice. f_equal. f_equal.
        destruct (KBD_RELEASED code); [apply land_lnot_idem|apply lor_idem].
    + (* any other code *)
      assert (Est' : st' = st).
      { unfold st'. rewrite (kbd_do_modifier_other st code Ek). reflexivity. }
      clearbody st'. subst st'.
      split; [exact Hm|]. split; [reflexivity|].
      split; [intros Ef; discriminate Ef|intros Ec; contradiction].
Qed.

(** X13. With [kbd_modifier] a byte before, [kbd_do_modifier] leaves it a
    byte and changes no bit outside the five modifier bits, whatever the
    code. Each of the four keys that are not the toggle works on its own
    mask (left shift on [KBD_MOD_LSHIFT], right shift on [KBD_MOD_RSHIFT],
    control on [KBD_MOD_CTRL], alt on [KBD_MOD_ALT]): a press sets the bits
    of that mask and a release clears them, whatever they were, and all
    the other bits stay, so that the same code a second time, as when the
    key repeats, changes nothing more. A second press of caps lock gives
    back the byte that was there before the first. *)
Theorem kbd_do_modifier_bits {R : KbdReg} (Hok : KbdRegOk R)
    (st : kbd_state) (code : Z) :
  0 <= kbd_modifier st < 256 ->
  let st' := snd (kbd_do_modifier st code) in
  0 <= kbd_modifier st' < 256
  /\ Z.land (kbd_modifier st') (Z.lnot KBD_MOD_ALL)
     = Z.land (kbd_modifier st) (Z.lnot KBD_MOD_ALL)
  /\ (forall key M,
        In (key, M)
          [(KBD_LEFT_SHIFT, KBD_MOD_LSHIFT); (KBD_RIGHT_SHIFT, KBD_MOD_RSHIFT);
           (KBD_CTRL, KBD_MOD_CTRL); (KBD_ALT, KBD_MOD_ALT)] ->
        KBD_SCANCODE code = key ->
        kbd_do_modifier st code = (1, st')
        /\ kbd_modifier st' =
           (if KBD_RELEASED code
            then Z.land (kbd_modifier st) (Z.lnot M)
            else Z.lor (kbd_modifier st) M)
        /\ Z.land (kbd_modifier st') M = (if KBD_RELEASED code then 0 else M)
        /\ Z.land (kbd_modifier st') (Z.lnot M)
           = Z.land (kbd_modifier st) (Z.lnot M)
        /\ kbd_do_modifier st' code = (1, st'))
  /\ (KBD_SCANCODE code = KBD_CAPS_LOCK -> KBD_RELEASED code = false ->
      kbd_do_modifier st' code = (1, st)).
Proof.
  intros Hm st'.
  destruct (kbd_do_modifier_keeps_byte Hok st code Hm) as (A & B & _ & D).
  split; [exact A|]. split; [exact B|]. split; [|exact D].
  intros key M Hin Hkey.
  destruct (kbd_do_modifier_key_mask Hok code key M Hin Hkey) as [HM E].
  assert (Est' : st' = set_kbd_modifier
            (if KBD_RELEASED code
             then Z.land (kbd_modifier st) (Z.lnot M)
             else Z.lor (kbd_modifier st) M) st).
  { unfold st'. rewrite (E st Hm). reflexivity. }
  clearbody st'. subst st'. cbn [kbd_modifier set_kbd_modifier].
  assert (Hb : 0 <= (if KBD_RELEASED code
                     then Z.land (kbd_modifier st) (Z.lnot M)
                     else Z.lor (kbd_modifier st) M) < 256).
  { destruct (KBD_RELEASED code);
      [apply land_lnot_byte; exact Hm|apply lor_byte; lia]. }
  split; [apply E; exact Hm|]. split; [reflexivity|]. split.
  { destruct (KBD_RELEASED code);
      [apply land_lnot_unset|apply land_lor_set]. }
  split.
  { destruct (KBD_RELEASED code);
      [apply land_lnot_idem|apply lor_then_land_lnot]. }
  rewrite E by exact Hb. cbn [kbd_modifier set_kbd_modifier].
  rewrite set_kbd_modifier_twice. f_equal. f_equal.
  destruct (KBD_RELEASED code); [apply land_lnot_idem|apply lor_idem].
Qed.

Lemma kbd_do_modifier_bits_witness :
  kbd_modifier
    (snd (kbd_do_modifier (R := atari_kbdreg)
            (set_kbd_modifier 0x10 atari_initial) 0x1d)) = 0x14
  /\ kbd_do_modifier (R := atari_kbdreg)
       (snd (kbd_do_modifier (R := atari_kbdreg)
               (set_kbd_modifier 0x10 atari_initial) 0x3a)) 0x3a
     = (1, set_kbd_modifier 0x10 atari_initial).
Proof.
  split.
  - destruct (kbd_do_modifier_bits (R := atari_kbdreg) atari_kbdreg_ok
                (set_kbd_modifier 0x10 atari_initial) 0x1d) as (_ & _ & H & _).
    + simpl. lia.
    + destruct (H 0x1d 0x04) as (_ & H1 & _).
      * right. right. left. reflexivity.
      * reflexivity.
      * exact H1.
  - destruct (kbd_do_modifier_bits (R := atari_kbdreg) atari_kbdreg_ok
                (set_kbd_modifier 0x10 atari_initial) 0x3a) as (_ & _ & _ & H).
    + simpl. lia.
    + apply H; reflexivity.
Defined.

(** ** Control requests, all of them *)

Lemma emit_all_frame es : forall st,
  softc (emit_all es st) = softc st
  /\ kbd_modifier (emit_all es st) = kbd_modifier st
  /\ sound (emit_all es st) = sound st
  /\ KBD (emit_all es st) = KBD st
  /\ clock (emit_all es st) = clock st
  /\ clock_reads (emit_all es st) = clock_reads st
  /\ trace (emit_all es st) = trace st ++ es.
Proof.
  unfold emit_all. induction es as [|e es IH]; intros st; simpl.
  - rewrite app_nil_r. repeat split.
  - destruct (IH (emit e st)) as (I1 & I2 & I3 & I4 & I5 & I6 & I7).
    rewrite I1, I2, I3, I4, I5, I6, I7. simpl. rewrite <- app_assoc.
    repeat split.
Qed.

(** [kbdbell] writes the table to the sound chip and does nothing else. *)
Lemma kbdbell_emits st : kbdbell st = emit_all (YM2149_writes (sound st)) st.
Proof.
  unfold kbdbell, YM2149_writes, emit_all.
  generalize (seq 0 (length (sound st))) as l.
  assert (G : forall l s, sound s = sound st ->
    fold_left (fun st0 i => emit (YM2149_write (Z.of_nat i) (sound st0 !!! i)) st0)
      l s
    = fold_left (fun s0 e => emit e s0)
        (map (fun i : nat => YM2149_write (Z.of_nat i) (sound st !!! i)) l) s).
  { induction l as [|i l IH]; intros s Hs; simpl; [reflexivity|].
    rewrite Hs. apply IH. exact Hs. }
  intros l. apply G. reflexivity.
Qed.

Lemma softc_unchanged sc :
  sc = set_sc_event_mode (sc_event_mode sc)
         (set_sc_events (set_ev_async (ev_async (sc_events sc)) (sc_events sc))
            sc).
Proof. destruct sc as [em ev]. destruct ev. reflexivity. Qed.

(** X14. Whatever the request, [kbdioctl] leaves the package being
    assembled, the command being transmitted, the events in the queue and
    their positions, the opener, the wskbd and polling fields, the modifier
    byte, the ACIA and the clock as they are: of the softc only
    [sc_event_mode] and [ev_async] can change. Only [KIOCRINGBELL] with a
    parameter block changes the sound table, and only [KIOCRINGBELL] has
    an effect outside, the table written to the sound chip. [ENOTTY] is
    the answer to an unknown request and to nothing else, [EOPNOTSUPP] the
    answer to [KIOCTRANS] with another mode than [TR_UNTRANS_EVENT] and to
    nothing else, and the mode [KIOCGTRANS] stores is one that [KIOCTRANS]
    accepts. *)
Theorem kbdioctl_changes_little {R : KbdReg} (cmd : ioctl_request)
    (st : kbd_state) (r : ioctl_result) :
  kbdioctl cmd st = Some r ->
  let st' := ioctl_state r in
  (exists em async,
     softc st' =
     set_sc_event_mode em
       (set_sc_events (set_ev_async async (sc_events (softc st))) (softc st)))
  /\ kbd_modifier st' = kbd_modifier st
  /\ KBD st' = KBD st /\ clock st' = clock st
  /\ clock_reads st' = clock_reads st
  /\ (sound st' <> sound st ->
      exists volume pitch duration,
        cmd = KIOCRINGBELL (Some (volume, pitch, duration)))
  /\ trace st' =
     trace st ++
     match cmd with KIOCRINGBELL _ => YM2149_writes (sound st') | _ => [] end
  /\ (ioctl_error r = Some ENOTTY <-> cmd = ioctl_unknown)
  /\ (ioctl_error r = Some EOPNOTSUPP <->
      exists data, cmd = KIOCTRANS data /\ data <> TR_UNTRANS_EVENT)
  /\ (forall mode, ioctl_data r = Some mode ->
      cmd = KIOCGTRANS
      /\ kbdioctl (KIOCTRANS mode) st' =
         Some {| ioctl_error := None; ioctl_state := st';
                 ioctl_data := None |}).
Proof.
  intros E st'. subst st'.
  assert (Same : forall e d,
    r = {| ioctl_error := e; ioctl_state := st; ioctl_data := d |} ->
    (exists em async,
       softc (ioctl_state r) =
       set_sc_event_mode em
         (set_sc_events (set_ev_async async (sc_events (softc st)))
            (softc st)))
    /\ kbd_modifier (ioctl_state r) = kbd_modifier st
    /\ KBD (ioctl_state r) = KBD st /\ clock (ioctl_state r) = clock st
    /\ clock_reads (ioctl_state r) = clock_reads st
    /\ (sound (ioctl_state r) <> sound st ->
        exists volume pitch duration,
          cmd = KIOCRINGBELL (Some (volume, pitch, duration)))).
  { intros e d ->. simpl. split.
    - eexists _, _. apply softc_unchanged.
    - repeat split. intros N. contradiction. }
  destruct cmd as [data| |data|kb| |data|data|data|]; simpl in E.
  - (* KIOCTRANS *)
    destruct (Z.eqb_spec data TR_UNTRANS_EVENT) as [Ed|Nd];
      injection E as <-;
      (destruct (Same _ _ eq_refl) as (S1 & S2 & S3 & S4 & S5 & S6);
       split; [exact S1|]; split; [exact S2|]; split; [exact S3|];
       split; [exact S4|]; split; [exact S5|]; split; [exact S6|]);
      simpl; rewrite app_nil_r; (split; [reflexivity|]).
    + split; [split; intros H; discriminate H|].
      split; [split|intros mode H; discriminate H].
      * intros H; discriminate H.
      * intros (d & Hd & N). injection Hd as ->. contradiction.
    + split; [split; intros H; discriminate H|].
      split; [split|intros mode H; discriminate H].
      * intros _. exists data. auto.
      * reflexivity.
  - (* KIOCGTRANS *)
    injection E as <-.
    destruct (Same _ _ eq_refl) as (S1 & S2 & S3 & S4 & S5 & S6).
    split; [exact S1|]; split; [exact S2|]; split; [exact S3|];
      split; [exact S4|]; split; [exact S5|]; split; [exact S6|].
    simpl. rewrite app_nil_r. split; [reflexivity|].
    split; [split; intros H; discriminate H|].
    split; [split; [intros H; discriminate H|]|].
    + intros (d & Hd & _). discriminate Hd.
    + intros mode H. injection H as <-. split; [reflexivity|].
      rewrite Z.eqb_refl. reflexivity.
  - (* KIOCSDIRECT *)
    injection E as <-. simpl. split.
    { exists data, (ev_async (sc_events (softc st))).
      destruct (softc st) as [em ev]. destruct ev. reflexivity. }
    rewrite app_nil_r. repeat split; try (intros H; discriminate H).
    + intros N. contradiction.
    + intros (d & Hd & _). discriminate Hd.
    + discriminate.
    + discriminate.
  - (* KIOCRINGBELL *)
    injection E as <-. cbn [ioctl_state ioctl_error ioctl_data].
    rewrite kbdbell_emits.
    set (st1 := match kb with
                | Some (volume, pitch, duration) =>
                    kbd_bell_sparms volume pitch duration st
                | None => st
                end).
    destruct (emit_all_frame (YM2149_writes (sound st1)) st1)
      as (F1 & F2 & F3 & F4 & F5 & F6 & F7).
    rewrite F1, F2, F3, F4, F5, F6, F7.
    assert (G : softc st1 = softc st /\ kbd_modifier st1 = kbd_modifier st
                /\ KBD st1 = KBD st /\ clock st1 = clock st
                /\ clock_reads st1 = clock_reads st /\ trace st1 = trace st).
    { subst st1. destruct kb as [[[v p] d]|]; repeat split. }
    destruct G as (G1 & G2 & G3 & G4 & G5 & G6).
    rewrite G1, G2, G3, G4, G5, G6.
    split; [eexists _, _; apply softc_unchanged|].
    repeat split; try (intros H; discriminate H).
    + intros N. subst st1. destruct kb as [[[v p] d]|].
      * eauto.
      * contradiction.
    + intros (d & Hd & _). discriminate Hd.
    + discriminate.
    + discriminate.
  - (* FIONBIO *)
    injection E as <-.
    destruct (Same _ _ eq_refl) as (S1 & S2 & S3 & S4 & S5 & S6).
    split; [exact S1|]; split; [exact S2|]; split; [exact S3|];
      split; [exact S4|]; split; [exact S5|]; split; [exact S6|].
    simpl. rewrite app_nil_r. split; [reflexivity|].
    split; [split; intros H; discriminate H|].
    split; [split; [intros H; discriminate H|]|intros mode H; discriminate H].
    intros (d & Hd & _). discriminate Hd.
  - (* FIOASYNC *)
    injection E as <-. simpl. split.
    { exists (sc_event_mode (softc st)), (negb (data =? 0)).
      destruct (softc st) as [em ev]. destruct ev. reflexivity. }
    rewrite app_nil_r. repeat split; try (intros H; discriminate H).
    + intros N. contradiction.
    + intros (d & Hd & _). discriminate Hd.
    + discriminate.
    + discriminate.
  - (* FIOSETOWN *)
    destruct (ev_io (sc_events (softc st))) as [p|]; [|discriminate E].
    destruct (negb _ && negb _); injection E as <-;
      (destruct (Same _ _ eq_refl) as (S1 & S2 & S3 & S4 & S5 & S6);
       split; [exact S1|]; split; [exact S2|]; split; [exact S3|];
       split; [exact S4|]; split; [exact S5|]; split; [exact S6|]);
      simpl; rewrite app_nil_r; (split; [reflexivity|]);
      (split; [split; intros H; discriminate H|]);
      (split; [split; [intros H; discriminate H|]
              |intros mode H; discriminate H]);
      intros (d & Hd & _); discriminate Hd.
  - (* TIOCSPGRP *)
    destruct (ev_io (sc_events (softc st))) as [p|]; [|discriminate E].
    destruct (negb _); injection E as <-;
      (destruct (Same _ _ eq_refl) as (S1 & S2 & S3 & S4 & S5 & S6);
       split; [exact S1|]; split; [exact S2|]; split; [exact S3|];
       split; [exact S4|]; split; [exact S5|]; split; [exact S6|]);
      simpl; rewrite app_nil_r; (split; [reflexivity|]);
      (split; [split; intros H; discriminate H|]);
      (split; [split; [intros H; discriminate H|]
              |intros mode H; discriminate H]);
      intros (d & Hd & _); discriminate Hd.
  - (* unknown *)
    injection E as <-.
    destruct (Same _ _ eq_refl) as (S1 & S2 & S3 & S4 & S5 & S6).
    split; [exact S1|]; split; [exact S2|]; split; [exact S3|];
      split; [exact S4|]; split; [exact S5|]; split; [exact S6|].
    simpl. rewrite app_nil_r. split; [reflexivity|].
    split; [split; reflexivity|].
    split; [split; [intros H; discriminate H|]|intros mode H; discriminate H].
    intros (d & Hd & _). discriminate Hd.
Qed.

Lemma kbdioctl_changes_little_witness :
  trace (kbdbell (kbd_bell_sparms 0 440 100 atari_initial))
  = YM2149_writes (sound (kbdbell (kbd_bell_sparms 0 440 100 atari_initial))).
Proof.
  destruct (kbdioctl_changes_little (R := atari_kbdreg)
              (KIOCRINGBELL (Some (0, 440, 100))) atari_initial
              {| ioctl_error := None;
                 ioctl_state := kbdbell (kbd_bell_sparms 0 440 100 atari_initial);
                 ioctl_data := None |})
    as (_ & _ & _ & _ & _ & _ & H & _).
  - reflexivity.
  - exact H.
Defined.

(** ** From open to close *)

Lemma kbdsoft_event_softc {R : KbdReg} st code :
  exists ev, softc (kbdsoft_event st code) = set_sc_events ev (softc st).
Proof.
  unfold kbdsoft_event. destruct (Z.rem _ _ =? _); simpl.
  - exists (sc_events (softc st)). destruct (softc st). reflexivity.
  - eexists. reflexivity.
Qed.

(** Outside event mode a key stroke leaves the softc alone. *)
Lemma kbdsoft_key_no_event {R : KbdReg} st code :
  sc_event_mode (softc st) = 0 -> softc (kbdsoft_key st code) = softc st.
Proof.
  intros Hem. unfold kbdsoft_key. rewrite Hem.
  match goal with
  | |- context [match ?x with Some _ => _ | None => _ end] => destruct x
  end; [reflexivity|].
  pose proof (kbd_do_modifier_softc st code) as Hm.
  destruct (0 <? NITE).
  - destruct (kbd_do_modifier st code) as [m st']. simpl in Hm.
    destruct (negb (m =? 0)); simpl; exact Hm.
  - reflexivity.
Qed.

(** X15. A reader's session. The device is closed, no package is being
    assembled, and [ev_init] gives the opener an empty, well-formed queue
    of more than one slot. Then [kbdopen] succeeds, [KIOCSDIRECT] with a
    value other than 0 succeeds, and the next key code taken from the ring
    is the one event waiting for the reader, stamped with the next reading
    of the clock, and the reader is woken up; neither wskbd nor ite sees
    the key. After [kbdclose] the event mode is off and the device has no
    opener, and the next key code goes where it went before the session:
    to the wskbd if one is attached and not polling, else (with an ite) to
    [ite_filter] unless it is a modifier key; the queue is no longer
    touched. *)
Theorem reader_session {R : KbdReg} {X : KbdExt} (Hok : KbdRegOk R)
    (st : kbd_state) (p : proc) (data c c' : Z) :
  let ev0 := ev_init (set_ev_io (Some p) (sc_events (softc st))) in
  evvar_wf ev0 -> ev_put ev0 = ev_get ev0 -> 1 < EV_QSIZE ->
  ev_io (sc_events (softc st)) = None ->
  idle st -> data <> 0 ->
  KBD_IS_KEY c = true -> KBD_IS_KEY c' = true ->
  exists st1 r,
    kbdopen p st = (kbdopen_0, st1)
    /\ kbdioctl (KIOCSDIRECT data) st1 = Some r
    /\ ioctl_error r = None
    /\ let st3 := kbdsoft_code (ioctl_state r) c in
       ev_pending (sc_events (softc st3)) =
       [{| fe_id := KBD_SCANCODE c;
           fe_value := if KBD_RELEASED c then VKEY_UP else VKEY_DOWN;
           fe_time := clock st (clock_reads st) |}]
       /\ trace st3 = trace st ++ [EV_WAKEUP]
       /\ let st4 := kbdclose st3 in
          sc_event_mode (softc st4) = 0
          /\ ev_io (sc_events (softc st4)) = None
          /\ sc_events (softc (kbdsoft_code st4 c')) = sc_events (softc st4)
          /\ (forall dev,
                0 < NWSKBD -> sc_wskbddev (softc st) = Some dev ->
                sc_pollingmode (softc st) = 0 ->
                trace (kbdsoft_code st4 c') =
                trace st3 ++
                [wskbd_input dev
                   (if KBD_RELEASED c' then WSCONS_EVENT_KEY_UP
                    else WSCONS_EVENT_KEY_DOWN) (KBD_SCANCODE c')])
          /\ (0 < NITE -> no_wskbd st ->
                trace (kbdsoft_code st4 c') =
                trace st3 ++
                (if modifier_key c' then []
                 else [ite_filter c' ITEFILT_TTY])).
Proof.
  intros ev0 Hwf Hempty HQ Hnone Hidle Hdata Hc Hc'.
  unfold kbdopen. rewrite Hnone. fold ev0.
  set (st1 := on_softc (fun sc => set_sc_events ev0 sc) st).
  exists st1, {| ioctl_error := None;
                 ioctl_state := on_softc (set_sc_event_mode data) st1;
                 ioctl_data := None |}.
  split; [reflexivity|]. split; [reflexivity|]. split; [reflexivity|].
  cbn [ioctl_state].
  set (st2 := on_softc (set_sc_event_mode data) st1).
  assert (Hidle2 : idle st2) by exact Hidle.
  assert (Hem2 : sc_event_mode (softc st2) <> 0) by exact Hdata.
  destruct (kbdsoft_code_event_mode st2 c Hidle2 Hc Hem2) as [m Em].
  assert (Hcount : ev_count ev0 = 0).
  { unfold ev_count. rewrite Hempty, Z.sub_diag. apply Z.mod_0_l. lia. }
  destruct (kbdsoft_event_appends st2 c Hwf ltac:(change (ev_count ev0 < EV_QSIZE - 1); lia))
    as (A1 & A2 & A3 & A4 & A5 & A6).
  destruct (kbdsoft_event_softc st2 c) as [ev3 Esc].
  pose proof (kbdsoft_event_frame st2 c) as (Fc & Fm & Fp).
  set (st3 := kbdsoft_code st2 c) in *.
  assert (Esc3 : softc st3 = set_sc_events ev3 (softc st2))
    by (rewrite Em; exact Esc).
  assert (Etr3 : trace st3 = trace st ++ [EV_WAKEUP])
    by (rewrite Em; exact A6).
  cbv zeta. split.
  { rewrite Esc3. cbn [sc_events set_sc_events].
    replace ev3 with (sc_events (softc (kbdsoft_event st2 c)))
      by (rewrite Esc; reflexivity).
    rewrite A4. change (sc_events (softc st2)) with ev0.
    unfold ev_pending at 1. rewrite Hcount. reflexivity. }
  split; [exact Etr3|].
  set (st4 := kbdclose st3).
  assert (Hidle4 : idle st4).
  { unfold idle, st4, kbdclose. cbn. rewrite Esc3. exact Hidle. }
  assert (Hem4 : sc_event_mode (softc st4) = 0) by reflexivity.
  assert (Hdev4 : sc_wskbddev (softc st4) = sc_wskbddev (softc st)).
  { unfold st4, kbdclose. cbn. rewrite Esc3. reflexivity. }
  assert (Hpoll4 : sc_pollingmode (softc st4) = sc_pollingmode (softc st)).
  { unfold st4, kbdclose. cbn. rewrite Esc3. reflexivity. }
  assert (Etr4 : trace st4 = trace st3) by reflexivity.
  split; [reflexivity|]. split; [reflexivity|].
  rewrite (kbdsoft_code_key st4 c' Hidle4 Hc').
  split; [|split].
  - rewrite (kbdsoft_key_no_event st4 c' Hem4). reflexivity.
  - intros dev HW Hdev Hpoll.
    rewrite (kbdsoft_key_wskbd st4 c' dev HW) by congruence.
    rewrite trace_emit, Etr4. reflexivity.
  - intros HI Hno.
    assert (Hno4 : no_wskbd st4).
    { destruct Hno as [H|H]; [left; exact H|right; congruence]. }
    destruct (kbdsoft_key_ite Hok st4 c' HI Hem4 Hno4) as [_ T].
    rewrite T, Etr4. reflexivity.
Qed.

Lemma reader_session_witness :
  exists st1 r,
    kbdopen (X := atari_kbdext) {| p_pid := 100; p_pgid := 100 |} atari_initial
    = (kbdopen_0, st1)
    /\ kbdioctl (R := atari_kbdreg) (KIOCSDIRECT 1) st1 = Some r
    /\ trace (kbdsoft_code (R := atari_kbdreg) (ioctl_state r) 0x1e)
       = [EV_WAKEUP].
Proof.
  destruct (reader_session (R := atari_kbdreg) (X := atari_kbdext)
              atari_kbdreg_ok atari_initial {| p_pid := 100; p_pgid := 100 |}
              1 0x1e 0x1e)
    as (st1 & r & H1 & H2 & _ & _ & H3 & _).
  - split; [reflexivity|]. split; [reflexivity|]. simpl. lia.
  - reflexivity.
  - simpl. lia.
  - reflexivity.
  - reflexivity.
  - discriminate.
  - reflexivity.
  - reflexivity.
  - exists st1, r. split; [exact H1|]. split; [exact H2|exact H3].
Defined.

(** X16. One opener at a time. On a closed device [kbdopen] succeeds and
    touches nothing but the queue of events; as long as the device is
    open, a second [kbdopen] fails with [EBUSY] and changes nothing, and
    [FIOSETOWN] and [TIOCSPGRP] find the opener to check the caller
    against (provided that [ev_init] leaves [ev_io] alone). After
    [kbdclose] the device can be opened again, by anybody. *)
Theorem kbdopen_one_at_a_time {R : KbdReg} {X : KbdExt}
    (st : kbd_state) (p q : proc) (data : Z) :
  ev_io (sc_events (softc st)) = None ->
  ev_io (ev_init (set_ev_io (Some p) (sc_events (softc st)))) = Some p ->
  exists st1,
    kbdopen p st = (kbdopen_0, st1)
    /\ (exists ev, st1 = on_softc (set_sc_events ev) st)
    /\ kbdopen q st1 = (kbdopen_EBUSY, st1)
    /\ kbdioctl (FIOSETOWN data) st1 =
       Some {| ioctl_error :=
                 if (int (- data) =? p_pgid p) || (data =? p_pid p)
                 then None else Some EPERM;
               ioctl_state := st1; ioctl_data := None |}
    /\ kbdioctl (TIOCSPGRP data) st1 =
       Some {| ioctl_error := if data =? p_pgid p then None else Some EPERM;
               ioctl_state := st1; ioctl_data := None |}
    /\ fst (kbdopen q (kbdclose st1)) = kbdopen_0
    /\ fst (kbdopen q (kbdclose st)) = kbdopen_0.
Proof.
  intros Hnone Hinit. unfold kbdopen at 1. rewrite Hnone.
  eexists. split; [reflexivity|].
  split; [eexists; reflexivity|].
  split; [unfold kbdopen; cbn; rewrite Hinit; reflexivity|].
  split; [|split; [|split]].
  - unfold kbdioctl. cbn. rewrite Hinit.
    destruct (int (- data) =? p_pgid p), (data =? p_pid p); reflexivity.
  - unfold kbdioctl. cbn. rewrite Hinit.
    destruct (data =? p_pgid p); reflexivity.
  - reflexivity.
  - reflexivity.
Qed.

Lemma kbdopen_one_at_a_time_witness :
  exists st1,
    kbdopen (X := atari_kbdext) {| p_pid := 100; p_pgid := 100 |} atari_initial
    = (kbdopen_0, st1)
    /\ kbdopen (X := atari_kbdext) {| p_pid := 7; p_pgid := 7 |} st1
       = (kbdopen_EBUSY, st1).
Proof.
  destruct (kbdopen_one_at_a_time (R := atari_kbdreg) (X := atari_kbdext)
              atari_initial {| p_pid := 100; p_pgid := 100 |}
              {| p_pid := 7; p_pgid := 7 |} 0)
    as (st1 & H1 & _ & H2 & _).
  - reflexivity.
  - reflexivity.
  - exists st1. split; [exact H1|exact H2].
Defined.

(** ** Polling mode *)

Section Polling.
Context {R : KbdReg} (Hok : KbdRegOk R).

(** A key stroke the wskbd does not get, outside event mode. *)
Lemma kbdsoft_key_bypassed st code :
  sc_event_mode (softc st) = 0 ->
  no_wskbd st \/ sc_pollingmode (softc st) <> 0 ->
  kbdsoft_key st code =
  if 0 <? NITE then
    if modifier_key code then snd (kbd_do_modifier st code)
    else emit (ite_filter code ITEFILT_TTY) st
  else st.
Proof.
  intros Hem Hby. unfold kbdsoft_key.
  assert (Hb : (if (0 <? NWSKBD) && (sc_pollingmode (softc st) =? 0)
                   && (sc_event_mode (softc st) =? 0)
                then sc_wskbddev (softc st) else None) = None).
  { destruct Hby as [Hno|Hpoll]; [apply kbdsoft_key_no_wskbd; exact Hno|].
    destruct (Z.eqb_spec (sc_pollingmode (softc st)) 0); [contradiction|].
    rewrite andb_false_r. reflexivity. }
  rewrite Hb, Hem.
  destruct (0 <? NITE); [|reflexivity].
  destruct (modifier_key code) eqn:Ek.
  - pose proof (kbd_do_modifier_taken Hok st code Ek) as E1.
    destruct (kbd_do_modifier st code) as [m st']. simpl in E1.
    subst m. reflexivity.
  - rewrite (kbd_do_modifier_other st code Ek). reflexivity.
Qed.

End Polling.

(** X17. Polling mode takes the key strokes away from the wskbd. With a
    wskbd attached and no event mode, a key code taken from the ring goes
    to [wskbd_input] and the modifier byte is not touched. After
    [kbd_pollc] with a value other than 0 the wskbd gets nothing: the key
    goes through [kbd_do_modifier] and, if that does not take it, to
    [ite_filter] (and nowhere in a kernel without ite). [kbd_pollc] with 0
    afterwards gives the key strokes back to the wskbd. *)
Theorem kbd_pollc_bypasses_wskbd {R : KbdReg} (Hok : KbdRegOk R)
    (st : kbd_state) (on code code' : Z) (dev : nat) :
  idle st -> sc_event_mode (softc st) = 0 ->
  0 < NWSKBD -> sc_wskbddev (softc st) = Some dev ->
  sc_pollingmode (softc st) = 0 ->
  KBD_IS_KEY code = true -> KBD_IS_KEY code' = true -> on <> 0 ->
  let input c :=
    wskbd_input dev
      (if KBD_RELEASED c then WSCONS_EVENT_KEY_UP else WSCONS_EVENT_KEY_DOWN)
      (KBD_SCANCODE c) in
  kbdsoft_code st code = emit (input code) st
  /\ let st1 := kbdsoft_code (kbd_pollc on st) code in
     st1 =
     (if 0 <? NITE then
        if modifier_key code
        then snd (kbd_do_modifier (kbd_pollc on st) code)
        else emit (ite_filter code ITEFILT_TTY) (kbd_pollc on st)
      else kbd_pollc on st)
     /\ trace st1 =
        trace st ++
        (if (0 <? NITE) && negb (modifier_key code)
         then [ite_filter code ITEFILT_TTY] else [])
     /\ kbdsoft_code (kbd_pollc 0 st1) code' =
        emit (input code') (kbd_pollc 0 st1).
Proof.
  intros Hidle Hem HW Hdev Hpoll Hc Hc' Hon input.
  split.
  { rewrite kbdsoft_code_key by assumption.
    apply kbdsoft_key_wskbd; assumption. }
  cbv zeta.
  assert (E1 : kbdsoft_code (kbd_pollc on st) code =
               (if 0 <? NITE then
                  if modifier_key code
                  then snd (kbd_do_modifier (kbd_pollc on st) code)
                  else emit (ite_filter code ITEFILT_TTY) (kbd_pollc on st)
                else kbd_pollc on st)).
  { rewrite kbdsoft_code_key by assumption.
    apply kbdsoft_key_bypassed; [exact Hok|exact Hem|right; exact Hon]. }
  split; [exact E1|].
  assert (Esc : softc (kbdsoft_code (kbd_pollc on st) code)
                = softc (kbd_pollc on st)).
  { rewrite kbdsoft_code_key by assumption.
    apply kbdsoft_key_no_event. exact Hem. }
  split.
  - rewrite E1. destruct (0 <? NITE); simpl.
    + destruct (modifier_key code); simpl.
      * rewrite kbd_do_modifier_trace. simpl. symmetry. apply app_nil_r.
      * reflexivity.
    + symmetry. apply app_nil_r.
  - set (st1 := kbdsoft_code (kbd_pollc on st) code) in *.
    rewrite kbdsoft_code_key;
      [|unfold idle, kbd_pollc; cbn; rewrite Esc; exact Hidle|exact Hc'].
    apply kbdsoft_key_wskbd;
      unfold kbd_pollc, on_softc; cbn; rewrite ?Esc;
      unfold kbd_pollc, on_softc; cbn; first [assumption|reflexivity].
Qed.

Lemma kbd_pollc_bypasses_wskbd_witness :
  let st := on_softc (fun sc =>
              {| sc_event_mode := sc_event_mode sc; sc_events := sc_events sc;
                 sc_soft_cs := sc_soft_cs sc; sc_package := sc_package sc;
                 sc_pkg_size := sc_pkg_size sc; sc_pkg_idx := sc_pkg_idx sc;
                 sc_pkg_type := sc_pkg_type sc; sc_sendp := sc_sendp sc;
                 sc_send_cnt := sc_send_cnt sc; sc_wskbddev := Some 0%nat;
                 sc_pollingmode := 0 |}) atari_initial in
  trace (kbdsoft_code (R := atari_kbdreg) (kbd_pollc 1 st) 0x1e)
  = [ite_filter 0x1e ITEFILT_TTY].
Proof.
  intros st.
  destruct (kbd_pollc_bypasses_wskbd (R := atari_kbdreg) atari_kbdreg_ok
              st 1 0x1e 0x9e 0%nat) as (_ & _ & H & _).
  - reflexivity.
  - reflexivity.
  - simpl. lia.
  - reflexivity.
  - reflexivity.
  - reflexivity.
  - reflexivity.
  - discriminate.
  - exact H.
Defined.

(** ** Enabling the keyboard *)

Lemma enabled_bit x I : Z.land (uint8_t (Z.lor x I)) I = uint8_t I.
Proof.
  bitwise.
  destruct (Z.testbit x n), (Z.testbit I n), (n <? 8); reflexivity.
Qed.

Lemma enabled_others x I :
  Z.land (uint8_t (Z.lor x I)) (Z.lnot I) = uint8_t (Z.land x (Z.lnot I)).
Proof.
  bitwise.
  destruct (Z.testbit x n), (Z.testbit I n), (n <? 8); reflexivity.
Qed.

Lemma pending_cleared I : Z.land (uint8_t (Z.lnot I)) I = 0.
Proof.
  bitwise. rewrite Z.bits_0.
  destruct (Z.testbit I n), (n <? 8); reflexivity.
Qed.

(** X18. [kbdenable] starts afresh. In the MFP the bit of the ACIA is set
    in the enable and in the mask register and clear in what is stored to
    the pending register, and the other bits of the enable and the mask
    register stay. The bytes that waited in the ACIA are gone: the next
    interrupt puts nothing into the ring and schedules no soft interrupt.
    A package that was being assembled is given up, so that the next byte
    from the ring is taken as a key code or as the header of a package,
    as its value says; event mode is off and the device has no opener.
    The ring, the modifier byte, the command being sent and what the
    driver has done so far are not touched. *)
Theorem kbdenable_starts_afresh {R : KbdReg} {X : KbdExt}
    (m : mfp) (st : kbd_state) (rb : ringbuf) (code : Z) :
  let m' := fst (kbdenable m st) in
  let st' := snd (kbdenable m st) in
  (Z.land (mf_ierb m') IB_AINT = uint8_t IB_AINT
   /\ Z.land (mf_imrb m') IB_AINT = uint8_t IB_AINT
   /\ Z.land (mf_iprb m') IB_AINT = 0
   /\ Z.land (mf_ierb m') (Z.lnot IB_AINT)
      = uint8_t (Z.land (mf_ierb m) (Z.lnot IB_AINT))
   /\ Z.land (mf_imrb m') (Z.lnot IB_AINT)
      = uint8_t (Z.land (mf_imrb m) (Z.lnot IB_AINT)))
  /\ kbdintr rb st' = (rb, kbdintr_tx st')
  /\ kbdsoft_code st' code =
     (if KBD_IS_KEY code then kbdsoft_key st' code
      else kbd_pkg_start st' code)
  /\ sc_event_mode (softc st') = 0
  /\ ev_io (sc_events (softc st')) = None
  /\ kbd_modifier st' = kbd_modifier st
  /\ sc_sendp (softc st') = sc_sendp (softc st)
  /\ sc_send_cnt (softc st') = sc_send_cnt (softc st)
  /\ sc_soft_cs (softc st') = sc_soft_cs (softc st)
  /\ trace st' = trace st.
Proof.
  cbv zeta. unfold kbdenable. cbn [fst snd mf_ierb mf_imrb mf_iprb].
  split.
  { split; [apply enabled_bit|]. split; [apply enabled_bit|].
    split; [apply pending_cleared|].
    split; apply enabled_others. }
  split; [reflexivity|].
  split.
  { unfold kbdsoft_code. cbn. destruct (KBD_IS_KEY code); reflexivity. }
  repeat split.
Qed.

(** ** The bell *)

Lemma low_byte f : uint8_t (Z.land f 0xff) = f mod 256.
Proof.
  rewrite uint8_t_mod. change 0xff with (Z.ones 8).
  rewrite Z.land_ones by lia. change (2 ^ 8) with 256.
  apply Z.mod_mod. lia.
Qed.

Lemma high_bits f w :
  0 <= w <= 8 ->
  uint8_t (Z.land (Z.shiftr f 8) (Z.ones w)) = (f / 256) mod 2 ^ w.
Proof.
  intros Hw. rewrite Z.land_ones, Z.shiftr_div_pow2 by lia.
  change (2 ^ 8) with 256. apply uint8_t_small.
  pose proof (Z.mod_pos_bound (f / 256) (2 ^ w) ltac:(lia)).
  assert (2 ^ w <= 2 ^ 8) by (apply Z.pow_le_mono_r; lia).
  change (2 ^ 8) with 256 in *. lia.
Qed.

(** X19. What the bell plays. [kbd_bell] writes the fourteen registers of
    the sound chip, from 0 up, once each and nothing else. With [f] the
    clock divided by the pitch (the pitch taken as 10 below 10 and as
    20000 above 20000) and [t] the duration in units of 128/1000, the
    three tone generators get the periods [f], [f - 1] and [f + 1] as a
    low byte and 4 bits above, the envelope period gets [t] as two bytes,
    the envelope shape gets 3, and the registers 6 to 10 (noise, mixer and
    the three levels) get what the table had. The volume asked for plays
    no part. [WSKBDIO_COMPLEXBELL] of wscons and [KIOCRINGBELL] with a
    parameter block do just this. *)
Theorem kbd_bell_programs_the_chip {R : KbdReg} {X : KbdExt}
    (st : kbd_state) (pitch duration volume : Z) :
  length (sound st) = 14%nat ->
  let f := KBDBELLCLOCK / Z.max 10 (Z.min pitch 20000) in
  let t := u_int (duration * 1000) / KBDBELLDURATION in
  let st' := kbd_bell pitch duration volume st in
  trace st' =
  trace st ++
  [YM2149_write 0 (f mod 256); YM2149_write 1 (f / 256 mod 16);
   YM2149_write 2 ((f - 1) mod 256); YM2149_write 3 ((f - 1) / 256 mod 16);
   YM2149_write 4 ((f + 1) mod 256); YM2149_write 5 ((f + 1) / 256 mod 16);
   YM2149_write 6 (sound st !!! 6%nat); YM2149_write 7 (sound st !!! 7%nat);
   YM2149_write 8 (sound st !!! 8%nat); YM2149_write 9 (sound st !!! 9%nat);
   YM2149_write 10 (sound st !!! 10%nat);
   YM2149_write 11 (t mod 256); YM2149_write 12 (t / 256 mod 256);
   YM2149_write 13 3]
  /\ trace st' = trace st ++ YM2149_writes (sound st')
  /\ length (sound st') = 14%nat
  /\ softc st' = softc st /\ kbd_modifier st' = kbd_modifier st
  /\ st' = kbd_bell pitch duration 0 st
  /\ kbd_ioctl (WSKBDIO_COMPLEXBELL pitch duration volume) st
     = (wskbd_0, st', None)
  /\ kbdioctl (KIOCRINGBELL (Some (volume, pitch, duration))) st
     = Some {| ioctl_error := None; ioctl_state := st'; ioctl_data := None |}.
Proof.
  intros Hlen f t st'.
  assert (Hf : 6 <= f <= 12500).
  { apply (bell_divisor (Z.max 10 (Z.min pitch 20000))). lia. }
  assert (Es : sound (kbd_bell_sparms volume pitch duration st) =
    [f mod 256; f / 256 mod 16; (f - 1) mod 256; (f - 1) / 256 mod 16;
     (f + 1) mod 256; (f + 1) / 256 mod 16;
     sound st !!! 6%nat; sound st !!! 7%nat; sound st !!! 8%nat;
     sound st !!! 9%nat; sound st !!! 10%nat;
     t mod 256; t / 256 mod 256; 3]).
  { unfold kbd_bell_sparms. rewrite clamped_pitch. fold f. fold t.
    rewrite (u_int_small (f - 1)) by lia.
    rewrite (u_int_small (f - 1 + 2)) by lia.
    replace (f - 1 + 2) with (f + 1) by lia.
    change 0xf with (Z.ones 4). rewrite !(high_bits _ 4) by lia.
    rewrite !low_byte, (Z.shiftr_div_pow2 t 8) by lia.
    change (2 ^ 4) with 16. change (2 ^ 8) with 256.
    destruct (sound st) as [|s0 [|s1 [|s2 [|s3 [|s4 [|s5 [|s6 [|s7 [|s8 [|s9
      [|s10 [|s11 [|s12 [|s13 [|]]]]]]]]]]]]]]]; try discriminate Hlen.
    reflexivity. }
  assert (Etr : trace st' = trace st ++ YM2149_writes (sound st')).
  { unfold st', kbd_bell. rewrite kbdbell_emits.
    destruct (emit_all_frame
                (YM2149_writes (sound (kbd_bell_sparms volume pitch duration st)))
                (kbd_bell_sparms volume pitch duration st))
      as (_ & _ & F3 & _ & _ & _ & F7).
    rewrite F7, F3. reflexivity. }
  assert (Esnd : sound st' = sound (kbd_bell_sparms volume pitch duration st)).
  { unfold st', kbd_bell. rewrite kbdbell_emits. apply emit_all_frame. }
  split.
  { rewrite Etr, Esnd, Es. reflexivity. }
  split; [exact Etr|].
  split; [rewrite Esnd, Es; reflexivity|].
  split.
  { unfold st', kbd_bell. rewrite kbdbell_emits.
    destruct (emit_all_frame
                (YM2149_writes (sound (kbd_bell_sparms volume pitch duration st)))
                (kbd_bell_sparms volume pitch duration st)) as (F1 & _).
    rewrite F1. reflexivity. }
  split.
  { unfold st', kbd_bell. rewrite kbdbell_emits.
    destruct (emit_all_frame
                (YM2149_writes (sound (kbd_bell_sparms volume pitch duration st)))
                (kbd_bell_sparms volume pitch duration st)) as (_ & F2 & _).
    rewrite F2. reflexivity. }
  repeat split.
Qed.

Lemma kbd_bell_programs_the_chip_witness :
  trace (kbd_bell 440 100 0 atari_initial) =
  [YM2149_write 0 28; YM2149_write 1 1; YM2149_write 2 27; YM2149_write 3 1;
   YM2149_write 4 29; YM2149_write 5 1; YM2149_write 6 0;
   YM2149_write 7 0xF8; YM2149_write 8 0x10; YM2149_write 9 0x10;
   YM2149_write 10 0x10; YM2149_write 11 13; YM2149_write 12 3;
   YM2149_write 13 3].
Proof.
  destruct (kbd_bell_programs_the_chip (R := atari_kbdreg)
              (X := atari_kbdext) atari_initial 440 100 0) as [H _].
  - reflexivity.
  - exact H.
Defined.

(** ** From the ACIA to the consumer *)

Section Pipeline.
Context {R : KbdReg}.

Lemma kbdintr_rx_got rx : forall rb got_char,
  snd (kbdintr_rx rx rb got_char)
  = match rx with [] => got_char | _ => true end.
Proof.
  induction rx as [|[e c] rx IH]; intros rb got_char; [reflexivity|].
  simpl. destruct e; rewrite IH; destruct rx; reflexivity.
Qed.

(** An interrupt with no command being sent. *)
Lemma kbdintr_no_transmit rb st :
  Z.land (sc_soft_cs (softc st)) A_TXINT = 0 ->
  snd (kbdintr rb st) =
  let st1 :=
    set_KBD {| rx_pending := []; tx_ready := tx_ready (KBD st) |} st in
  match rx_pending (KBD st) with
  | [] => st1
  | _ => emit rnd_add_uint32 (emit softint_schedule st1)
  end.
Proof.
  intros Hcs. unfold kbdintr.
  pose proof (kbdintr_rx_got (rx_pending (KBD st)) rb false) as Eg.
  destruct (kbdintr_rx (rx_pending (KBD st)) rb false) as [rb1 got].
  simpl in Eg. subst got.
  unfold kbdintr_tx. cbn [softc set_KBD]. rewrite Hcs. cbn.
  destruct (rx_pending (KBD st)); reflexivity.
Qed.

Lemma kbdsoft_key_KBD st code : KBD (kbdsoft_key st code) = KBD st.
Proof.
  unfold kbdsoft_key.
  match goal with
  | |- context [match ?x with Some _ => _ | None => _ end] => destruct x
  end; [reflexivity|].
  destruct (kbd_do_modifier_frame st code) as [m Hm].
  assert (Hev : forall s, KBD (kbdsoft_event s code) = KBD s).
  { intros s. unfold kbdsoft_event. destruct (Z.rem _ _ =? _); reflexivity. }
  destruct (0 <? NITE).
  - destruct (kbd_do_modifier st code) as [k st']. simpl in Hm. subst st'.
    destruct (negb (k =? 0) && _); [reflexivity|].
    destruct (sc_event_mode (softc st) =? 0); [reflexivity|].
    rewrite Hev. reflexivity.
  - destruct (negb (0 =? 0) && _); [reflexivity|].
    destruct (sc_event_mode (softc st) =? 0); [reflexivity|].
    apply Hev.
Qed.

Lemma kbdsoft_keys_KBD l : forall st,
  KBD (fold_left kbdsoft_key l st) = KBD st.
Proof.
  induction l as [|c l IH]; intros st; simpl; [reflexivity|].
  rewrite IH. apply kbdsoft_key_KBD.
Qed.

(** Key strokes in a row, all taken by the wskbd. *)
Lemma kbdsoft_keys_wskbd dev l : forall st,
  0 < NWSKBD -> sc_wskbddev (softc st) = Some dev ->
  sc_pollingmode (softc st) = 0 -> sc_event_mode (softc st) = 0 ->
  trace (fold_left kbdsoft_key l st) =
  trace st ++
  map (fun c =>
         wskbd_input dev
           (if KBD_RELEASED c then WSCONS_EVENT_KEY_UP
            else WSCONS_EVENT_KEY_DOWN) (KBD_SCANCODE c)) l.
Proof.
  induction l as [|c l IH]; intros st HW Hdev Hpoll Hem; simpl.
  - symmetry. apply app_nil_r.
  - rewrite (kbdsoft_key_wskbd st c dev HW Hdev Hpoll Hem).
    rewrite IH by assumption. rewrite trace_emit, <- app_assoc. reflexivity.
Qed.

End Pipeline.

(** X20. From the keyboard to the consumer. Key codes wait in the ACIA,
    some of them read with an error; the ring is empty, no command is
    being sent, no package is being assembled and event mode is off. Then
    one interrupt and the soft interrupt it schedules deliver the key
    codes that came without error, all of them (up to the 256 the ring
    holds), once each and in the order they came: to [wskbd_input] if a
    wskbd is attached and not polling, else (with an ite) to [ite_filter]
    except for the modifier keys. Afterwards the ring is empty again and
    nothing waits in the ACIA; the codes read with an error have left no
    trace. *)
Theorem keys_from_acia_to_consumer {R : KbdReg} (Hok : KbdRegOk R)
    (rb : ringbuf) (st : kbd_state) (fuel : nat) :
  let rx := rx_pending (KBD st) in
  let good := map snd (List.filter (fun e => negb (fst e)) rx) in
  ringbuf_wf rb -> kbd_rbget rb = kbd_rbput rb ->
  (length good <= 256)%nat -> (258 <= fuel)%nat ->
  Forall (fun c => KBD_IS_KEY c = true) good ->
  idle st -> sc_event_mode (softc st) = 0 ->
  Z.land (sc_soft_cs (softc st)) A_TXINT = 0 ->
  let st1 := snd (kbdintr rb st) in
  exists rb2 st2,
    kbdsoft fuel (fst (kbdintr rb st)) st1 = Some (rb2, st2)
    /\ kbd_rbget rb2 = kbd_rbput rb2
    /\ rx_pending (KBD st2) = []
    /\ trace st1 =
       trace st ++
       match rx with [] => [] | _ => [softint_schedule; rnd_add_uint32] end
    /\ (forall dev,
          0 < NWSKBD -> sc_wskbddev (softc st) = Some dev ->
          sc_pollingmode (softc st) = 0 ->
          trace st2 =
          trace st1 ++
          map (fun c =>
                 wskbd_input dev
                   (if KBD_RELEASED c then WSCONS_EVENT_KEY_UP
                    else WSCONS_EVENT_KEY_DOWN) (KBD_SCANCODE c)) good)
    /\ (0 < NITE -> no_wskbd st ->
          trace st2 =
          trace st1 ++
          map (fun c => ite_filter c ITEFILT_TTY)
            (List.filter (fun c => negb (modifier_key c)) good)).
Proof.
  intros rx good Hwf Hempty Hlen Hfuel Hkeys Hidle Hem Hcs st1.
  assert (E1 : st1 =
    let s := set_KBD {| rx_pending := []; tx_ready := tx_ready (KBD st) |} st in
    match rx with
    | [] => s
    | _ => emit rnd_add_uint32 (emit softint_schedule s)
    end) by (apply kbdintr_no_transmit; exact Hcs).
  assert (Esc : softc st1 = softc st)
    by (rewrite E1; cbv zeta; destruct rx; reflexivity).
  assert (EK : rx_pending (KBD st1) = [])
    by (rewrite E1; cbv zeta; destruct rx; reflexivity).
  assert (Etr : trace st1 =
                trace st ++
                match rx with
                | [] => []
                | _ => [softint_schedule; rnd_add_uint32]
                end).
  { rewrite E1. cbv zeta. destruct rx; simpl.
    - symmetry. apply app_nil_r.
    - rewrite <- app_assoc. reflexivity. }
  assert (Hidle1 : idle st1) by (unfold idle; rewrite Esc; exact Hidle).
  destruct (kbdsoft_code_keys good st1 Hidle1 Hkeys) as [Ef _].
  exists (set_kbd_rbget (kbd_rbput (put_all good rb)) (put_all good rb)),
    (fold_left kbdsoft_key good st1).
  split.
  { unfold kbdsoft. rewrite kbdintr_pushes. fold rx. fold good.
    rewrite (kbdsoft_loop_pushed kbdsoft_code rb good fuel st1)
      by assumption.
    rewrite Ef. reflexivity. }
  split; [reflexivity|].
  split; [rewrite kbdsoft_keys_KBD; exact EK|].
  split; [exact Etr|].
  split.
  - intros dev HW Hdev Hpoll.
    apply kbdsoft_keys_wskbd; rewrite ?Esc; assumption.
  - intros HI Hno.
    apply (kbdsoft_keys_ite Hok); [exact HI|rewrite Esc; exact Hem|].
    unfold no_wskbd in *. rewrite Esc. exact Hno.
Qed.

Lemma keys_from_acia_to_consumer_witness :
  let st := set_KBD {| rx_pending := [(false, 0x2a); (false, 0x1e);
                                      (true, 0x55); (false, 0x9e)];
                       tx_ready := true |} atari_initial in
  exists rb2 st2,
    kbdsoft (R := atari_kbdreg) 300
      (fst (kbdintr (R := atari_kbdreg) ring_initial st))
      (snd (kbdintr (R := atari_kbdreg) ring_initial st)) = Some (rb2, st2)
    /\ trace st2 =
       [softint_schedule; rnd_add_uint32;
        ite_filter 0x1e ITEFILT_TTY; ite_filter 0x9e ITEFILT_TTY].
Proof.
  intros st.
  destruct (keys_from_acia_to_consumer (R := atari_kbdreg) atari_kbdreg_ok
              ring_initial st 300)
    as (rb2 & st2 & H1 & _ & _ & H2 & _ & H3).
  - exact ring_initial_wf.
  - reflexivity.
  - simpl. lia.
  - lia.
  - repeat constructor.
  - reflexivity.
  - reflexivity.
  - reflexivity.
  - exists rb2, st2. split; [exact H1|].
    rewrite H3, H2.
    + reflexivity.
    + simpl. lia.
    + right. reflexivity.
Defined.

(** ** After an unknown header *)

Section AfterHeader.
Context {R : KbdReg}.

(** Key strokes touch nothing of the softc but the queue of events. *)
Lemma kbdsoft_keys_softc l : forall st,
  exists ev, softc (fold_left kbdsoft_key l st) = set_sc_events ev (softc st).
Proof.
  induction l as [|c l IH]; intros st; simpl.
  - exists (sc_events (softc st)). destruct (softc st). reflexivity.
  - destruct (kbdsoft_key_softc st c) as [ev1 E1].
    destruct (IH (kbdsoft_key st c)) as [ev2 E2].
    exists ev2. rewrite E2, E1. reflexivity.
Qed.

(** Key strokes in a row that the wskbd takes: nothing else happens. *)
Lemma kbdsoft_keys_wskbd_only dev l : forall st,
  0 < NWSKBD -> sc_wskbddev (softc st) = Some dev ->
  sc_pollingmode (softc st) = 0 -> sc_event_mode (softc st) = 0 ->
  fold_left kbdsoft_key l st =
  emit_all
    (map (fun c =>
            wskbd_input dev
              (if KBD_RELEASED c then WSCONS_EVENT_KEY_UP
               else WSCONS_EVENT_KEY_DOWN) (KBD_SCANCODE c)) l) st.
Proof.
  induction l as [|c l IH]; intros st HW Hdev Hpoll Hem; simpl;
    [reflexivity|].
  rewrite (kbdsoft_key_wskbd st c dev HW Hdev Hpoll Hem).
  apply IH; assumption.
Qed.

Lemma kbd_do_modifier_emit e st code :
  kbd_do_modifier (emit e st) code =
  (fst (kbd_do_modifier st code), emit e (snd (kbd_do_modifier st code))).
Proof.
  unfold kbd_do_modifier. cbn [kbd_modifier emit].
  repeat match goal with
         | |- context [if ?b then _ else _] => destruct b
         end; reflexivity.
Qed.

Lemma track_modifiers_emit e rx : forall st,
  track_modifiers rx (emit e st) = emit e (track_modifiers rx st).
Proof.
  unfold track_modifiers.
  induction rx as [|[err c] rx IH]; intros st; simpl; [reflexivity|].
  destruct err; simpl; [apply IH|].
  rewrite kbd_do_modifier_emit. simpl. apply IH.
Qed.

Lemma kbd_do_modifier_on_softc f st code :
  kbd_do_modifier (on_softc f st) code =
  (fst (kbd_do_modifier st code), on_softc f (snd (kbd_do_modifier st code))).
Proof.
  unfold kbd_do_modifier. cbn [kbd_modifier on_softc set_softc].
  repeat match goal with
         | |- context [if ?b then _ else _] => destruct b
         end; reflexivity.
Qed.

Lemma track_modifiers_on_softc f rx : forall st,
  track_modifiers rx (on_softc f st) = on_softc f (track_modifiers rx st).
Proof.
  unfold track_modifiers.
  induction rx as [|[err c] rx IH]; intros st; simpl; [reflexivity|].
  destruct err; simpl; [apply IH|].
  rewrite kbd_do_modifier_on_softc. simpl. apply IH.
Qed.

(** Key strokes in a row that the wskbd does not get, outside event mode:
    with ite, the modifier keys are tracked and the others go to
    [ite_filter]; without, nothing happens at all. *)
Lemma kbdsoft_keys_bypassed (Hok : KbdRegOk R) l : forall st,
  sc_event_mode (softc st) = 0 ->
  no_wskbd st \/ sc_pollingmode (softc st) <> 0 ->
  let st' := fold_left kbdsoft_key l st in
  softc st' = softc st
  /\ trace st' =
     trace st ++
     (if 0 <? NITE
      then map (fun c => ite_filter c ITEFILT_TTY)
             (List.filter (fun c => negb (modifier_key c)) l)
      else [])
  /\ kbd_modifier st' =
     kbd_modifier
       (if 0 <? NITE then track_modifiers (map (pair false) l) st else st).
Proof.
  induction l as [|c l IH]; intros st Hem Hby; cbv zeta.
  - simpl. destruct (0 <? NITE); rewrite app_nil_r; repeat split.
  - simpl fold_left.
    pose proof (kbdsoft_key_bypassed Hok st c Hem Hby) as E.
    pose proof (kbdsoft_key_no_event st c Hem) as Esc.
    assert (Hby' : no_wskbd (kbdsoft_key st c)
                   \/ sc_pollingmode (softc (kbdsoft_key st c)) <> 0).
    { unfold no_wskbd in *. rewrite Esc. exact Hby. }
    destruct (IH (kbdsoft_key st c) ltac:(rewrite Esc; exact Hem) Hby')
      as (I1 & I2 & I3).
    rewrite I1, I2, I3, Esc. split; [reflexivity|].
    rewrite E. clear I1 I2 I3 E.
    destruct (0 <? NITE); [|split; reflexivity].
    unfold track_modifiers at 2. simpl fold_left.
    fold (track_modifiers (map (pair false) l)
            (snd (kbd_do_modifier st c))).
    simpl List.filter.
    destruct (modifier_key c) eqn:Ek; simpl.
    + rewrite kbd_do_modifier_trace. split; reflexivity.
    + rewrite (kbd_do_modifier_other st c Ek). simpl.
      rewrite <- app_assoc. split; [reflexivity|].
      rewrite track_modifiers_emit. reflexivity.
Qed.

(** Key strokes in a row in event mode, as long as the queue has room:
    one event each, in their order. *)
Lemma kbdsoft_keys_queued l : forall st,
  idle st -> sc_event_mode (softc st) <> 0 ->
  evvar_wf (sc_events (softc st)) ->
  Forall (fun c => KBD_IS_KEY c = true) l ->
  ev_count (sc_events (softc st)) + Z.of_nat (length l) <= EV_QSIZE - 1 ->
  let st' := fold_left kbdsoft_code l st in
  ev_pending (sc_events (softc st')) =
  ev_pending (sc_events (softc st))
  ++ key_events (clock st) (clock_reads st) l
  /\ trace st' = trace st ++ replicate (length l) EV_WAKEUP.
Proof.
  induction l as [|c l IH]; intros st Hidle Hem Hwf Hl Hroom; cbv zeta.
  - simpl. rewrite !app_nil_r. split; reflexivity.
  - inversion Hl as [|? ? Hc Hl']; subst. simpl fold_left.
    simpl length in Hroom.
    destruct (kbdsoft_code_event_mode st c Hidle Hc Hem) as [m Em].
    pose proof (kbdsoft_event_frame st c) as (Fc & Fm & Fp).
    destruct (kbdsoft_event_appends st c Hwf ltac:(lia))
      as (A1 & A2 & A3 & A4 & A5 & A6).
    set (st1 := kbdsoft_code st c) in *.
    assert (Hidle1 : idle st1) by (rewrite Em; unfold idle; simpl; congruence).
    assert (Hem1 : sc_event_mode (softc st1) <> 0)
      by (rewrite Em; simpl; congruence).
    assert (Hclk : clock st1 = clock st) by (rewrite Em; exact Fc).
    assert (Esc : sc_events (softc st1)
                  = sc_events (softc (kbdsoft_event st c)))
      by (rewrite Em; reflexivity).
    assert (Ereads : clock_reads st1 = S (clock_reads st))
      by (rewrite Em; exact A5).
    assert (Etr : trace st1 = trace st ++ [EV_WAKEUP])
      by (rewrite Em; exact A6).
    destruct (IH st1 Hidle1 Hem1) as (I1 & I2).
    + rewrite Esc. exact A1.
    + exact Hl'.
    + rewrite Esc, A3. lia.
    + rewrite I1, I2, Esc, A4, Hclk, Ereads, Etr. simpl.
      rewrite <- !app_assoc. split; reflexivity.
Qed.

End AfterHeader.

(** C4. With no package being assembled, a byte that is not a key code and
    not a header [kbd_pkg_start] knows starts no package: the byte is
    reported by [printf] and [sc_pkg_size] stays 0. None of the key codes
    that follow is stuffed into a package: the package buffer, its index,
    its size and its type stay as the header left them. Each of them is a
    key stroke of its own, on whichever of the three ways the driver is
    set to: to [wskbd_input] and nowhere else (wskbd attached, no polling,
    no event mode); through the modifier processing and, unless that takes
    it, to [ite_filter] (no event mode and no wskbd or polling mode; in a
    kernel without ite, nowhere); or into the queue of events, one event
    each in their order, as long as the queue has room (event mode). *)
Theorem unknown_header_starts_no_package {R : KbdReg} (st : kbd_state)
    (h : Z) (l : list Z) :
  idle st -> KBD_IS_KEY h = false -> known_header h = false ->
  Forall (fun c => KBD_IS_KEY c = true) l ->
  let st1 := kbdsoft_code st h in
  let st2 := fold_left kbdsoft_code l st1 in
  (st1 = emit (printf_unknown_packet h)
           (on_softc (fun sc =>
              set_sc_package (<[0%nat := h]> (sc_package sc))
                (set_sc_pkg_idx 1 sc)) st)
   /\ idle st1)
  /\ (st2 = fold_left kbdsoft_key l st1 /\ idle st2)
  /\ (sc_package (softc st2) = <[0%nat := h]> (sc_package (softc st))
      /\ sc_pkg_idx (softc st2) = 1
      /\ sc_pkg_size (softc st2) = 0
      /\ sc_pkg_type (softc st2) = sc_pkg_type (softc st))
  /\ (forall dev,
        0 < NWSKBD -> sc_wskbddev (softc st) = Some dev ->
        sc_pollingmode (softc st) = 0 -> sc_event_mode (softc st) = 0 ->
        st2 =
        emit_all
          (map (fun c =>
                  wskbd_input dev
                    (if KBD_RELEASED c then WSCONS_EVENT_KEY_UP
                     else WSCONS_EVENT_KEY_DOWN) (KBD_SCANCODE c)) l) st1)
  /\ (KbdRegOk R -> sc_event_mode (softc st) = 0 ->
      no_wskbd st \/ sc_pollingmode (softc st) <> 0 ->
      softc st2 = softc st1
      /\ trace st2 =
         trace st ++ [printf_unknown_packet h] ++
         (if 0 <? NITE
          then map (fun c => ite_filter c ITEFILT_TTY)
                 (List.filter (fun c => negb (modifier_key c)) l)
          else [])
      /\ kbd_modifier st2 =
         kbd_modifier
           (if 0 <? NITE then track_modifiers (map (pair false) l) st
            else st))
  /\ (sc_event_mode (softc st) <> 0 ->
      evvar_wf (sc_events (softc st)) ->
      ev_count (sc_events (softc st)) + Z.of_nat (length l) <= EV_QSIZE - 1 ->
      ev_pending (sc_events (softc st2)) =
      ev_pending (sc_events (softc st))
      ++ key_events (clock st) (clock_reads st) l
      /\ trace st2 =
         trace st ++ [printf_unknown_packet h]
         ++ replicate (length l) EV_WAKEUP).
Proof.
  intros Hidle Hkey Hh Hl st1 st2.
  assert (E1 : st1 = emit (printf_unknown_packet h)
                       (on_softc (fun sc =>
                          set_sc_package (<[0%nat := h]> (sc_package sc))
                            (set_sc_pkg_idx 1 sc)) st)).
  { unfold st1, kbdsoft_code. rewrite Hidle, Hkey. simpl.
    unfold kbd_pkg_start.
    unfold known_header, package_headers in Hh. simpl in Hh.
    repeat (apply orb_false_elim in Hh; destruct Hh as [? Hh]).
    repeat match goal with H : (h =? _) = false |- _ => rewrite H; clear H end.
    reflexivity. }
  assert (Hidle1 : idle st1) by (rewrite E1; exact Hidle).
  destruct (kbdsoft_code_keys l st1 Hidle1 Hl) as [E2 Hidle2].
  fold st2 in E2, Hidle2.
  split; [split; [exact E1|exact Hidle1]|].
  split; [split; [exact E2|exact Hidle2]|].
  clearbody st2. clearbody st1. subst st1 st2.
  set (st1 := emit (printf_unknown_packet h)
                (on_softc (fun sc =>
                   set_sc_package (<[0%nat := h]> (sc_package sc))
                     (set_sc_pkg_idx 1 sc)) st)) in *.
  split.
  { destruct (kbdsoft_keys_softc l st1) as [ev ->].
    repeat split. exact Hidle. }
  split.
  { intros dev HW Hdev Hpoll Hem.
    apply kbdsoft_keys_wskbd_only; assumption. }
  split.
  { intros Hok Hem Hby.
    destruct (kbdsoft_keys_bypassed Hok l st1 Hem Hby) as (B1 & B2 & B3).
    split; [exact B1|]. split.
    - rewrite B2. unfold st1. rewrite trace_emit, trace_on_softc.
      rewrite <- app_assoc. reflexivity.
    - rewrite B3. destruct (0 <? NITE); [|reflexivity].
      unfold st1. rewrite track_modifiers_emit.
      rewrite track_modifiers_on_softc. reflexivity. }
  intros Hem Hwf Hroom.
  destruct (kbdsoft_code_keys l st1 Hidle1 Hl) as [E2 _]. rewrite <- E2.
  destruct (kbdsoft_keys_queued l st1 Hidle1 Hem Hwf Hl Hroom) as (Q1 & Q2).
  split; [exact Q1|].
  rewrite Q2. unfold st1. rewrite trace_emit, trace_on_softc.
  rewrite <- app_assoc. reflexivity.
Qed.

Lemma unknown_header_starts_no_package_witness :
  let st2 := fold_left (kbdsoft_code (R := atari_kbdreg)) [0x1e; 0x2a; 0x9e]
               (kbdsoft_code (R := atari_kbdreg) atari_initial 0xfd) in
  sc_pkg_idx (softc st2) = 1 /\ sc_pkg_size (softc st2) = 0
  /\ trace st2 =
     [printf_unknown_packet 0xfd; ite_filter 0x1e ITEFILT_TTY;
      ite_filter 0x9e ITEFILT_TTY].
Proof.
  destruct (unknown_header_starts_no_package (R := atari_kbdreg)
              atari_initial 0xfd [0x1e; 0x2a; 0x9e])
    as (_ & _ & (_ & P2 & P3 & _) & _ & H & _).
  - reflexivity.
  - reflexivity.
  - reflexivity.
  - repeat constructor.
  - destruct H as (_ & T & _).
    + exact atari_kbdreg_ok.
    + reflexivity.
    + left. right. reflexivity.
    + split; [exact P2|]. split; [exact P3|exact T].
Defined.
